(** * miniloop: a shallow embedding of the event loop and its watcher adapters

    The development follows [src/miniloop.c], [src/io.c], the signal adapter
    and the two headers.  C objects live in two stores indexed by address
    (watchers and contexts), a pointer is an optional address, and every
    library function is a computation in a state-and-fault monad: a null or
    dangling dereference is a [Segv], a loop that exhausts its fuel is a
    [Timeout].  The kernel is abstract: a transition function answers every
    system call, and each call made is appended to a trace. *)

From stdpp Require Import gmap list.
From Stdlib Require Import ZArith Lia.

Local Open Scope Z_scope.

(** ** Constants of the headers *)

Module Const.

(* <sys/epoll.h> *)
Definition EPOLLIN      : Z := 1.
Definition EPOLLPRI     : Z := 2.
Definition EPOLLOUT     : Z := 4.
Definition EPOLLERR     : Z := 8.
Definition EPOLLHUP     : Z := 16.
Definition EPOLLRDHUP   : Z := 8192.
Definition EPOLLONESHOT : Z := 1073741824.
Definition EPOLLET      : Z := 2147483648.
Definition EPOLL_CLOEXEC : Z := 524288.
Definition EPOLL_CTL_ADD : Z := 1.
Definition EPOLL_CTL_DEL : Z := 2.
Definition EPOLL_CTL_MOD : Z := 3.

(* <sys/inotify.h>, <sys/signalfd.h>, <signal.h>, <unistd.h>, <errno.h> *)
Definition IN_NONBLOCK  : Z := 2048.
Definition IN_CLOEXEC   : Z := 524288.
Definition SFD_NONBLOCK : Z := 2048.
Definition SFD_CLOEXEC  : Z := 524288.
Definition SIG_BLOCK    : Z := 0.
Definition _NSIG        : Z := 65.
Definition STDIN_FILENO : Z := 0.
Definition EPERM        : Z := 1.
Definition EINTR        : Z := 4.
Definition EINVAL       : Z := 22.
Definition EMFILE       : Z := 24.
Definition sizeof_signalfd_siginfo : Z := 128.
Definition sizeof_uint64 : Z := 8.

(* miniloop.h *)
Definition MINILOOP_MAX_EVENTS : Z := 10.
Definition MINILOOP_NONE    : Z := 0.
Definition MINILOOP_ERROR   : Z := EPOLLERR.
Definition MINILOOP_READ    : Z := EPOLLIN.
Definition MINILOOP_WRITE   : Z := EPOLLOUT.
Definition MINILOOP_PRI     : Z := EPOLLPRI.
Definition MINILOOP_HUP     : Z := EPOLLHUP.
Definition MINILOOP_RDHUP   : Z := EPOLLRDHUP.
Definition MINILOOP_EDGE    : Z := EPOLLET.
Definition MINILOOP_ONESHOT : Z := EPOLLONESHOT.
Definition MINILOOP_ONCE     : Z := 1.
Definition MINILOOP_NONBLOCK : Z := 2.

(* private.h *)
Definition MINILOOP_EVENT_MASK : Z :=
    Z.lor MINILOOP_ERROR (Z.lor MINILOOP_READ (Z.lor MINILOOP_WRITE
   (Z.lor MINILOOP_PRI (Z.lor MINILOOP_RDHUP (Z.lor MINILOOP_HUP
   (Z.lor MINILOOP_EDGE MINILOOP_ONESHOT)))))).

End Const.
Import Const.

(** Conversions between [int] and [uint32_t]. *)
Definition to_uint32 (z : Z) : Z := z mod 4294967296.
Definition to_int32 (z : Z) : Z := (z + 2147483648) mod 4294967296 - 2147483648.

(** ** Data model *)

Definition addr := positive.
(** A C pointer: [None] is [NULL]. *)
Definition ptr := option addr.

(** [ml_type_t] of private.h. *)
Inductive ml_type_t :=
| MINILOOP_IO_TYPE
| MINILOOP_SIGNAL_TYPE
| MINILOOP_TIMER_TYPE
| MINILOOP_FS_TYPE
| MINILOOP_EVENT_TYPE.

(** [ml_t]: the private members of [ml_private_t], then the public ones.
    A callback is a function pointer; it is kept as an identifier that the
    dispatcher resolves in a table of callback bodies. *)
Record ml_t := Build_ml {
  ml_next : ptr;
  ml_prev : ptr;
  ml_active : Z;
  ml_events : Z;
  ml_cb : option positive;
  ml_arg : Z;
  ml_timeout : Z;   (* u.t.timeout *)
  ml_period : Z;    (* u.t.period *)
  ml_type : ml_type_t;
  ml_signo : Z;
  ml_fd : Z;
  ml_ctx : ptr
}.

(** [ml_ctx_t]. *)
Record ml_ctx_t := Build_ctx {
  ctx_running : Z;
  ctx_inotify_fd : Z;
  ctx_fd : Z;
  ctx_maxevents : Z;
  ctx_watchers : ptr;
  ctx_workaround : Z
}.

Definition set_next (v : ptr) (w : ml_t) : ml_t :=
  Build_ml v (ml_prev w) (ml_active w) (ml_events w) (ml_cb w) (ml_arg w)
    (ml_timeout w) (ml_period w) (ml_type w) (ml_signo w) (ml_fd w) (ml_ctx w).
Definition set_prev (v : ptr) (w : ml_t) : ml_t :=
  Build_ml (ml_next w) v (ml_active w) (ml_events w) (ml_cb w) (ml_arg w)
    (ml_timeout w) (ml_period w) (ml_type w) (ml_signo w) (ml_fd w) (ml_ctx w).
Definition set_active (v : Z) (w : ml_t) : ml_t :=
  Build_ml (ml_next w) (ml_prev w) v (ml_events w) (ml_cb w) (ml_arg w)
    (ml_timeout w) (ml_period w) (ml_type w) (ml_signo w) (ml_fd w) (ml_ctx w).
Definition set_timeout (v : Z) (w : ml_t) : ml_t :=
  Build_ml (ml_next w) (ml_prev w) (ml_active w) (ml_events w) (ml_cb w) (ml_arg w)
    v (ml_period w) (ml_type w) (ml_signo w) (ml_fd w) (ml_ctx w).
Definition set_signo (v : Z) (w : ml_t) : ml_t :=
  Build_ml (ml_next w) (ml_prev w) (ml_active w) (ml_events w) (ml_cb w) (ml_arg w)
    (ml_timeout w) (ml_period w) (ml_type w) v (ml_fd w) (ml_ctx w).
Definition set_fd (v : Z) (w : ml_t) : ml_t :=
  Build_ml (ml_next w) (ml_prev w) (ml_active w) (ml_events w) (ml_cb w) (ml_arg w)
    (ml_timeout w) (ml_period w) (ml_type w) (ml_signo w) v (ml_ctx w).

Definition set_running (v : Z) (c : ml_ctx_t) : ml_ctx_t :=
  Build_ctx v (ctx_inotify_fd c) (ctx_fd c) (ctx_maxevents c) (ctx_watchers c) (ctx_workaround c).
Definition set_inotify_fd (v : Z) (c : ml_ctx_t) : ml_ctx_t :=
  Build_ctx (ctx_running c) v (ctx_fd c) (ctx_maxevents c) (ctx_watchers c) (ctx_workaround c).
Definition set_ctx_fd (v : Z) (c : ml_ctx_t) : ml_ctx_t :=
  Build_ctx (ctx_running c) (ctx_inotify_fd c) v (ctx_maxevents c) (ctx_watchers c) (ctx_workaround c).
Definition set_maxevents (v : Z) (c : ml_ctx_t) : ml_ctx_t :=
  Build_ctx (ctx_running c) (ctx_inotify_fd c) (ctx_fd c) v (ctx_watchers c) (ctx_workaround c).
Definition set_watchers (v : ptr) (c : ml_ctx_t) : ml_ctx_t :=
  Build_ctx (ctx_running c) (ctx_inotify_fd c) (ctx_fd c) (ctx_maxevents c) v (ctx_workaround c).
Definition set_workaround (v : Z) (c : ml_ctx_t) : ml_ctx_t :=
  Build_ctx (ctx_running c) (ctx_inotify_fd c) (ctx_fd c) (ctx_maxevents c) (ctx_watchers c) v.

(** ** The kernel interface *)

(** The system calls the library issues, with the arguments that matter.
    A signal set is the list of its members; the [epoll_event] handed to
    [epoll_ctl] is its [events] word and its [data.ptr] tag. *)
Inductive syscall :=
| SysEpollCreate1 (flags : Z)
| SysInotifyInit1 (flags : Z)
| SysClose (fd : Z)
| SysSelect (nfds : Z) (readfds : list Z)
| SysIoctlFIONREAD (fd : Z)
| SysEpollCtl (epfd op fd : Z) (ev : option (Z * ptr))
| SysEpollWait (epfd maxevents timeout : Z)
| SysRead (fd count : Z)
| SysSignalfd (fd : Z) (mask : list Z) (flags : Z)
| SysSigprocmask (how : Z) (mask : list Z).

(** What the kernel answers: the return value, the [errno] it leaves when
    the call fails, the ready records written by [epoll_wait], and the
    integer written through the out-parameter of [ioctl]. *)
Record reply := Build_reply {
  r_ret : Z;
  r_errno : Z;
  r_ready : list (ptr * Z);
  r_out : Z
}.

Class Kernel := {
  kstate : Type;
  ksys : kstate -> syscall -> reply * kstate
}.

(** Observable actions: system calls, and callbacks entered by [ml_run]. *)
Inductive action :=
| Sys (c : syscall)
| Call (cb : positive) (w : ptr) (arg events : Z).

(** The machine state: the two object stores, [errno], the kernel and the
    trace of actions performed so far. *)
Record state {KN : Kernel} := Build_state {
  watchers : gmap positive ml_t;
  ctxs : gmap positive ml_ctx_t;
  errno : Z;
  kern : kstate;
  trace : list action
}.

Inductive outcome {KN : Kernel} (A : Type) :=
| Done (a : A) (s : state)
| Segv
| Timeout.
Arguments Done {KN A} a s.
Arguments Segv {KN A}.
Arguments Timeout {KN A}.

Definition M {KN : Kernel} (A : Type) : Type := state -> outcome A.

Definition ret {KN : Kernel} {A} (a : A) : M A := fun s => Done a s.
Definition bind {KN : Kernel} {A B} (m : M A) (k : A -> M B) : M B :=
  fun s => match m s with
           | Done a s' => k a s'
           | Segv => Segv
           | Timeout => Timeout
           end.
Definition segv {KN : Kernel} {A} : M A := fun _ => Segv.
Definition out_of_fuel {KN : Kernel} {A} : M A := fun _ => Timeout.

Declare Scope m_scope.
Delimit Scope m_scope with M.
Notation "x <- m ;; k" := (bind m (fun x => k))
  (at level 100, m at next level, right associativity) : m_scope.
Notation "m ;; k" := (bind m (fun _ => k))
  (at level 100, right associativity) : m_scope.
Open Scope m_scope.

(** The timer and event adapters are outside this development: their entry
    points that miniloop.c calls are parameters, and so are the bodies of
    the user callbacks.  What is proved below holds whatever they do. *)
Class Extern {KN : Kernel} := {
  ml_timer_set : ptr -> Z -> Z -> M Z;
  ml_timer_stop : ptr -> M Z;
  ml_event_stop : ptr -> M Z;
  cb_body : positive -> ptr -> Z -> Z -> M unit
}.

Section Machine.

Context {KN : Kernel}.

(** *** Memory and environment primitives *)

Definition load_w (p : ptr) : M ml_t := fun s =>
  match p with
  | Some a => match watchers s !! a with
              | Some w => Done w s
              | None => Segv
              end
  | None => Segv
  end.

Definition wget {A} (p : ptr) (field : ml_t -> A) : M A :=
  w <- load_w p ;; ret (field w).

Definition wset (p : ptr) (f : ml_t -> ml_t) : M unit := fun s =>
  match p with
  | Some a => match watchers s !! a with
              | Some w => Done tt (Build_state KN (<[a := f w]> (watchers s))
                                     (ctxs s) (errno s) (kern s) (trace s))
              | None => Segv
              end
  | None => Segv
  end.

Definition load_ctx (p : ptr) : M ml_ctx_t := fun s =>
  match p with
  | Some a => match ctxs s !! a with
              | Some c => Done c s
              | None => Segv
              end
  | None => Segv
  end.

Definition cget {A} (p : ptr) (field : ml_ctx_t -> A) : M A :=
  c <- load_ctx p ;; ret (field c).

Definition cset (p : ptr) (f : ml_ctx_t -> ml_ctx_t) : M unit := fun s =>
  match p with
  | Some a => match ctxs s !! a with
              | Some c => Done tt (Build_state KN (watchers s)
                                     (<[a := f c]> (ctxs s)) (errno s) (kern s) (trace s))
              | None => Segv
              end
  | None => Segv
  end.

Definition set_errno (e : Z) : M unit := fun s =>
  Done tt (Build_state KN (watchers s) (ctxs s) e (kern s) (trace s)).

Definition get_errno : M Z := fun s => Done (errno s) s.

Definition log (a : action) : M unit := fun s =>
  Done tt (Build_state KN (watchers s) (ctxs s) (errno s) (kern s) (trace s ++ [a])).

(** A system call: the kernel answers and moves on, the call is recorded,
    and a failing call leaves its error code in [errno]. *)
Definition sys (c : syscall) : M reply := fun s =>
  let '(r, k') := ksys (kern s) c in
  Done r (Build_state KN (watchers s) (ctxs s)
            (if r_ret r <? 0 then r_errno r else errno s) k' (trace s ++ [Sys c])).

Definition is_null (p : ptr) : bool := match p with None => true | Some _ => false end.
Definition ptr_eqb (p q : ptr) : bool :=
  match p, q with
  | Some a, Some b => Pos.eqb a b
  | None, None => true
  | _, _ => false
  end.
Definition Z_of_bool (b : bool) : Z := if b then 1 else 0.

(** *** The list macros of private.h

    [list] is always [c->watchers] for a context pointer [c]; the macro is
    expanded at that l-value. *)

Definition _MINILOOP_INSERT (node : ptr) (c : ptr) : M unit :=
  next <- cget c ctx_watchers ;;
  cset c (set_watchers node) ;;
  (if is_null next then ret tt else wset next (set_prev node)) ;;
  wset node (set_next next) ;;
  wset node (set_prev None).

Definition _MINILOOP_REMOVE (node : ptr) (c : ptr) : M unit :=
  prev <- wget node ml_prev ;;
  next <- wget node ml_next ;;
  (if is_null prev then ret tt else wset prev (set_next next)) ;;
  (if is_null next then ret tt else wset next (set_prev prev)) ;;
  wset node (set_prev None) ;;
  wset node (set_next None) ;;
  list <- cget c ctx_watchers ;;
  (if ptr_eqb list node then cset c (set_watchers next) else ret tt).

(** [_MINILOOP_FOREACH]: [next] is fetched before the body runs.  The body
    threads the local variables it updates through [acc]; a list that does
    not end within [fuel] nodes (a cycle) exhausts the fuel. *)
Fixpoint _MINILOOP_FOREACH {A} (fuel : nat) (node : ptr) (acc : A)
    (body : ptr -> A -> M A) : M A :=
  match node with
  | None => ret acc
  | Some _ =>
    match fuel with
    | O => out_of_fuel
    | S fuel' =>
      next <- wget node ml_next ;;
      acc' <- body node acc ;;
      _MINILOOP_FOREACH fuel' next acc' body
    end
  end.

(** *** miniloop.c *)

Definition _init (ctx : ptr) (close_old : bool) : M Z :=
  r1 <- sys (SysEpollCreate1 EPOLL_CLOEXEC) ;;
  let fd := r_ret r1 in
  r2 <- sys (SysInotifyInit1 (Z.lor IN_NONBLOCK IN_CLOEXEC)) ;;
  let inotify_fd := r_ret r2 in
  if (fd <? 0) || (inotify_fd <? 0) then ret (-1)
  else
    (if close_old then
       ifd <- cget ctx ctx_inotify_fd ;;
       sys (SysClose ifd) ;;
       efd <- cget ctx ctx_fd ;;
       sys (SysClose efd) ;;
       ret tt
     else ret tt) ;;
    cset ctx (set_inotify_fd inotify_fd) ;;
    cset ctx (set_ctx_fd fd) ;;
    ret 0.

Definition has_data (fd : Z) : M Z :=
  r <- sys (SysSelect 1 [fd]) ;;
  if 0 <? r_ret r then
    r' <- sys (SysIoctlFIONREAD 0) ;;
    ret (Z_of_bool ((r_ret r' =? 0) && (0 <? r_out r')))
  else ret 0.

Definition _ml_watcher_init (ctx w : ptr) (type : ml_type_t) (cb : option positive)
    (arg fd events : Z) : M Z :=
  if is_null ctx || is_null w then
    set_errno EINVAL ;; ret (-1)
  else
    wset w (fun r => Build_ml (ml_next r) (ml_prev r) 0 events cb arg
                       (ml_timeout r) (ml_period r) type (ml_signo r) fd ctx) ;;
    ret 0.

Definition _ml_watcher_active (w : ptr) : M Z :=
  if is_null w then ret 0
  else
    a <- wget w ml_active ;;
    ret (Z_of_bool (0 <? a)).

Definition start_invalid (w : ptr) : M bool :=
  if is_null w then ret true
  else
    fd <- wget w ml_fd ;;
    if fd <? 0 then ret true
    else
      c <- wget w ml_ctx ;;
      ret (is_null c).

Definition _ml_watcher_start (w : ptr) : M Z :=
  bad <- start_invalid w ;;
  if bad then set_errno EINVAL ;; ret (-1)
  else
    act <- _ml_watcher_active w ;;
    if negb (act =? 0) then ret 0
    else
      events <- wget w ml_events ;;
      c <- wget w ml_ctx ;;
      epfd <- cget c ctx_fd ;;
      fd <- wget w ml_fd ;;
      r <- sys (SysEpollCtl epfd EPOLL_CTL_ADD fd
                  (Some (to_uint32 (Z.lor events EPOLLRDHUP), w))) ;;
      (* [Some v]: the function returns [v] here; [None]: it goes on *)
      early <-
        (if r_ret r <? 0 then
           e <- get_errno ;;
           if negb (e =? EPERM) then ret (Some (-1))
           else
             (* Handle special case: `application < file.txt` *)
             ty <- wget w ml_type ;;
             evs <- wget w ml_events ;;
             if negb (match ty with MINILOOP_IO_TYPE => true | _ => false end)
                || negb (evs =? MINILOOP_READ) then ret (Some (-1))
             else
               (* Only allow this special handling for stdin *)
               wfd <- wget w ml_fd ;;
               if negb (wfd =? STDIN_FILENO) then ret (Some (-1))
               else
                 c' <- wget w ml_ctx ;;
                 cset c' (set_workaround 1) ;;
                 wset w (set_active (-1)) ;;
                 ret None
         else
           wset w (set_active 1) ;;
           ret None) ;;
      match early with
      | Some v => ret v
      | None =>
        (* Add to internal list for bookkeeping *)
        c' <- wget w ml_ctx ;;
        _MINILOOP_INSERT w c' ;;
        ret 0
      end.

Definition _ml_watcher_stop (w : ptr) : M Z :=
  if is_null w then set_errno EINVAL ;; ret (-1)
  else
    act <- _ml_watcher_active w ;;
    if act =? 0 then ret 0
    else
      wset w (set_active 0) ;;
      c <- wget w ml_ctx ;;
      _MINILOOP_REMOVE w c ;;
      c' <- wget w ml_ctx ;;
      epfd <- cget c' ctx_fd ;;
      fd <- wget w ml_fd ;;
      r <- sys (SysEpollCtl epfd EPOLL_CTL_DEL fd None) ;;
      if r_ret r <? 0 then ret (-1) else ret 0.

Definition rearm_invalid (w : ptr) : M bool :=
  if is_null w then ret true
  else
    fd <- wget w ml_fd ;;
    ret (fd <? 0).

Definition _ml_watcher_rearm (w : ptr) : M Z :=
  bad <- rearm_invalid w ;;
  if bad then set_errno EINVAL ;; ret (-1)
  else
    events <- wget w ml_events ;;
    c <- wget w ml_ctx ;;
    epfd <- cget c ctx_fd ;;
    fd <- wget w ml_fd ;;
    r <- sys (SysEpollCtl epfd EPOLL_CTL_MOD fd
                (Some (to_uint32 (Z.lor events EPOLLRDHUP), w))) ;;
    if r_ret r <? 0 then ret (-1) else ret 0.

Definition ml_init (ctx : ptr) (maxevents : Z) : M Z :=
  if is_null ctx || (maxevents <? 1) then
    set_errno EINVAL ;; ret (-1)
  else
    (* memset of the whole context to zero *)
    cset ctx (fun _ => Build_ctx 0 0 0 0 None 0) ;;
    cset ctx (set_maxevents maxevents) ;;
    _init ctx false.

(** *** io.c *)

Definition ml_io_stop (w : ptr) : M Z := _ml_watcher_stop w.

Definition ml_io_init (ctx w : ptr) (cb : option positive) (arg fd events : Z) : M Z :=
  if fd <? 0 then set_errno EINVAL ;; ret (-1)
  else
    r <- _ml_watcher_init ctx w MINILOOP_IO_TYPE cb arg fd events ;;
    if negb (r =? 0) then ret (-1)
    else _ml_watcher_start w.

Definition ml_io_set (w : ptr) (fd events : Z) : M Z :=
  rearm <- (if negb (Z.land events MINILOOP_ONESHOT =? 0)
            then act <- _ml_watcher_active w ;; ret (negb (act =? 0))
            else ret false) ;;
  if rearm then _ml_watcher_rearm w
  else
    (* Ignore any errors, only to clean up anything lingering ... *)
    ml_io_stop w ;;
    c <- wget w ml_ctx ;;
    cb <- wget w ml_cb ;;
    arg <- wget w ml_arg ;;
    ml_io_init c w cb arg fd events.

Definition ml_io_start (w : ptr) : M Z :=
  fd <- wget w ml_fd ;;
  events <- wget w ml_events ;;
  ml_io_set w fd events.

(** *** The signal adapter *)

Definition ml_signal_stop (w : ptr) : M Z :=
  act <- _ml_watcher_active w ;;
  if act =? 0 then ret 0
  else
    r <- _ml_watcher_stop w ;;
    if negb (r =? 0) then ret (-1)
    else
      fd <- wget w ml_fd ;;
      sys (SysClose fd) ;;
      wset w (set_fd (-1)) ;;
      ret 0.

(** [ml_signal_init] and [ml_signal_set] call each other; [set] stands for
    the call of [ml_signal_set] made by [ml_signal_init]. *)
Definition ml_signal_init_with (set : ptr -> Z -> M Z)
    (ctx w : ptr) (cb : option positive) (arg signo : Z) : M Z :=
  if is_null w || is_null ctx then set_errno EINVAL ;; ret (-1)
  else
    wset w (set_fd (-1)) ;;
    r <- sys (SysSignalfd (-1) [] (Z.lor SFD_NONBLOCK SFD_CLOEXEC)) ;;
    let fd := r_ret r in
    if fd <? 0 then ret (-1)
    else
      i <- _ml_watcher_init ctx w MINILOOP_SIGNAL_TYPE cb arg fd MINILOOP_READ ;;
      if negb (i =? 0) then sys (SysClose fd) ;; ret (-1)
      else
        st <- set w signo ;;
        if negb (st =? 0) then
          _ml_watcher_stop w ;;
          sys (SysClose fd) ;;
          ret (-1)
        else ret 0.

(** [sigaddset(&mask, signo)], whose result the adapter does not test.  The
    C library takes the signal numbers 1 .. _NSIG - 1 but for the two it
    keeps for itself (32 and 33); any other number is refused with EINVAL,
    and the mask stays as it was. *)
Definition sigaddset_ok (signo : Z) : bool :=
  (0 <? signo) && (signo <? _NSIG) && negb ((signo =? 32) || (signo =? 33)).

Definition sigaddset (mask : list Z) (signo : Z) : M (list Z) :=
  if sigaddset_ok signo then ret (mask ++ [signo])
  else set_errno EINVAL ;; ret mask.

Definition signal_set_invalid (w : ptr) : M bool :=
  if is_null w then ret true
  else
    c <- wget w ml_ctx ;;
    ret (is_null c).

Fixpoint ml_signal_set_fuel (fuel : nat) (w : ptr) (signo : Z) : M Z :=
  match fuel with
  | O => out_of_fuel
  | S fuel' =>
    (* Every watcher must be registered to a context *)
    bad <- signal_set_invalid w ;;
    if bad then set_errno EINVAL ;; ret (-1)
    else
      (* Remember for callbacks and start/stop *)
      wset w (set_signo signo) ;;
      (* Handle stopped signal watchers *)
      fd <- wget w ml_fd ;;
      failed <-
        (if fd <? 0 then
           c <- wget w ml_ctx ;;
           cb <- wget w ml_cb ;;
           arg <- wget w ml_arg ;;
           r <- ml_signal_init_with (ml_signal_set_fuel fuel') c w cb arg signo ;;
           ret (negb (r =? 0))
         else ret false) ;;
      if failed then ret (-1)
      else
        (* sigemptyset, then sigaddset *)
        mask <- sigaddset [] signo ;;
        (* Block signals so that they aren't handled
           according to their default dispositions *)
        r1 <- sys (SysSigprocmask SIG_BLOCK mask) ;;
        if r_ret r1 =? -1 then ret (-1)
        else
          fd' <- wget w ml_fd ;;
          r2 <- sys (SysSignalfd fd' mask SFD_NONBLOCK) ;;
          if r_ret r2 <? 0 then ret (-1)
          else _ml_watcher_start w
  end.

(** The nesting is at most [set], [init], [set]: the inner [set] finds the
    descriptor that [init] has just stored. *)
Definition ml_signal_set : ptr -> Z -> M Z := ml_signal_set_fuel 2.
Definition ml_signal_init : ptr -> ptr -> option positive -> Z -> Z -> M Z :=
  ml_signal_init_with (ml_signal_set_fuel 1).

Definition ml_signal_start (w : ptr) : M Z :=
  if is_null w then set_errno EINVAL ;; ret (-1)
  else
    fd <- wget w ml_fd ;;
    (if negb (fd =? -1) then ml_signal_stop w ;; ret tt else ret tt) ;;
    signo <- wget w ml_signo ;;
    ml_signal_set w signo.

(** *** ml_exit and ml_run *)

Context {EX : Extern}.

Definition ml_exit (fuel : nat) (ctx : ptr) : M Z :=
  if is_null ctx then set_errno EINVAL ;; ret (-1)
  else
    head <- cget ctx ctx_watchers ;;
    _MINILOOP_FOREACH fuel head tt (fun w _ =>
      (* Remove from internal list *)
      _MINILOOP_REMOVE w ctx ;;
      act <- _ml_watcher_active w ;;
      if act =? 0 then ret tt
      else
        ty <- wget w ml_type ;;
        match ty with
        | MINILOOP_TIMER_TYPE => ml_timer_stop w ;; ret tt
        | MINILOOP_IO_TYPE => ml_io_stop w ;; ret tt
        | MINILOOP_SIGNAL_TYPE => ml_signal_stop w ;; ret tt
        | MINILOOP_FS_TYPE => ret tt
        | MINILOOP_EVENT_TYPE => ml_event_stop w ;; ret tt
        end) ;;
    cset ctx (set_watchers None) ;;
    cset ctx (set_running 0) ;;
    fd <- cget ctx ctx_fd ;;
    (if -1 <? fd then sys (SysClose fd) ;; ret tt else ret tt) ;;
    cset ctx (set_ctx_fd (-1)) ;;
    ret 0.

(** [w->cb(w, w->arg, events)]; the call is recorded before the body runs. *)
Definition call_cb (w : ptr) (events : Z) : M unit :=
  cb <- wget w ml_cb ;;
  match cb with
  | None => segv
  | Some c =>
    arg <- wget w ml_arg ;;
    log (Call c w arg events) ;;
    cb_body c w arg events
  end.

(** The body of the walk made when [ctx->workaround] is set, for the
    watcher [w]; [rerun] is the local counter. *)
Definition workaround_step (ctx w : ptr) (rerun : Z) : M Z :=
  a <- wget w ml_active ;;
  cb <- wget w ml_cb ;;
  if negb (a =? -1) || is_null cb then ret rerun
  else
    fd <- wget w ml_fd ;;
    d <- has_data fd ;;
    (if d =? 0 then
       wset w (set_active 0) ;;
       _MINILOOP_REMOVE w ctx
     else ret tt) ;;
    call_cb w MINILOOP_READ ;;
    ret (rerun + 1).

(** The walk itself; the result is the final [rerun]. *)
Definition workaround_walk (fuel : nat) (ctx : ptr) : M Z :=
  head <- cget ctx ctx_watchers ;;
  _MINILOOP_FOREACH fuel head 0 (workaround_step ctx).

(** The inner [while] around [epoll_wait].  [Some (nfds, ee)] leaves the
    loop with that result; [None] is the unrecoverable error, after
    [ml_exit], where [ml_run] returns -2. *)
Fixpoint epoll_wait_loop (fuel : nat) (exit_fuel : nat) (ctx : ptr) (timeout : Z)
    : M (option (Z * list (ptr * Z))) :=
  match fuel with
  | O => out_of_fuel
  | S fuel' =>
    epfd <- cget ctx ctx_fd ;;
    maxevents <- cget ctx ctx_maxevents ;;
    r <- sys (SysEpollWait epfd maxevents timeout) ;;
    if r_ret r <? 0 then
      running <- cget ctx ctx_running ;;
      if running =? 0 then ret (Some (r_ret r, r_ready r))
      else
        e <- get_errno ;;
        if e =? EINTR then epoll_wait_loop fuel' exit_fuel ctx timeout
        else
          (* Unrecoverable error, cleanup and exit with error. *)
          ml_exit exit_fuel ctx ;;
          ret None
    else ret (Some (r_ret r, r_ready r))
  end.

(** The body of the dispatch [for] loop, for the ready record [ee[i]]. *)
Definition dispatch_record (rec : ptr * Z) : M unit :=
  let w := fst rec in
  let events := to_uint32 (snd rec) in
  ty <- wget w ml_type ;;
  events' <-
    match ty with
    | MINILOOP_IO_TYPE =>
      if negb (Z.land events (Z.lor EPOLLHUP EPOLLERR) =? 0)
      then ml_io_stop w ;; ret events
      else ret events
    | MINILOOP_SIGNAL_TYPE =>
      fd <- wget w ml_fd ;;
      r <- sys (SysRead fd sizeof_signalfd_siginfo) ;;
      if negb (r_ret r =? sizeof_signalfd_siginfo) then
        st <- ml_signal_start w ;;
        if negb (st =? 0) then ml_signal_stop w ;; ret MINILOOP_ERROR
        else ret events
      else ret events
    | MINILOOP_TIMER_TYPE =>
      fd <- wget w ml_fd ;;
      r <- sys (SysRead fd sizeof_uint64) ;;
      ev1 <- (if negb (r_ret r =? sizeof_uint64)
              then ml_timer_stop w ;; ret MINILOOP_ERROR
              else ret events) ;;
      period <- wget w ml_period ;;
      (if period =? 0 then wset w (set_timeout 0) else ret tt) ;;
      tmo <- wget w ml_timeout ;;
      (if tmo =? 0 then ml_timer_stop w ;; ret tt else ret tt) ;;
      ret ev1
    | MINILOOP_FS_TYPE => ret events
    | MINILOOP_EVENT_TYPE =>
      fd <- wget w ml_fd ;;
      r <- sys (SysRead fd sizeof_uint64) ;;
      if negb (r_ret r =? sizeof_uint64) then ret MINILOOP_HUP else ret events
    end ;;
  (* NOTE: Must be last action for watcher, the callback may delete itself. *)
  cb <- wget w ml_cb ;;
  if is_null cb then ret tt
  else call_cb w (to_int32 (Z.land events' MINILOOP_EVENT_MASK)).

(** [for (i = 0; ctx->running && i < nfds; i++)] over the records
    [ee[0..nfds-1]]. *)
Fixpoint dispatch_loop (ctx : ptr) (ee : list (ptr * Z)) : M unit :=
  match ee with
  | [] => ret tt
  | rec :: rest =>
    running <- cget ctx ctx_running ;;
    if running =? 0 then ret tt
    else
      dispatch_record rec ;;
      dispatch_loop ctx rest
  end.

(** How one pass through the body of the main [while] ends. *)
Inductive ctl :=
| Continue
| Break
| Return (r : Z).

(** The dispatch loop and the [MINILOOP_ONCE] test that ends the body. *)
Definition dispatch_cycle (ctx : ptr) (flags : Z) (ee : list (ptr * Z)) : M ctl :=
  dispatch_loop ctx ee ;;
  if negb (Z.land flags MINILOOP_ONCE =? 0) then ret Break else ret Continue.

(** The kernel wait and what follows it in the body of the main loop. *)
Definition wait_and_dispatch (fuel : nat) (ctx : ptr) (flags timeout : Z) : M ctl :=
  wr <- epoll_wait_loop fuel fuel ctx timeout ;;
  match wr with
  | None => ret (Return (-2))
  | Some (nfds, ee) =>
    (* [ee] has room for MINILOOP_MAX_EVENTS records *)
    if MINILOOP_MAX_EVENTS <? nfds then segv
    else dispatch_cycle ctx flags (take (Z.to_nat nfds) ee)
  end.

(** The body of [while (ctx->running && ctx->watchers)]. *)
Definition loop_body (fuel : nat) (ctx : ptr) (flags timeout : Z) : M ctl :=
  (* Handle special case: `application < file.txt` *)
  wk <- cget ctx ctx_workaround ;;
  rerun <- (if negb (wk =? 0) then workaround_walk fuel ctx else ret 0) ;;
  if negb (rerun =? 0) then ret Continue
  else
    cset ctx (set_workaround 0) ;;
    wait_and_dispatch fuel ctx flags timeout.

Definition resume (c : ctl) (again : M Z) : M Z :=
  match c with
  | Continue => again
  | Break => ret 0
  | Return r => ret r
  end.

Definition loop_cond (ctx : ptr) : M bool :=
  running <- cget ctx ctx_running ;;
  if running =? 0 then ret false
  else
    ws <- cget ctx ctx_watchers ;;
    ret (negb (is_null ws)).

Fixpoint main_loop (fuel : nat) (ctx : ptr) (flags timeout : Z) : M Z :=
  match fuel with
  | O => out_of_fuel
  | S fuel' =>
    go <- loop_cond ctx ;;
    if go then
      c <- loop_body fuel' ctx flags timeout ;;
      resume c (main_loop fuel' ctx flags timeout)
    else ret 0
  end.

Definition run_invalid (ctx : ptr) : M bool :=
  if is_null ctx then ret true
  else
    fd <- cget ctx ctx_fd ;;
    ret (fd <? 0).

Definition ml_run (fuel : nat) (ctx : ptr) (flags : Z) : M Z :=
  bad <- run_invalid ctx ;;
  if bad then set_errno EINVAL ;; ret (-1)
  else
    let timeout := if negb (Z.land flags MINILOOP_NONBLOCK =? 0) then 0 else -1 in
    (* Start the event loop *)
    cset ctx (set_running 1) ;;
    (* Start all dormant timers *)
    head <- cget ctx ctx_watchers ;;
    _MINILOOP_FOREACH fuel head tt (fun w _ =>
      ty <- wget w ml_type ;;
      match ty with
      | MINILOOP_TIMER_TYPE =>
        t <- wget w ml_timeout ;;
        p <- wget w ml_period ;;
        ml_timer_set w t p ;;
        ret tt
      | _ => ret tt
      end) ;;
    main_loop fuel ctx flags timeout.

End Machine.

(** ** The registry as the specification sees it *)

(** The watchers reached from [p] through [next], at most [fuel] of them. *)
Fixpoint list_nodes (fuel : nat) (h : gmap positive ml_t) (p : ptr) : list addr :=
  match fuel, p with
  | S fuel', Some a =>
    a :: match h !! a with
         | Some w => list_nodes fuel' h (ml_next w)
         | None => []
         end
  | _, _ => []
  end.

(** The watcher list of context [c], walked far enough to visit every
    allocated watcher. *)
Definition watcher_list {KN : Kernel} (s : state) (c : ml_ctx_t) : list addr :=
  list_nodes (S (size (watchers s))) (watchers s) (ctx_watchers c).

Definition on_list {KN : Kernel} (s : state) (c : ml_ctx_t) (a : addr) : bool :=
  existsb (Pos.eqb a) (watcher_list s c).

(** Registry coherence: a watcher bound to a context is on that context's
    list exactly when its [active] field is not zero. *)
Definition registry_coherent {KN : Kernel} (s : state) : bool :=
  forallb (fun aw : addr * ml_t =>
             match ml_ctx (snd aw) with
             | Some ca =>
               match ctxs s !! ca with
               | Some c => Bool.eqb (negb (ml_active (snd aw) =? 0)) (on_list s c (fst aw))
               | None => true
               end
             | None => true
             end)
          (map_to_list (watchers s)).

(** The system calls and the callbacks entered, in order. *)
Definition calls (t : list action) : list (positive * ptr * Z * Z) :=
  omap (fun a => match a with
                 | Call c w arg ev => Some (c, w, arg, ev)
                 | Sys _ => None
                 end) t.

Definition syscalls (t : list action) : list syscall :=
  omap (fun a => match a with
                 | Sys c => Some c
                 | Call _ _ _ _ => None
                 end) t.

(** The [epoll_event] that start and re-arm hand to the kernel for the
    watcher at [a]: its stored events with RDHUP added, tagged with its
    address. *)
Definition registration (a : addr) (wr : ml_t) : option (Z * ptr) :=
  Some (to_uint32 (Z.lor (ml_events wr) EPOLLRDHUP), Some a).

Definition is_close (c : syscall) : bool :=
  match c with SysClose _ => true | _ => false end.

Definition is_epoll_wait (c : syscall) : bool :=
  match c with SysEpollWait _ _ _ => true | _ => false end.

(** ** Concrete scenarios *)

(** A kernel that answers from a script, one reply per system call, in
    order; past the end of the script every call succeeds with 0. *)
Definition ok (v : Z) : reply := Build_reply v 0 [] 0.
Definition fails (e : Z) : reply := Build_reply (-1) e [] 0.

Definition scripted : Kernel :=
  {| kstate := list reply;
     ksys := fun k _ => match k with
                        | r :: k' => (r, k')
                        | [] => (ok 0, [])
                        end |}.

Module Scenario.
Section Scenario.

#[local] Existing Instance scripted.

(** Two user callbacks: [cb_quit] clears [w->ctx->running], [cb_idle]
    returns at once. *)
Definition cb_quit : positive := 1%positive.
Definition cb_idle : positive := 2%positive.

(** The timer and event adapters are not reached: no scenario holds a
    timer or an event watcher, and reaching one would fault. *)
Definition env : Extern :=
  {| ml_timer_set := fun _ _ _ => segv;
     ml_timer_stop := fun _ => segv;
     ml_event_stop := fun _ => segv;
     cb_body := fun c w _ _ =>
       if Pos.eqb c cb_quit then
         ctx <- wget w ml_ctx ;;
         cset ctx (set_running 0)
       else ret tt |}.

#[local] Existing Instance env.

(** Caller-allocated, not yet initialised objects. *)
Definition blank_w : ml_t :=
  Build_ml None None 0 0 None 0 0 0 MINILOOP_IO_TYPE 0 0 None.
Definition blank_ctx : ml_ctx_t := Build_ctx 0 0 0 0 None 0.

Definition ctx : ptr := Some 1%positive.
Definition w1 : ptr := Some 1%positive.
Definition w2 : ptr := Some 2%positive.

(** Memory holds one context and two watchers; the kernel will answer
    from [script]. *)
Definition boot (script : list reply) : state :=
  Build_state scripted
    (<[2%positive := blank_w]> (<[1%positive := blank_w]> ∅))
    (<[1%positive := blank_ctx]> ∅)
    0 script [].

(** The state a computation ends in, when it ends. *)
Definition final {A} (o : outcome A) : option state :=
  match o with
  | Done _ s => Some s
  | _ => None
  end.

Definition result {A} (o : outcome A) : option A :=
  match o with
  | Done a _ => Some a
  | _ => None
  end.

(** Two pipes are watched for reading; both are ready in the same
    [epoll_wait] batch and the callback of the first one clears
    [running]. *)
Definition two_ready_script : list reply :=
  [ ok 3;                       (* epoll_create1 *)
    ok 4;                       (* inotify_init1 *)
    ok 0;                       (* epoll_ctl ADD fd 5 *)
    ok 0;                       (* epoll_ctl ADD fd 6 *)
    Build_reply 2 0 [(w1, EPOLLIN); (w2, EPOLLIN)] 0   (* epoll_wait *) ].

Definition two_ready_setup : M Z :=
  ml_init ctx 8 ;;
  ml_io_init ctx w1 (Some cb_quit) 0 5 MINILOOP_READ ;;
  ml_io_init ctx w2 (Some cb_idle) 0 6 MINILOOP_READ.

Definition two_ready_run : M Z :=
  two_ready_setup ;;
  ml_run 8 ctx 0.

(** Standard input is redirected from a regular file: [epoll_ctl] refuses
    descriptor 0 with EPERM, and the probe finds data to read. *)
Definition stdin_file_script (rest : list reply) : list reply :=
  [ ok 3;                       (* epoll_create1 *)
    ok 4;                       (* inotify_init1 *)
    fails EPERM                 (* epoll_ctl ADD fd 0 *) ] ++ rest.

Definition stdin_file_setup (cb : positive) : M Z :=
  ml_init ctx 8 ;;
  ml_io_init ctx w1 (Some cb) 0 STDIN_FILENO MINILOOP_READ.

Definition probe_has_data : list reply :=
  [ ok 1;                       (* select: one descriptor readable *)
    Build_reply 0 0 [] 5        (* ioctl FIONREAD: 5 bytes *) ].

(** The state [stdin_file_setup cb] ends in, but for [running] and what
    the trace has gained since: watcher 1 is pseudo-active and heads the
    list, the workaround flag is set. *)
Definition st_pseudo (running : Z) (cb : positive) (rest : list reply)
    (t : list action) : state :=
  Build_state scripted
    (<[2%positive := blank_w]>
       (<[1%positive := Build_ml None None (-1) MINILOOP_READ (Some cb) 0 0 0
                          MINILOOP_IO_TYPE 0 STDIN_FILENO ctx]> ∅))
    (<[1%positive := Build_ctx running 4 3 8 w1 1]> ∅)
    EPERM rest
    ([ Sys (SysEpollCreate1 EPOLL_CLOEXEC);
       Sys (SysInotifyInit1 (Z.lor IN_NONBLOCK IN_CLOEXEC));
       Sys (SysEpollCtl 3 EPOLL_CTL_ADD 0 (Some (8193, w1))) ] ++ t).

(** The state [two_ready_setup] ends in, with what is left of the script:
    both watchers are active, watcher 2 heads the list. *)
Definition st_active (running : Z) (rest : list reply) (t : list action) : state :=
  Build_state scripted
    (<[2%positive := Build_ml w1 None 1 MINILOOP_READ (Some cb_idle) 0 0 0
                       MINILOOP_IO_TYPE 0 6 ctx]>
       (<[1%positive := Build_ml None w2 1 MINILOOP_READ (Some cb_quit) 0 0 0
                          MINILOOP_IO_TYPE 0 5 ctx]> ∅))
    (<[1%positive := Build_ctx running 4 3 8 w2 0]> ∅)
    0 rest
    ([ Sys (SysEpollCreate1 EPOLL_CLOEXEC);
       Sys (SysInotifyInit1 (Z.lor IN_NONBLOCK IN_CLOEXEC));
       Sys (SysEpollCtl 3 EPOLL_CTL_ADD 5 (Some (8193, w1)));
       Sys (SysEpollCtl 3 EPOLL_CTL_ADD 6 (Some (8193, w2))) ] ++ t).

(** Watcher 1 as [two_ready_setup] leaves it. *)
Definition active_w1 : ml_t :=
  Build_ml None w2 1 MINILOOP_READ (Some cb_quit) 0 0 0 MINILOOP_IO_TYPE 0 5 ctx.

(** Watcher 1 as [stdin_file_setup cb_idle] leaves it. *)
Definition pseudo_w1 : ml_t :=
  Build_ml None None (-1) MINILOOP_READ (Some cb_idle) 0 0 0
    MINILOOP_IO_TYPE 0 STDIN_FILENO ctx.

(** The events of a re-arming [ml_io_set]. *)
Definition one_shot_read : Z := Z.lor MINILOOP_READ MINILOOP_ONESHOT.

(** The batch of the two-pipe scenario, and what the trace gains in the
    run. *)
Definition batch : reply := Build_reply 2 0 [(w1, EPOLLIN); (w2, EPOLLIN)] 0.
Definition waited : list action := [Sys (SysEpollWait 3 8 (-1))].
Definition quit_called : list action := waited ++ [Call cb_quit w1 0 EPOLLIN].

(** What the trace gains in a workaround pass that finds data. *)
Definition probed : list action :=
  [Sys (SysSelect 1 [0]); Sys (SysIoctlFIONREAD 0); Call cb_idle w1 0 MINILOOP_READ].

(** The demultiplexer is created, the inotify instance is refused. *)
Definition inotify_refused_script : list reply :=
  [ ok 3;                       (* epoll_create1 *)
    fails EMFILE                (* inotify_init1 *) ].

End Scenario.
End Scenario.

(** ** A partial-correctness triple for computations *)

(** [hoare P m Q]: when [m] is run in a state satisfying [P] and ends, its
    result and final state satisfy [Q]. *)
Definition hoare {KN : Kernel} {A} (P : state -> Prop) (m : M A)
    (Q : A -> state -> Prop) : Prop :=
  forall s a s', P s -> m s = Done a s' -> Q a s'.

(** [m] keeps the state property [I]. *)
Definition keeps {KN : Kernel} {A} (I : state -> Prop) (m : M A) : Prop :=
  hoare I m (fun _ => I).

(** Run from a state satisfying [P], [m] does not exhaust its fuel. *)
Definition no_timeout {KN : Kernel} {A} (P : state -> Prop) (m : M A) : Prop :=
  forall s, P s -> m s <> Timeout.

(** [m] has no loop to exhaust. *)
Definition loop_free {KN : Kernel} {A} (m : M A) : Prop :=
  no_timeout (fun _ => True) m.

(** The watcher stored at [a] satisfies [P]. *)
Definition watcher_at {KN : Kernel} (a : addr) (P : ml_t -> Prop) (s : state) : Prop :=
  exists w, watchers s !! a = Some w /\ P w.

(** Field updates that touch only the list links of a watcher. *)
Inductive relinks : (ml_t -> ml_t) -> Prop :=
| relinks_next v : relinks (set_next v)
| relinks_prev v : relinks (set_prev v).

(** Watcher properties that do not depend on the list links. *)
Definition link_free (P : ml_t -> Prop) : Prop :=
  forall f w, relinks f -> P w -> P (f w).

(** ** The watcher list as a sequence of addresses *)

(** [dlist h prev p l]: in the watcher store [h], following [next] from
    [p] visits exactly the addresses of [l], in order, and ends in NULL;
    the [prev] of the first node is [prev], and that of every later node
    is the node before it. *)
Fixpoint dlist (h : gmap positive ml_t) (prev p : ptr) (l : list addr) : Prop :=
  match l with
  | [] => p = None
  | a :: l' =>
    p = Some a /\
    exists w, h !! a = Some w /\ ml_prev w = prev /\ dlist h (Some a) (ml_next w) l'
  end.

(** [l] without the address [a]. *)
Fixpoint without (a : addr) (l : list addr) : list addr :=
  match l with
  | [] => []
  | b :: l' => if Pos.eqb a b then without a l' else b :: without a l'
  end.

Definition head_of (l : list addr) : ptr :=
  match l with
  | [] => None
  | a :: _ => Some a
  end.

(** A watcher record with its two list links cleared: what the record
    holds besides its place on the list. *)
Definition payload (w : ml_t) : ml_t := set_next None (set_prev None w).

(** The writes of [_MINILOOP_INSERT(node, list)] to the watcher store, for
    the node at [a] and the old head [head]. *)
Definition link_head (a : addr) (head : ptr) (h : gmap positive ml_t) : gmap positive ml_t :=
  alter (fun w => set_prev None (set_next head w)) a
    (match head with
     | Some b => alter (set_prev (Some a)) b h
     | None => h
     end).

(** The writes of [_MINILOOP_REMOVE(node, list)] to the watcher store, for
    the node at [a]. *)
Definition unlink (a : addr) (h : gmap positive ml_t) : gmap positive ml_t :=
  match h !! a with
  | Some wa =>
    let h1 := match ml_prev wa with
              | Some p => alter (set_next (ml_next wa)) p h
              | None => h
              end in
    let h2 := match ml_next wa with
              | Some n => alter (set_prev (ml_prev wa)) n h1
              | None => h1
              end in
    alter (fun w => set_next None (set_prev None w)) a h2
  | None => h
  end.

(** The state with another watcher store, or another context store. *)
Definition with_watchers {KN : Kernel} (h : gmap positive ml_t) (s : state) : state :=
  Build_state KN h (ctxs s) (errno s) (kern s) (trace s).

Definition with_ctxs {KN : Kernel} (g : gmap positive ml_ctx_t) (s : state) : state :=
  Build_state KN (watchers s) g (errno s) (kern s) (trace s).

(** The list of the context at [c] is the sequence [l], well linked and
    without repetition. *)
Definition registry {KN : Kernel} (s : state) (c : addr) (l : list addr) : Prop :=
  exists cx, ctxs s !! c = Some cx /\
             dlist (watchers s) None (ctx_watchers cx) l /\ NoDup l.

(** ** The kernel's answers *)

(** The state after the kernel has answered [r] to the call [c]. *)
Definition after_sys {KN : Kernel} (c : syscall) (r : reply) (k' : kstate) (s : state) : state :=
  Build_state KN (watchers s) (ctxs s)
    (if r_ret r <? 0 then r_errno r else errno s) k' (trace s ++ [Sys c]).

(** The kernel, from [k], answers the calls of [cs] in order with the
    replies paired with them, and is then in [k']. *)
Fixpoint answers {KN : Kernel} (k : kstate) (cs : list (syscall * reply)) (k' : kstate)
    : Prop :=
  match cs with
  | [] => k' = k
  | (c, r) :: cs' => exists k1, ksys k c = (r, k1) /\ answers k1 cs' k'
  end.

(** The kernel answers EINTR to the call [c], [n] times in a row, from [k]
    to [k']. *)
Fixpoint interrupted {KN : Kernel} (c : syscall) (n : nat) (k k' : kstate) : Prop :=
  match n with
  | O => k' = k
  | S n' => exists r k1, ksys k c = (r, k1) /\ r_ret r < 0 /\ r_errno r = EINTR /\
                         interrupted c n' k1 k'
  end.

(** ** Watchers and contexts by what [ml_run] and [ml_exit] do with them *)

(** Watchers that neither the timer start nor the workaround pass of
    [ml_run] touches. *)
Definition plain (w : ml_t) : Prop :=
  ml_type w <> MINILOOP_TIMER_TYPE /\ (ml_active w <> -1 \/ ml_cb w = None).

Definition all_plain {KN : Kernel} (s : state) (l : list addr) : Prop :=
  forall a, a ∈ l -> exists w, watchers s !! a = Some w /\ plain w.

(** An I/O watcher of the context at [c]. *)
Definition io_of (c : addr) (w : ml_t) : Prop :=
  ml_type w = MINILOOP_IO_TYPE /\ ml_ctx w = Some c.

(** The [timeout] that [ml_run] hands to [epoll_wait]. *)
Definition run_timeout (flags : Z) : Z :=
  if negb (Z.land flags MINILOOP_NONBLOCK =? 0) then 0 else -1.

(** A context that has been torn down. *)
Definition closed_ctx (cx : ml_ctx_t) : Prop :=
  ctx_watchers cx = None /\ ctx_running cx = 0 /\ ctx_fd cx = -1.

(** The body of the loop of [ml_exit], for the node [w]. *)
Definition ml_exit_step {KN : Kernel} {EX : Extern} (ctx w : ptr) : M unit :=
  _MINILOOP_REMOVE w ctx ;;
  act <- _ml_watcher_active w ;;
  if act =? 0 then ret tt
  else
    ty <- wget w ml_type ;;
    match ty with
    | MINILOOP_TIMER_TYPE => ml_timer_stop w ;; ret tt
    | MINILOOP_IO_TYPE => ml_io_stop w ;; ret tt
    | MINILOOP_SIGNAL_TYPE => ml_signal_stop w ;; ret tt
    | MINILOOP_FS_TYPE => ret tt
    | MINILOOP_EVENT_TYPE => ml_event_stop w ;; ret tt
    end.

(** What [ml_exit] leaves of an I/O watcher that it finds on the list:
    off the list, and not active if it was. *)
Definition exited (w : ml_t) : ml_t :=
  payload (if 0 <? ml_active w then set_active 0 w else w).

(** The deregistrations [ml_exit] asks for, for the I/O watchers [l] of a
    context whose demultiplexer is [epfd]. *)
Definition exit_calls (epfd : Z) (h : gmap positive ml_t) (l : list addr) : list action :=
  flat_map (fun a => match h !! a with
                     | Some w => if 0 <? ml_active w
                                 then [Sys (SysEpollCtl epfd EPOLL_CTL_DEL (ml_fd w) None)]
                                 else []
                     | None => []
                     end) l.

(** The record [_ml_watcher_init] leaves: the links, the timer fields and
    the signal number are those of the old record. *)
Definition initialised (w : ml_t) (ctx : ptr) (type : ml_type_t) (cb : option positive)
    (arg fd events : Z) : ml_t :=
  Build_ml (ml_next w) (ml_prev w) 0 events cb arg (ml_timeout w) (ml_period w)
    type (ml_signo w) fd ctx.

(** The mask that [ml_signal_set] builds for [signo]: empty when
    [sigaddset] refuses the number. *)
Definition mask_of (signo : Z) : list Z :=
  if sigaddset_ok signo then [signo] else [].

(** The state after the unchecked [sigaddset] of [signo]: a refusal leaves
    EINVAL in [errno]. *)
Definition after_sigaddset {KN : Kernel} (signo : Z) (s : state) : state :=
  Build_state KN (watchers s) (ctxs s)
    (if sigaddset_ok signo then errno s else EINVAL) (kern s) (trace s).

(** The system calls of [ml_signal_set] for the descriptor [fd] of the
    watcher at [a]. *)
Definition signal_set_calls (epfd : Z) (a : addr) (fd events signo : Z) : list syscall :=
  [SysSigprocmask SIG_BLOCK (mask_of signo);
   SysSignalfd fd (mask_of signo) SFD_NONBLOCK;
   SysEpollCtl epfd EPOLL_CTL_ADD fd (Some (to_uint32 (Z.lor events EPOLLRDHUP), Some a))].

(** ** More scenarios *)

Module Cases.
Section Cases.

#[local] Existing Instance scripted.

(** Records of the kinds of watcher met below, all owned by the context
    at address 1: an I/O watcher for READ, a signal watcher for signal 2
    and an event watcher. *)
Definition io_w (next prev : ptr) (active : Z) (cb : positive) (fd : Z) : ml_t :=
  Build_ml next prev active MINILOOP_READ (Some cb) 0 0 0 MINILOOP_IO_TYPE 0 fd
    Scenario.ctx.

Definition sig_w (next prev : ptr) (active fd : Z) : ml_t :=
  Build_ml next prev active MINILOOP_READ (Some Scenario.cb_idle) 0 0 0
    MINILOOP_SIGNAL_TYPE 2 fd Scenario.ctx.


(** The context after [ml_init] with room for 8 events, by its [running]
    flag, its demultiplexer and the head of its list. *)
Definition ctx_of (running fd : Z) (head : ptr) : ml_ctx_t :=
  Build_ctx running 4 fd 8 head 0.

(** Memory with the watchers [x1] and [x2] at the addresses 1 and 2 and
    the context [cx] at address 1; the kernel will answer from [script]. *)
Definition mem (x1 x2 : ml_t) (cx : ml_ctx_t) (script : list reply) (t : list action)
    : state :=
  Build_state scripted (<[2%positive := x2]> (<[1%positive := x1]> ∅))
    (<[1%positive := cx]> ∅) 0 script t.

(** Both watchers are active on the list, watcher 2 at its head. *)
Definition both_active (running : Z) (script : list reply) : state :=
  mem (io_w None Scenario.w2 1 Scenario.cb_quit 5)
      (io_w Scenario.w1 None 1 Scenario.cb_idle 6)
      (ctx_of running 3 Scenario.w2) script [].

(** Watcher 2 alone is on the list; watcher 1 is [x1]. *)
Definition one_active (x1 : ml_t) (script : list reply) : state :=
  mem x1 (io_w None None 1 Scenario.cb_idle 6) (ctx_of 0 3 Scenario.w2) script [].

(** No watcher is on the list. *)
Definition none_active (fd : Z) (t : list action) : state :=
  mem Scenario.blank_w Scenario.blank_w (ctx_of 0 fd None) [] t.

End Cases.
End Cases.

(** ** Reasoning about computations *)

Section Facts.

Context {KN : Kernel}.

Lemma bind_done {A B} (m : M A) (k : A -> M B) s a s' :
  m s = Done a s' -> bind m k s = k a s'.
Proof. intros H. unfold bind. now rewrite H. Qed.

Lemma bind_segv {A B} (m : M A) (k : A -> M B) s :
  m s = Segv -> bind m k s = Segv.
Proof. intros H. unfold bind. now rewrite H. Qed.

Lemma wget_ok {A} (field : ml_t -> A) a w s :
  watchers s !! a = Some w -> wget (Some a) field s = Done (field w) s.
Proof. intros H. unfold wget, bind, load_w. now rewrite H. Qed.

Lemma cget_ok {A} (field : ml_ctx_t -> A) a c s :
  ctxs s !! a = Some c -> cget (Some a) field s = Done (field c) s.
Proof. intros H. unfold cget, bind, load_ctx. now rewrite H. Qed.

Lemma _ml_watcher_active_ok a w s :
  watchers s !! a = Some w ->
  _ml_watcher_active (Some a) s = Done (Z_of_bool (0 <? ml_active w)) s.
Proof.
  intros H. unfold _ml_watcher_active. cbn [is_null].
  now rewrite (bind_done _ _ _ _ _ (wget_ok ml_active _ _ _ H)).
Qed.

Lemma _ml_watcher_active_null s : _ml_watcher_active None s = Done 0 s.
Proof. reflexivity. Qed.

Lemma bind_inv {A B} (m : M A) (k : A -> M B) s b s2 :
  bind m k s = Done b s2 -> exists a s1, m s = Done a s1 /\ k a s1 = Done b s2.
Proof.
  unfold bind. destruct (m s) as [a s1| |]; [|discriminate..].
  intros H. now exists a, s1.
Qed.

Lemma wget_inv {A} (field : ml_t -> A) p s v s' :
  wget p field s = Done v s' ->
  s' = s /\ exists a w, p = Some a /\ watchers s !! a = Some w /\ v = field w.
Proof.
  unfold wget, bind, load_w, ret. destruct p as [a|]; [|discriminate].
  destruct (watchers s !! a) as [w|] eqn:Hw; [|discriminate].
  intros [= <- <-]. split; [reflexivity|]. now exists a, w.
Qed.

Lemma cget_inv {A} (field : ml_ctx_t -> A) p s v s' :
  cget p field s = Done v s' ->
  s' = s /\ exists a c, p = Some a /\ ctxs s !! a = Some c /\ v = field c.
Proof.
  unfold cget, bind, load_ctx, ret. destruct p as [a|]; [|discriminate].
  destruct (ctxs s !! a) as [c|] eqn:Hc; [|discriminate].
  intros [= <- <-]. split; [reflexivity|]. now exists a, c.
Qed.

Lemma wset_inv p f s u s' :
  wset p f s = Done u s' ->
  exists a w, p = Some a /\ watchers s !! a = Some w /\
    s' = Build_state KN (<[a := f w]> (watchers s)) (ctxs s) (errno s) (kern s) (trace s).
Proof.
  unfold wset. destruct p as [a|]; [|discriminate].
  destruct (watchers s !! a) as [w|] eqn:Hw; [|discriminate].
  intros [= _ <-]. now exists a, w.
Qed.

Lemma cset_inv p f s u s' :
  cset p f s = Done u s' ->
  exists a c, p = Some a /\ ctxs s !! a = Some c /\
    s' = Build_state KN (watchers s) (<[a := f c]> (ctxs s)) (errno s) (kern s) (trace s).
Proof.
  unfold cset. destruct p as [a|]; [|discriminate].
  destruct (ctxs s !! a) as [c|] eqn:Hc; [|discriminate].
  intros [= _ <-]. now exists a, c.
Qed.

Lemma sys_inv c s r s' :
  sys c s = Done r s' -> watchers s' = watchers s /\ ctxs s' = ctxs s.
Proof.
  unfold sys. destruct (ksys (kern s) c) as [r0 k'].
  intros [= _ <-]. now split.
Qed.

(** *** Rules of the triple *)

Lemma hoare_ret {A} (P : state -> Prop) (a : A) (Q : A -> state -> Prop) :
  (forall s, P s -> Q a s) -> hoare P (ret a) Q.
Proof. intros H s b s' HP [= <- <-]. now apply H. Qed.

Lemma hoare_bind {A B} (P : state -> Prop) (R : A -> state -> Prop)
    (Q : B -> state -> Prop) (m : M A) (k : A -> M B) :
  hoare P m R -> (forall a, hoare (R a) (k a) Q) -> hoare P (bind m k) Q.
Proof.
  intros Hm Hk s b s2 HP Hrun.
  destruct (bind_inv _ _ _ _ _ Hrun) as (a & s1 & H1 & H2).
  exact (Hk a s1 b s2 (Hm s a s1 HP H1) H2).
Qed.

Lemma hoare_if {A} (P : state -> Prop) (Q : A -> state -> Prop) (b : bool) (m1 m2 : M A) :
  hoare P m1 Q -> hoare P m2 Q -> hoare P (if b then m1 else m2) Q.
Proof. now destruct b. Qed.

Lemma keeps_ret {A} (I : state -> Prop) (a : A) : keeps I (ret a).
Proof. now apply hoare_ret. Qed.

Lemma keeps_bind {A B} (I : state -> Prop) (m : M A) (k : A -> M B) :
  keeps I m -> (forall a, keeps I (k a)) -> keeps I (bind m k).
Proof. intros Hm Hk. exact (hoare_bind I (fun _ => I) _ m k Hm Hk). Qed.

Lemma keeps_if {A} (I : state -> Prop) (b : bool) (m1 m2 : M A) :
  keeps I m1 -> keeps I m2 -> keeps I (if b then m1 else m2).
Proof. apply hoare_if. Qed.

Lemma keeps_wget {A} (I : state -> Prop) p (field : ml_t -> A) : keeps I (wget p field).
Proof. intros s v s' HI H. now destruct (wget_inv _ _ _ _ _ H) as [-> _]. Qed.

Lemma keeps_cget {A} (I : state -> Prop) p (field : ml_ctx_t -> A) : keeps I (cget p field).
Proof. intros s v s' HI H. now destruct (cget_inv _ _ _ _ _ H) as [-> _]. Qed.

Section WatcherAt.

Variable a : addr.
Variable P : ml_t -> Prop.

Lemma keeps_wset p f :
  (forall w, P w -> P (f w)) -> keeps (watcher_at a P) (wset p f).
Proof.
  intros Hf s u s' (w & Hw & HP) H.
  destruct (wset_inv _ _ _ _ _ H) as (b & wb & -> & Hb & ->).
  unfold watcher_at. cbn [watchers].
  destruct (decide (b = a)) as [->|Hne].
  - exists (f wb). rewrite lookup_insert_eq. split; [reflexivity|].
    apply Hf. congruence.
  - exists w. now rewrite lookup_insert_ne.
Qed.

Lemma keeps_cset p f : keeps (watcher_at a P) (cset p f).
Proof.
  intros s u s' HI H.
  destruct (cset_inv _ _ _ _ _ H) as (b & c & _ & _ & ->). exact HI.
Qed.

Lemma keeps_sys c : keeps (watcher_at a P) (sys c).
Proof.
  intros s r s' (w & Hw & HP) H.
  destruct (sys_inv _ _ _ _ H) as [Hws _].
  exists w. now rewrite Hws.
Qed.

Hypothesis P_link_free : link_free P.

Lemma keeps_relink p f : relinks f -> keeps (watcher_at a P) (wset p f).
Proof. intros Hf. apply keeps_wset. intros w. now apply P_link_free. Qed.

Lemma keeps_MINILOOP_REMOVE node c : keeps (watcher_at a P) (_MINILOOP_REMOVE node c).
Proof.
  unfold _MINILOOP_REMOVE.
  repeat first
    [ apply keeps_wget
    | apply keeps_cget
    | apply keeps_cset
    | apply keeps_ret
    | apply keeps_relink; constructor
    | apply keeps_if
    | apply keeps_bind; [|intros ?] ].
Qed.

Lemma keeps_MINILOOP_INSERT node c : keeps (watcher_at a P) (_MINILOOP_INSERT node c).
Proof.
  unfold _MINILOOP_INSERT.
  repeat first
    [ apply keeps_wget
    | apply keeps_cget
    | apply keeps_cset
    | apply keeps_ret
    | apply keeps_relink; constructor
    | apply keeps_if
    | apply keeps_bind; [|intros ?] ].
Qed.

End WatcherAt.

Lemma keeps_get_errno (I : state -> Prop) : keeps I get_errno.
Proof. now intros s e s' HI [= _ <-]. Qed.

Ltac keeps_steps HP :=
  repeat first
    [ apply keeps_wget
    | apply keeps_cget
    | apply keeps_cset
    | apply keeps_sys
    | apply keeps_ret
    | apply keeps_relink; [exact HP | constructor]
    | apply keeps_MINILOOP_REMOVE; exact HP
    | apply keeps_if
    | apply keeps_bind; [|intros ?] ].

(** What [_ml_watcher_stop] leaves of the watcher it was given, when it
    returns: an active watcher has become inactive, any other is as it was,
    and the callback and its argument are the ones it had. *)
Lemma _ml_watcher_stop_post (a : addr) (wr : ml_t) :
  hoare (fun s => watchers s !! a = Some wr) (_ml_watcher_stop (Some a))
    (fun _ => watcher_at a (fun w =>
       ml_active w = (if 0 <? ml_active wr then 0 else ml_active wr) /\
       ml_cb w = ml_cb wr /\ ml_arg w = ml_arg wr)).
Proof.
  intros s r s' Hw Hrun. unfold _ml_watcher_stop in Hrun. cbn [is_null] in Hrun.
  apply bind_inv in Hrun as (act & s1 & Hact & Hrest).
  rewrite (_ml_watcher_active_ok _ _ _ Hw) in Hact. injection Hact as <- <-.
  destruct (0 <? ml_active wr); cbn in Hrest.
  - set (Q := fun w => ml_active w = 0 /\ ml_cb w = ml_cb wr /\ ml_arg w = ml_arg wr).
    assert (HQ : link_free Q) by (intros f w [v|v] HQ; exact HQ).
    apply bind_inv in Hrest as (u & s2 & Hset & Hrest).
    assert (HI : watcher_at a Q s2).
    { destruct (wset_inv _ _ _ _ _ Hset) as (b & wb & [= <-] & Hb & ->).
      exists (set_active 0 wb). cbn [watchers]. rewrite lookup_insert_eq.
      split; [reflexivity|]. assert (wb = wr) as -> by congruence. now unfold Q. }
    match type of Hrest with
    | ?m _ = _ => assert (Hk : keeps (watcher_at a Q) m) by keeps_steps HQ
    end.
    exact (Hk _ _ _ HI Hrest).
  - injection Hrest as <- <-. exists wr. repeat split; auto.
Qed.

(** A watcher for which [_ml_watcher_start] returns 0 has a descriptor
    that is not negative and a context pointer that is not null: the
    function has tested both, and nothing it does afterwards changes
    them. *)
Lemma _ml_watcher_start_ok_has_fd_and_ctx (a : addr) (s : state) (r : Z) (s' : state) :
  _ml_watcher_start (Some a) s = Done r s' ->
  r = 0 ->
  watcher_at a (fun w => 0 <= ml_fd w /\ ml_ctx w <> None) s'.
Proof.
  set (Q := fun w => 0 <= ml_fd w /\ ml_ctx w <> None).
  assert (HQ : link_free Q) by (intros f w [v|v] HQ; exact HQ).
  intros H Hr. unfold _ml_watcher_start in H.
  apply bind_inv in H as (bad & s1 & Hbad & H).
  assert (Hs1 : s1 = s /\ (bad = false -> watcher_at a Q s)).
  { unfold start_invalid in Hbad. cbn [is_null] in Hbad.
    apply bind_inv in Hbad as (fd & s2 & Hfd & Hbad).
    destruct (wget_inv _ _ _ _ _ Hfd) as (-> & b & w & [= <-] & Hw & ->).
    destruct (Z.ltb_spec (ml_fd w) 0) as [|Hge].
    - injection Hbad as <- <-. split; [reflexivity|discriminate].
    - apply bind_inv in Hbad as (c & s3 & Hc & Hbad).
      destruct (wget_inv _ _ _ _ _ Hc) as (-> & b' & w' & [= <-] & Hw' & ->).
      injection Hbad as <- <-. split; [reflexivity|].
      intros Hnn. exists w. split; [exact Hw|].
      assert (w' = w) as -> by congruence.
      split; [exact Hge|]. now destruct (ml_ctx w). }
  destruct Hs1 as [-> HI]. destruct bad.
  - apply bind_inv in H as (u & s2 & _ & [= <- _]). discriminate.
  - specialize (HI eq_refl).
    match type of H with
    | ?m _ = _ => assert (Hk : keeps (watcher_at a Q) m)
    end.
    { repeat first
        [ apply keeps_wget
        | apply keeps_cget
        | apply keeps_cset
        | apply keeps_sys
        | apply keeps_ret
        | apply keeps_get_errno
        | apply keeps_MINILOOP_INSERT; exact HQ
        | apply keeps_wset; intros w Hw; exact Hw
        | apply keeps_if
        | apply keeps_bind; [|intros ?]
        | match goal with
          | |- keeps _ (match ?x with _ => _ end) => destruct x
          end ]. }
    exact (Hk _ _ _ HI H).
Qed.

(** *** The event words *)

Lemma to_uint32_land_ones (z : Z) : to_uint32 z = Z.land z (Z.ones 32).
Proof. unfold to_uint32. now rewrite Z.land_ones by lia. Qed.

Lemma to_uint32_to_int32 (z : Z) : to_uint32 (to_int32 z) = to_uint32 z.
Proof.
  unfold to_uint32, to_int32. rewrite Zminus_mod_idemp_l. f_equal. lia.
Qed.

Lemma land_hup_err_uint32 (z : Z) :
  Z.land (to_uint32 z) (Z.lor EPOLLHUP EPOLLERR) = Z.land z (Z.lor EPOLLHUP EPOLLERR).
Proof.
  rewrite to_uint32_land_ones, <- Z.land_assoc. reflexivity.
Qed.

(** HUP and ERR pass through the masking and the conversion to [int]. *)
Lemma masked_events_keep_hup_err (raw : Z) :
  Z.land (to_int32 (Z.land (to_uint32 raw) MINILOOP_EVENT_MASK)) (Z.lor EPOLLHUP EPOLLERR) =
  Z.land raw (Z.lor EPOLLHUP EPOLLERR).
Proof.
  rewrite <- land_hup_err_uint32, to_uint32_to_int32, land_hup_err_uint32.
  rewrite <- Z.land_assoc.
  change (Z.land MINILOOP_EVENT_MASK (Z.lor EPOLLHUP EPOLLERR)) with (Z.lor EPOLLHUP EPOLLERR).
  apply land_hup_err_uint32.
Qed.

(** *** The fuel of the signal adapter *)

Lemma no_timeout_weaken {A} (P P' : state -> Prop) (m : M A) :
  (forall s, P s -> P' s) -> no_timeout P' m -> no_timeout P m.
Proof. intros HPP Hm s HP. apply Hm, HPP, HP. Qed.

Lemma loop_free_no_timeout {A} (P : state -> Prop) (m : M A) :
  loop_free m -> no_timeout P m.
Proof. apply no_timeout_weaken. trivial. Qed.

Lemma no_timeout_bind {A B} (P : state -> Prop) (R : A -> state -> Prop)
    (m : M A) (k : A -> M B) :
  no_timeout P m -> hoare P m R -> (forall a, no_timeout (R a) (k a)) ->
  no_timeout P (bind m k).
Proof.
  intros Hm Hh Hk s HP. unfold bind.
  destruct (m s) as [a s1| |] eqn:Hrun; [|discriminate|].
  - exact (Hk a s1 (Hh s a s1 HP Hrun)).
  - now destruct (Hm s HP).
Qed.

Lemma loop_free_bind {A B} (m : M A) (k : A -> M B) :
  loop_free m -> (forall a, loop_free (k a)) -> loop_free (bind m k).
Proof.
  intros Hm Hk. apply (no_timeout_bind _ (fun _ _ => True)); auto.
  now intros s a s' _ _.
Qed.

Lemma no_timeout_if {A} (P : state -> Prop) (b : bool) (m1 m2 : M A) :
  no_timeout P m1 -> no_timeout P m2 -> no_timeout P (if b then m1 else m2).
Proof. now destruct b. Qed.

Lemma loop_free_if {A} (b : bool) (m1 m2 : M A) :
  loop_free m1 -> loop_free m2 -> loop_free (if b then m1 else m2).
Proof. now destruct b. Qed.

Lemma loop_free_ret {A} (a : A) : loop_free (ret a).
Proof. now intros s _. Qed.

Lemma loop_free_segv {A} : loop_free (@segv KN A).
Proof. now intros s _. Qed.

Lemma loop_free_load_w p : loop_free (load_w p).
Proof. intros s _. unfold load_w. destruct p as [a|]; [destruct (watchers s !! a)|]; discriminate. Qed.

Lemma loop_free_load_ctx p : loop_free (load_ctx p).
Proof. intros s _. unfold load_ctx. destruct p as [a|]; [destruct (ctxs s !! a)|]; discriminate. Qed.

Lemma loop_free_wset p f : loop_free (wset p f).
Proof. intros s _. unfold wset. destruct p as [a|]; [destruct (watchers s !! a)|]; discriminate. Qed.

Lemma loop_free_cset p f : loop_free (cset p f).
Proof. intros s _. unfold cset. destruct p as [a|]; [destruct (ctxs s !! a)|]; discriminate. Qed.

Lemma loop_free_sys c : loop_free (sys c).
Proof. intros s _. unfold sys. now destruct (ksys (kern s) c). Qed.

Lemma loop_free_set_errno e : loop_free (set_errno e).
Proof. now intros s _. Qed.

Lemma loop_free_get_errno : loop_free get_errno.
Proof. now intros s _. Qed.

Create HintDb loop_free.
#[local] Hint Resolve loop_free_ret loop_free_segv loop_free_load_w loop_free_load_ctx
  loop_free_wset loop_free_cset loop_free_sys loop_free_set_errno loop_free_get_errno
  : loop_free.

(** Straight-line code: go through the binds and the branches. *)
Ltac loop_free_steps :=
  repeat first
    [ progress auto with loop_free nocore
    | apply loop_free_bind; [|intros ?]
    | apply loop_free_if
    | match goal with
      | |- loop_free (match ?x with _ => _ end) => destruct x
      end ].

Lemma loop_free_wget {A} p (field : ml_t -> A) : loop_free (wget p field).
Proof. unfold wget. loop_free_steps. Qed.

Lemma loop_free_cget {A} p (field : ml_ctx_t -> A) : loop_free (cget p field).
Proof. unfold cget. loop_free_steps. Qed.

#[local] Hint Resolve loop_free_wget loop_free_cget : loop_free.

Lemma loop_free_ml_watcher_active w : loop_free (_ml_watcher_active w).
Proof. unfold _ml_watcher_active. loop_free_steps. Qed.

Lemma loop_free_MINILOOP_INSERT node c : loop_free (_MINILOOP_INSERT node c).
Proof. unfold _MINILOOP_INSERT. loop_free_steps. Qed.

Lemma loop_free_MINILOOP_REMOVE node c : loop_free (_MINILOOP_REMOVE node c).
Proof. unfold _MINILOOP_REMOVE. loop_free_steps. Qed.

#[local] Hint Resolve loop_free_ml_watcher_active loop_free_MINILOOP_INSERT
  loop_free_MINILOOP_REMOVE : loop_free.

Lemma loop_free_ml_watcher_init ctx w ty cb arg fd events :
  loop_free (_ml_watcher_init ctx w ty cb arg fd events).
Proof. unfold _ml_watcher_init. loop_free_steps. Qed.

Lemma loop_free_ml_watcher_start w : loop_free (_ml_watcher_start w).
Proof. unfold _ml_watcher_start, start_invalid. loop_free_steps. Qed.

Lemma loop_free_ml_watcher_stop w : loop_free (_ml_watcher_stop w).
Proof. unfold _ml_watcher_stop. loop_free_steps. Qed.

Lemma loop_free_ml_watcher_rearm w : loop_free (_ml_watcher_rearm w).
Proof. unfold _ml_watcher_rearm, rearm_invalid. loop_free_steps. Qed.

#[local] Hint Resolve loop_free_ml_watcher_init loop_free_ml_watcher_start
  loop_free_ml_watcher_stop loop_free_ml_watcher_rearm : loop_free.

Lemma loop_free_ml_io_set w fd events : loop_free (ml_io_set w fd events).
Proof. unfold ml_io_set, ml_io_stop, ml_io_init. loop_free_steps. Qed.

Lemma loop_free_ml_signal_stop w : loop_free (ml_signal_stop w).
Proof. unfold ml_signal_stop. loop_free_steps. Qed.

(** The call of [ml_signal_set] that [ml_signal_init] makes finds a
    descriptor in the watcher, and so does not call [ml_signal_init]
    again: one level of fuel is enough for it. *)
Lemma ml_signal_set_inner_no_timeout (a : addr) (signo : Z) :
  no_timeout (watcher_at a (fun w => 0 <= ml_fd w))
    (ml_signal_set_fuel 1 (Some a) signo).
Proof.
  set (P := watcher_at a (fun w => 0 <= ml_fd w)).
  cbn [ml_signal_set_fuel].
  apply (no_timeout_bind P (fun _ => P)).
  { apply loop_free_no_timeout. unfold signal_set_invalid. loop_free_steps. }
  { unfold signal_set_invalid. cbn [is_null].
    apply keeps_bind; [apply keeps_wget|intros c; apply keeps_ret]. }
  intros [|]; [apply loop_free_no_timeout; loop_free_steps|].
  apply (no_timeout_bind P (fun _ => P)).
  { apply loop_free_no_timeout. loop_free_steps. }
  { apply keeps_wset. now intros w. }
  intros _.
  apply (no_timeout_bind P (fun fd _ => 0 <= fd)).
  { apply loop_free_no_timeout. loop_free_steps. }
  { intros s fd s' (w & Hw & Hfd) Hget.
    destruct (wget_inv _ _ _ _ _ Hget) as (_ & b & wb & [= <-] & Hb & ->).
    congruence. }
  intros fd s Hfd.
  destruct (Z.ltb_spec fd 0) as [|_]; [lia|].
  unfold bind at 1, ret at 1.
  match goal with |- ?m s <> _ => assert (Hm : loop_free m) by loop_free_steps end.
  now apply Hm.
Qed.

(** With that, neither [ml_signal_init] nor [ml_signal_set] can run out
    of fuel. *)
Lemma loop_free_ml_signal_init ctx w cb arg signo :
  loop_free (ml_signal_init ctx w cb arg signo).
Proof.
  unfold ml_signal_init, ml_signal_init_with.
  destruct w as [a|]; [|loop_free_steps].
  destruct ctx as [c|]; [|loop_free_steps].
  cbn [is_null orb].
  apply loop_free_bind; [loop_free_steps|intros _].
  apply loop_free_bind; [loop_free_steps|intros r].
  destruct (Z.ltb_spec (r_ret r) 0) as [|Hfd]; [loop_free_steps|].
  apply (no_timeout_bind _ (fun _ => watcher_at a (fun w => 0 <= ml_fd w))).
  { loop_free_steps. }
  { intros s i s' _ Hinit. unfold _ml_watcher_init in Hinit. cbn [is_null orb] in Hinit.
    apply bind_inv in Hinit as (u & s1 & Hset & [= _ <-]).
    destruct (wset_inv _ _ _ _ _ Hset) as (b & wb & [= <-] & Hb & ->).
    eexists. cbn [watchers]. rewrite lookup_insert_eq. split; [reflexivity|exact Hfd]. }
  intros i. apply no_timeout_if.
  { apply loop_free_no_timeout. loop_free_steps. }
  apply (no_timeout_bind _ (fun _ _ => True)).
  { apply ml_signal_set_inner_no_timeout. }
  { now intros s st s' _ _. }
  intros st. apply loop_free_if; loop_free_steps.
Qed.

Lemma loop_free_ml_signal_set w signo : loop_free (ml_signal_set w signo).
Proof.
  unfold ml_signal_set. change 2%nat with (S 1).
  remember 1%nat as n eqn:Hn. cbn [ml_signal_set_fuel]. subst n.
  fold ml_signal_init. unfold signal_set_invalid.
  pose proof loop_free_ml_signal_init.
  loop_free_steps.
Qed.

Lemma loop_free_ml_signal_start w : loop_free (ml_signal_start w).
Proof.
  unfold ml_signal_start.
  pose proof loop_free_ml_signal_set. pose proof loop_free_ml_signal_stop.
  loop_free_steps.
Qed.


End Facts.

(** Symbolic execution: resolve the lookups that the hypotheses decide and
    reduce the matches they free. *)
Ltac msimp :=
  repeat match goal with
  | |- context [<[?a := _]> _ !! ?a] => rewrite lookup_insert_eq
  | H : ?m !! ?a = Some _ |- context [?m !! ?a] => rewrite H
  | H : ?m !! ?a = None |- context [?m !! ?a] => rewrite H
  | |- _ => progress cbv beta iota
  | |- _ => progress cbn [watchers ctxs errno kern trace is_null fst snd negb orb andb]
  end.

Section Claims.

Context {KN : Kernel}.

(** *** Re-arming an active one-shot watcher *)

Lemma _ml_watcher_rearm_ok (a : addr) (wr : ml_t) (ca : addr) (cx : ml_ctx_t) (s : state) :
  watchers s !! a = Some wr ->
  0 <= ml_fd wr ->
  ml_ctx wr = Some ca ->
  ctxs s !! ca = Some cx ->
  _ml_watcher_rearm (Some a) s =
  (r <- sys (SysEpollCtl (ctx_fd cx) EPOLL_CTL_MOD (ml_fd wr) (registration a wr)) ;;
   if r_ret r <? 0 then ret (-1) else ret 0) s.
Proof.
  intros Hw Hfd Hctx Hc.
  unfold _ml_watcher_rearm, rearm_invalid, wget, cget, load_w, load_ctx, bind, ret.
  msimp.
  destruct (Z.ltb_spec (ml_fd wr) 0) as [|_]; [lia|]. msimp.
  rewrite Hctx. msimp. reflexivity.
Qed.

Lemma ml_io_set_rearms (a : addr) (wr : ml_t) (s : state) (fd events : Z) :
  watchers s !! a = Some wr ->
  0 < ml_active wr ->
  Z.land events MINILOOP_ONESHOT <> 0 ->
  ml_io_set (Some a) fd events s = _ml_watcher_rearm (Some a) s.
Proof.
  intros Hw Hact Hone.
  unfold ml_io_set. unfold bind at 1.
  destruct (Z.eqb_spec (Z.land events MINILOOP_ONESHOT) 0) as [|_]; [contradiction|].
  cbn [negb]. unfold bind at 1.
  rewrite (_ml_watcher_active_ok _ _ _ Hw).
  destruct (Z.ltb_spec 0 (ml_active wr)) as [_|]; [|lia].
  reflexivity.
Qed.

(** C7. An active watcher that [ml_io_set] is asked to re-arm (one-shot bit
    in [events]) is only modified in the kernel: the call ends, the one
    action it adds to the trace is an [epoll_ctl] with EPOLL_CTL_MOD, and
    the stores of watchers and contexts are what they were, so no list node
    was inserted or removed and the watcher list is the same. *)
Theorem ml_io_set_oneshot_active_only_modifies
    (a : addr) (wr : ml_t) (ca : addr) (cx : ml_ctx_t) (s : state) (fd events : Z) :
  watchers s !! a = Some wr ->
  0 < ml_active wr ->
  0 <= ml_fd wr ->
  ml_ctx wr = Some ca ->
  ctxs s !! ca = Some cx ->
  Z.land events MINILOOP_ONESHOT <> 0 ->
  exists r s',
    ml_io_set (Some a) fd events s = Done r s' /\
    trace s' = trace s ++
      [Sys (SysEpollCtl (ctx_fd cx) EPOLL_CTL_MOD (ml_fd wr) (registration a wr))] /\
    watchers s' = watchers s /\
    ctxs s' = ctxs s /\
    watcher_list s' cx = watcher_list s cx.
Proof.
  intros Hw Hact Hfd Hctx Hc Hone.
  rewrite (ml_io_set_rearms _ _ _ _ _ Hw Hact Hone).
  rewrite (_ml_watcher_rearm_ok _ _ _ _ _ Hw Hfd Hctx Hc).
  unfold bind, sys, ret.
  destruct (ksys (kern s) _) as [r k'].
  destruct (r_ret r <? 0); eexists _, _; (split; [reflexivity|]); cbn; auto.
Qed.

(** C9. On that path the [fd] and [events] arguments of [ml_io_set] play no
    part beyond the one-shot test: the call is [_ml_watcher_rearm] whatever
    they are, the kernel is given the descriptor and the events stored in
    the watcher, and the watcher record, [fd] and [events] included, is
    left as it was. *)
Theorem ml_io_set_rearm_uses_stored_fd_and_events
    (a : addr) (wr : ml_t) (ca : addr) (cx : ml_ctx_t) (s : state) (fd events : Z) :
  watchers s !! a = Some wr ->
  0 < ml_active wr ->
  0 <= ml_fd wr ->
  ml_ctx wr = Some ca ->
  ctxs s !! ca = Some cx ->
  Z.land events MINILOOP_ONESHOT <> 0 ->
  ml_io_set (Some a) fd events s = _ml_watcher_rearm (Some a) s /\
  exists r s',
    ml_io_set (Some a) fd events s = Done r s' /\
    syscalls (drop (length (trace s)) (trace s')) =
      [SysEpollCtl (ctx_fd cx) EPOLL_CTL_MOD (ml_fd wr)
         (Some (to_uint32 (Z.lor (ml_events wr) EPOLLRDHUP), Some a))] /\
    watchers s' !! a = Some wr.
Proof.
  intros Hw Hact Hfd Hctx Hc Hone.
  split; [exact (ml_io_set_rearms _ _ _ _ _ Hw Hact Hone)|].
  rewrite (ml_io_set_rearms _ _ _ _ _ Hw Hact Hone).
  rewrite (_ml_watcher_rearm_ok _ _ _ _ _ Hw Hfd Hctx Hc).
  unfold bind, sys, ret.
  destruct (ksys (kern s) _) as [r k'].
  destruct (r_ret r <? 0); eexists _, _; (split; [reflexivity|]); cbn [trace watchers];
    rewrite drop_app_length; split; auto.
Qed.

(** *** Starting an active watcher *)

(** C10. Starting a watcher that is already active (with its descriptor
    and its context in place, as a started watcher has them) returns 0 and
    leaves the state as it was: no system call is added to the trace, so
    nothing is registered anew, and the stores are untouched, so the node
    is not inserted a second time. *)
Theorem _ml_watcher_start_active_idempotent (a : addr) (wr : ml_t) (s : state) :
  watchers s !! a = Some wr ->
  0 < ml_active wr ->
  0 <= ml_fd wr ->
  ml_ctx wr <> None ->
  _ml_watcher_start (Some a) s = Done 0 s.
Proof.
  intros Hw Hact Hfd Hctx.
  unfold _ml_watcher_start, start_invalid, _ml_watcher_active, wget, load_w, bind, ret.
  msimp.
  destruct (Z.ltb_spec (ml_fd wr) 0) as [|_]; [lia|]. msimp.
  destruct (ml_ctx wr) as [c|]; [|congruence]. msimp.
  destruct (Z.ltb_spec 0 (ml_active wr)) as [_|]; [|lia].
  reflexivity.
Qed.

(** *** Null arguments *)

(** The operations that do test their pointers report EINVAL. *)
Lemma null_watcher_rejected (c : ptr) (cb : option positive) (arg fd events signo : Z) (s : state) :
  0 <= fd ->
  let einval := (set_errno EINVAL ;; ret (-1)) s in
  ml_io_init c None cb arg fd events s = einval /\
  ml_io_stop None s = einval /\
  ml_signal_init c None cb arg signo s = einval /\
  ml_signal_set None signo s = einval /\
  ml_signal_start None s = einval.
Proof.
  intros Hfd. cbn zeta. repeat split; try reflexivity.
  unfold ml_io_init. destruct (Z.ltb_spec fd 0); [lia|].
  unfold _ml_watcher_init. now rewrite orb_true_r.
Qed.

Lemma null_context_rejected (w : ptr) (cb : option positive) (arg fd events signo : Z)
    (s : state) :
  0 <= fd ->
  let einval := (set_errno EINVAL ;; ret (-1)) s in
  ml_io_init None w cb arg fd events s = einval /\
  ml_signal_init None w cb arg signo s = einval.
Proof.
  intros Hfd. cbn zeta. split.
  - unfold ml_io_init. destruct (Z.ltb_spec fd 0); [lia|]. reflexivity.
  - unfold ml_signal_init, ml_signal_init_with. now rewrite orb_true_r.
Qed.

(** C2. Two operations do not reject a null watcher: [ml_signal_stop]
    returns 0 and leaves [errno] alone, and [ml_io_set] and [ml_io_start]
    dereference the null pointer. *)
Theorem null_watcher_not_rejected (fd events : Z) (s : state) :
  ml_signal_stop None s = Done 0 s /\
  ml_io_set None fd events s = Segv /\
  ml_io_start None s = Segv.
Proof.
  repeat split; try reflexivity.
  unfold ml_io_set, bind.
  destruct (negb (Z.land events MINILOOP_ONESHOT =? 0)); reflexivity.
Qed.

(** *** Context initialisation *)

(** C8. When either of the two descriptors cannot be allocated, [ml_init]
    returns -1 having made exactly the two allocating calls: no [close] is
    issued, so a descriptor that was obtained stays open. *)
Theorem ml_init_failure_closes_nothing
    (ca : addr) (cx : ml_ctx_t) (maxevents : Z) (s : state)
    (r1 r2 : reply) (k1 k2 : kstate) :
  ctxs s !! ca = Some cx ->
  1 <= maxevents ->
  ksys (kern s) (SysEpollCreate1 EPOLL_CLOEXEC) = (r1, k1) ->
  ksys k1 (SysInotifyInit1 (Z.lor IN_NONBLOCK IN_CLOEXEC)) = (r2, k2) ->
  r_ret r1 < 0 \/ r_ret r2 < 0 ->
  exists s',
    ml_init (Some ca) maxevents s = Done (-1) s' /\
    trace s' = trace s ++ [Sys (SysEpollCreate1 EPOLL_CLOEXEC);
                           Sys (SysInotifyInit1 (Z.lor IN_NONBLOCK IN_CLOEXEC))] /\
    existsb is_close (syscalls (drop (length (trace s)) (trace s'))) = false.
Proof.
  intros Hc Hmax H1 H2 Hfail.
  unfold ml_init. cbn [is_null orb].
  destruct (Z.ltb_spec maxevents 1); [lia|].
  unfold _init, cset, sys, bind, ret. msimp.
  rewrite H1. msimp. rewrite H2. msimp.
  assert ((r_ret r1 <? 0) || (r_ret r2 <? 0) = true) as ->.
  { apply orb_true_iff. destruct Hfail; [left|right]; now apply Z.ltb_lt. }
  eexists. split; [reflexivity|]. cbn [trace].
  rewrite <- app_assoc. split; [reflexivity|].
  now rewrite drop_app_length.
Qed.

(** *** Stopping a pseudo-active watcher *)

(** C3. A stop of a pseudo-active watcher ([active] = -1) does nothing: the
    I/O and the signal stop both return 0 and leave the state, so the
    watcher keeps [active] = -1 and its place on the list. *)
Theorem stop_ignores_pseudo_active (a : addr) (wr : ml_t) (s : state) :
  watchers s !! a = Some wr ->
  ml_active wr = -1 ->
  ml_io_stop (Some a) s = Done 0 s /\ ml_signal_stop (Some a) s = Done 0 s.
Proof.
  intros Hw Hact.
  unfold ml_signal_stop, ml_io_stop, _ml_watcher_stop, bind. cbn [is_null].
  rewrite (_ml_watcher_active_ok _ _ _ Hw), Hact. split; reflexivity.
Qed.

Context {EX : Extern}.

(** *** Clearing [running] during dispatch *)

Lemma dispatch_loop_stopped (ctx : ptr) (ee : list (ptr * Z)) (s : state) :
  cget ctx ctx_running s = Done 0 s -> dispatch_loop ctx ee s = Done tt s.
Proof.
  intros H. destruct ee as [|rec rest]; [reflexivity|].
  cbn [dispatch_loop]. now rewrite (bind_done _ _ _ _ _ H).
Qed.

Lemma dispatch_loop_app (ctx : ptr) (l1 l2 : list (ptr * Z)) (s : state) :
  dispatch_loop ctx (l1 ++ l2) s = (dispatch_loop ctx l1 ;; dispatch_loop ctx l2) s.
Proof.
  revert s. induction l1 as [|rec l1 IH]; intros s; [reflexivity|].
  cbn [app dispatch_loop]. unfold bind in *.
  destruct (cget ctx ctx_running s) as [running s'| |] eqn:Hrun; try reflexivity.
  destruct (Z.eqb_spec running 0) as [->|_].
  - destruct (cget_inv _ _ _ _ _ Hrun) as [-> _].
    symmetry. now apply dispatch_loop_stopped.
  - destruct (dispatch_record rec s') as [u s''| |]; try reflexivity. apply IH.
Qed.

(** C1. When the callback of a ready record leaves [running] at 0, the
    dispatch loop ends there: the records that follow it in the batch are
    not dispatched, and [ml_run] returns 0 in the state the callback left. *)
Theorem running_cleared_ends_batch
    (n : nat) (ca : addr) (flags timeout : Z)
    (pre rest : list (ptr * Z)) (rec : ptr * Z)
    (s sj s1 : state) (cj cx : ml_ctx_t) :
  dispatch_loop (Some ca) pre s = Done tt sj ->
  ctxs sj !! ca = Some cj ->
  ctx_running cj <> 0 ->
  dispatch_record rec sj = Done tt s1 ->
  ctxs s1 !! ca = Some cx ->
  ctx_running cx = 0 ->
  dispatch_loop (Some ca) (pre ++ rec :: rest) s = Done tt s1 /\
  (c <- dispatch_cycle (Some ca) flags (pre ++ rec :: rest) ;;
   resume c (main_loop (S n) (Some ca) flags timeout)) s = Done 0 s1.
Proof.
  intros Hpre Hcj Hrunning Hrec Hcx Hquit.
  assert (Hstop : cget (Some ca) ctx_running s1 = Done 0 s1)
    by (rewrite (cget_ok _ _ _ _ Hcx); now rewrite Hquit).
  assert (Hloop : dispatch_loop (Some ca) (pre ++ rec :: rest) s = Done tt s1).
  { rewrite dispatch_loop_app, (bind_done _ _ _ _ _ Hpre).
    cbn [dispatch_loop].
    rewrite (bind_done _ _ _ _ _ (cget_ok ctx_running _ _ _ Hcj)).
    destruct (Z.eqb_spec (ctx_running cj) 0) as [|_]; [contradiction|].
    rewrite (bind_done _ _ _ _ _ Hrec).
    now apply dispatch_loop_stopped. }
  split; [exact Hloop|].
  unfold dispatch_cycle. unfold bind at 1 2. rewrite Hloop.
  destruct (negb (Z.land flags MINILOOP_ONCE =? 0)); cbn [ret resume]; [reflexivity|].
  cbn [main_loop]. unfold loop_cond.
  unfold bind at 1 2. now rewrite Hstop.
Qed.

(** *** The workaround pass *)

(** A step of the walk either leaves the counter and the state alone or
    counts one more; so does the whole walk, which therefore returns 0 only
    when it has changed nothing. *)
Lemma workaround_step_counts (ctx w : ptr) (rerun : Z) (s : state) (r : Z) (s' : state) :
  workaround_step ctx w rerun s = Done r s' ->
  (r = rerun /\ s' = s) \/ r = rerun + 1.
Proof.
  unfold workaround_step. intros H.
  apply bind_inv in H as (a & s1 & Ha & H). destruct (wget_inv _ _ _ _ _ Ha) as [-> _].
  apply bind_inv in H as (cb & s2 & Hcb & H). destruct (wget_inv _ _ _ _ _ Hcb) as [-> _].
  destruct (negb (a =? -1) || is_null cb).
  - injection H as <- <-. now left.
  - right.
    repeat (apply bind_inv in H as (? & ? & _ & H)).
    now injection H as <- _.
Qed.

Lemma workaround_foreach_counts (ctx : ptr) (fuel : nat) :
  forall (node : ptr) (acc : Z) (s : state) (r : Z) (s' : state),
  _MINILOOP_FOREACH fuel node acc (workaround_step ctx) s = Done r s' ->
  acc <= r /\ (r = acc -> s' = s).
Proof.
  induction fuel as [|fuel IH]; intros node acc s r s' H.
  - destruct node; [discriminate|]. injection H as <- <-. split; [lia|auto].
  - destruct node as [a|]; [|injection H as <- <-; split; [lia|auto]].
    cbn [_MINILOOP_FOREACH] in H.
    apply bind_inv in H as (next & s1 & Hnext & H).
    destruct (wget_inv _ _ _ _ _ Hnext) as [-> _].
    apply bind_inv in H as (acc' & s2 & Hstep & H).
    destruct (IH _ _ _ _ _ H) as [Hle Heq].
    destruct (workaround_step_counts _ _ _ _ _ _ Hstep) as [[-> ->]| ->].
    + split; [exact Hle|exact Heq].
    + split; [lia|]. intros ->. lia.
Qed.

Lemma workaround_walk_zero (fuel : nat) (ctx : ptr) (s s' : state) :
  workaround_walk fuel ctx s = Done 0 s' -> s' = s.
Proof.
  unfold workaround_walk. intros H.
  apply bind_inv in H as (head & s1 & Hhead & H).
  destruct (cget_inv _ _ _ _ _ Hhead) as [-> _].
  now apply (workaround_foreach_counts _ _ _ _ _ _ _ H).
Qed.

(** C4. After the walk over the list, what the body of the main loop does
    depends on [rerun]: when it is set the body ends at once, for the loop
    to start over, in the state the walk left, so without the kernel wait
    and without clearing the workaround flag; only when it is not set, and
    then the walk has changed nothing, is the flag cleared, and the kernel
    wait follows. *)
Theorem loop_body_after_workaround_walk
    (fuel : nat) (ca : addr) (cx : ml_ctx_t) (flags timeout : Z)
    (s s1 : state) (rerun : Z) :
  ctxs s !! ca = Some cx ->
  ctx_workaround cx <> 0 ->
  workaround_walk fuel (Some ca) s = Done rerun s1 ->
  (rerun <> 0 -> loop_body fuel (Some ca) flags timeout s = Done Continue s1) /\
  (rerun = 0 ->
     s1 = s /\
     exists s2,
       cset (Some ca) (set_workaround 0) s = Done tt s2 /\
       ctxs s2 !! ca = Some (set_workaround 0 cx) /\
       loop_body fuel (Some ca) flags timeout s =
         wait_and_dispatch fuel (Some ca) flags timeout s2).
Proof.
  intros Hc Hwk Hwalk.
  assert (Hbody : loop_body fuel (Some ca) flags timeout s =
                  (if negb (rerun =? 0) then ret Continue
                   else cset (Some ca) (set_workaround 0) ;;
                        wait_and_dispatch fuel (Some ca) flags timeout) s1).
  { unfold loop_body.
    rewrite (bind_done _ _ _ _ _ (cget_ok ctx_workaround _ _ _ Hc)).
    destruct (Z.eqb_spec (ctx_workaround cx) 0) as [|_]; [contradiction|].
    cbn [negb]. now rewrite (bind_done _ _ _ _ _ Hwalk). }
  split.
  - intros Hre. rewrite Hbody.
    now destruct (Z.eqb_spec rerun 0) as [|_]; [contradiction|].
  - intros ->. pose proof (workaround_walk_zero _ _ _ _ Hwalk) as ->.
    split; [reflexivity|].
    eexists. split; [unfold cset; rewrite Hc; reflexivity|].
    split; [cbn [ctxs]; apply lookup_insert_eq|].
    rewrite Hbody. cbn [Z.eqb negb]. unfold bind at 1, cset at 1. now rewrite Hc.
Qed.

End Claims.

(** ** The claims on concrete runs *)

Section Runs.

Import Scenario.

#[local] Existing Instance scripted.
#[local] Existing Instance env.

(** The two set-ups reach the states written out above. *)
Lemma stdin_file_setup_reaches (cb : positive) (rest : list reply) :
  stdin_file_setup cb (boot (stdin_file_script rest)) = Done 0 (st_pseudo 0 cb rest []).
Proof. reflexivity. Qed.

Lemma two_ready_setup_reaches :
  two_ready_setup (boot two_ready_script) =
  Done 0 (st_active 0 [Build_reply 2 0 [(w1, EPOLLIN); (w2, EPOLLIN)] 0] []).
Proof. reflexivity. Qed.

(** *** C10 *)

Lemma _ml_watcher_start_active_idempotent_witness :
  _ml_watcher_start w1 (st_active 0 [] []) = Done 0 (st_active 0 [] []).
Proof.
  apply (_ml_watcher_start_active_idempotent 1%positive active_w1).
  - reflexivity.
  - reflexivity.
  - discriminate.
  - discriminate.
Defined.

(** *** C7 and C9 *)

Lemma ml_io_set_oneshot_active_only_modifies_witness :
  exists r s',
    ml_io_set w1 9 one_shot_read (st_active 0 [] []) = Done r s' /\
    trace s' = trace (st_active 0 [] []) ++
      [Sys (SysEpollCtl 3 EPOLL_CTL_MOD 5 (Some (8193, w1)))] /\
    watchers s' = watchers (st_active 0 [] []) /\
    ctxs s' = ctxs (st_active 0 [] []) /\
    watcher_list s' (Build_ctx 0 4 3 8 w2 0) =
    watcher_list (st_active 0 [] []) (Build_ctx 0 4 3 8 w2 0).
Proof.
  apply (ml_io_set_oneshot_active_only_modifies 1%positive active_w1 1%positive
           (Build_ctx 0 4 3 8 w2 0) (st_active 0 [] []) 9 one_shot_read).
  - reflexivity.
  - reflexivity.
  - discriminate.
  - reflexivity.
  - reflexivity.
  - discriminate.
Defined.

Lemma ml_io_set_rearm_uses_stored_fd_and_events_witness :
  ml_io_set w1 9 one_shot_read (st_active 0 [] []) =
  _ml_watcher_rearm w1 (st_active 0 [] []) /\
  exists r s',
    ml_io_set w1 9 one_shot_read (st_active 0 [] []) = Done r s' /\
    syscalls (drop (length (trace (st_active 0 [] []))) (trace s')) =
      [SysEpollCtl 3 EPOLL_CTL_MOD 5 (Some (8193, w1))] /\
    watchers s' !! 1%positive = Some active_w1.
Proof.
  apply (ml_io_set_rearm_uses_stored_fd_and_events 1%positive active_w1 1%positive
           (Build_ctx 0 4 3 8 w2 0) (st_active 0 [] []) 9 one_shot_read).
  - reflexivity.
  - reflexivity.
  - discriminate.
  - reflexivity.
  - reflexivity.
  - discriminate.
Defined.

(** *** C8: the demultiplexer descriptor 3 is never closed *)

Lemma ml_init_failure_closes_nothing_witness :
  exists s',
    ml_init ctx 8 (boot inotify_refused_script) = Done (-1) s' /\
    trace s' = [Sys (SysEpollCreate1 EPOLL_CLOEXEC);
                Sys (SysInotifyInit1 (Z.lor IN_NONBLOCK IN_CLOEXEC))] /\
    existsb is_close (syscalls (drop 0 (trace s'))) = false.
Proof.
  apply (ml_init_failure_closes_nothing 1%positive blank_ctx 8 (boot inotify_refused_script)
           (ok 3) (fails EMFILE) [fails EMFILE] []).
  - reflexivity.
  - discriminate.
  - reflexivity.
  - reflexivity.
  - right. reflexivity.
Defined.

(** *** C3: the stop of a pseudo-active watcher, and the empty probe *)

Lemma stop_ignores_pseudo_active_witness :
  ml_io_stop w1 (st_pseudo 0 cb_idle [] []) = Done 0 (st_pseudo 0 cb_idle [] []) /\
  ml_signal_stop w1 (st_pseudo 0 cb_idle [] []) = Done 0 (st_pseudo 0 cb_idle [] []).
Proof.
  apply (stop_ignores_pseudo_active 1%positive pseudo_w1).
  - reflexivity.
  - reflexivity.
Defined.

(** The other way out of the pseudo-active state does work: a probe that
    finds nothing to read makes the watcher inactive and unlinks it. *)
Example empty_probe_deactivates_and_unlinks :
  exists s',
    workaround_walk 8 ctx (st_pseudo 1 cb_idle [ok 0] []) = Done 1 s' /\
    ml_active <$> watchers s' !! 1%positive = Some 0 /\
    ctx_watchers <$> ctxs s' !! 1%positive = Some None /\
    calls (trace s') = [(cb_idle, w1, 0, MINILOOP_READ)].
Proof. eexists. repeat split. Qed.

(** *** C6 *)

(** With watchers that the kernel accepts, starting, stopping and exiting
    keep the registry coherent. *)
Example registry_coherent_when_registered :
  registry_coherent (st_active 0 [] []) = true /\
  (exists s', ml_io_stop w1 (st_active 0 [] []) = Done 0 s' /\
              registry_coherent s' = true) /\
  (exists s', ml_exit 8 ctx (st_active 0 [] []) = Done 0 s' /\
              registry_coherent s' = true).
Proof.
  split; [reflexivity|]. split; eexists; (split; [vm_compute; reflexivity|reflexivity]).
Qed.

(** C6. A run that breaks registry coherence: with standard input
    redirected from a file the started watcher is pseudo-active and on the
    list, which is coherent; after [ml_exit] the list is empty and the
    watcher still has [active] = -1. *)
Theorem ml_exit_breaks_registry_coherence :
  stdin_file_setup cb_idle (boot (stdin_file_script [])) =
    Done 0 (st_pseudo 0 cb_idle [] []) /\
  registry_coherent (st_pseudo 0 cb_idle [] []) = true /\
  exists s',
    ml_exit 8 ctx (st_pseudo 0 cb_idle [] []) = Done 0 s' /\
    ml_active <$> watchers s' !! 1%positive = Some (-1) /\
    ctx_watchers <$> ctxs s' !! 1%positive = Some None /\
    registry_coherent s' = false.
Proof.
  split; [reflexivity|]. split; [reflexivity|].
  eexists. repeat split.
Qed.

(** *** C5 *)

(** A ready record with READ and HUP for watcher 1, run: the kernel
    registration is deleted, then the callback is entered with READ and HUP,
    and finds the watcher inactive and off the list. *)
Example dispatch_hup_run :
  exists s',
    dispatch_record (w1, Z.lor EPOLLIN EPOLLHUP) (st_active 1 [] []) = Done tt s' /\
    drop 4 (trace s') = [Sys (SysEpollCtl 3 EPOLL_CTL_DEL 5 None);
                         Call cb_quit w1 0 (Z.lor EPOLLIN EPOLLHUP)] /\
    ml_active <$> watchers s' !! 1%positive = Some 0 /\
    watcher_list s' (Build_ctx 0 4 3 8 w2 0) = [2%positive].
Proof. eexists. repeat split. Qed.

(** *** C1 *)

Lemma running_cleared_ends_batch_witness :
  dispatch_loop ctx ([] ++ (w1, EPOLLIN) :: [(w2, EPOLLIN)]) (st_active 1 [] waited) =
    Done tt (st_active 0 [] quit_called) /\
  (c <- dispatch_cycle ctx 0 ([] ++ (w1, EPOLLIN) :: [(w2, EPOLLIN)]) ;;
   resume c (main_loop 1 ctx 0 (-1))) (st_active 1 [] waited) =
    Done 0 (st_active 0 [] quit_called).
Proof.
  apply (running_cleared_ends_batch 0 1%positive 0 (-1) [] [(w2, EPOLLIN)] (w1, EPOLLIN)
           (st_active 1 [] waited) (st_active 1 [] waited) (st_active 0 [] quit_called)
           (Build_ctx 1 4 3 8 w2 0) (Build_ctx 0 4 3 8 w2 0)).
  - reflexivity.
  - reflexivity.
  - discriminate.
  - reflexivity.
  - reflexivity.
  - reflexivity.
Defined.

(** Both watchers are ready in the one batch of [epoll_wait]; the callback
    of the first clears [running]; [ml_run] returns 0 and the callback of
    the second, which is still active, was never entered: the batch was not
    completed. *)
Lemma ready_record_skipped_after_running_cleared :
  two_ready_run (boot two_ready_script) = Done 0 (st_active 0 [] quit_called) /\
  calls (trace (st_active 0 [] quit_called)) = [(cb_quit, w1, 0, EPOLLIN)] /\
  r_ready batch = [(w1, EPOLLIN); (w2, EPOLLIN)] /\
  (fun w => (ml_active w, ml_cb w)) <$> watchers (st_active 0 [] quit_called) !! 2%positive =
    Some (1, Some cb_idle).
Proof. repeat split. Qed.

(** *** C4 *)

Lemma loop_body_after_workaround_walk_witness :
  loop_body 8 ctx 0 (-1) (st_pseudo 1 cb_idle probe_has_data []) =
  Done Continue (st_pseudo 1 cb_idle [] probed).
Proof.
  refine (proj1 (loop_body_after_workaround_walk 8 1%positive (Build_ctx 1 4 3 8 w1 1) 0 (-1)
                   (st_pseudo 1 cb_idle probe_has_data []) (st_pseudo 1 cb_idle [] probed) 1
                   _ _ _) _).
  - reflexivity.
  - discriminate.
  - reflexivity.
  - discriminate.
Defined.

(** The walk has run, [rerun] is set and the body asks for the loop to
    start over, and the workaround flag is still 1; so is it when [ml_run]
    as a whole returns. *)
Lemma workaround_flag_not_cleared_on_rerun :
  (loop_body 8 ctx 0 (-1) (st_pseudo 1 cb_idle probe_has_data []) =
     Done Continue (st_pseudo 1 cb_idle [] probed) /\
   ctx_workaround <$> ctxs (st_pseudo 1 cb_idle [] probed) !! 1%positive = Some 1 /\
   existsb is_epoll_wait (syscalls (trace (st_pseudo 1 cb_idle [] probed))) = false) /\
  exists s',
    (stdin_file_setup cb_quit ;; ml_run 8 ctx 0) (boot (stdin_file_script probe_has_data)) =
      Done 0 s' /\
    calls (trace s') = [(cb_quit, w1, 0, MINILOOP_READ)] /\
    ctx_workaround <$> ctxs s' !! 1%positive = Some 1.
Proof.
  split; [repeat split|].
  eexists. split; [vm_compute; reflexivity|]. split; reflexivity.
Qed.

End Runs.

(** * The registry, the adapters and the loop *)

(** ** Well-linked lists *)

Section Lists.

Implicit Types (h : gmap positive ml_t) (l : list addr) (a b : addr).

Lemma without_notin a l : a ∉ l -> without a l = l.
Proof.
  induction l as [|b l IH]; [reflexivity|].
  rewrite not_elem_of_cons. intros [Hne Hnin]. cbn.
  destruct (Pos.eqb_spec a b); [contradiction|]. now rewrite IH.
Qed.

Lemma elem_of_without a b l : b ∈ without a l <-> b ∈ l /\ b <> a.
Proof.
  induction l as [|c l IH]; cbn.
  - rewrite elem_of_nil. tauto.
  - destruct (Pos.eqb_spec a c) as [->|Hne].
    + rewrite IH, elem_of_cons. split; [tauto|]. intros [[->|H] Hb]; [contradiction|tauto].
    + rewrite !elem_of_cons, IH. split; [|tauto].
      intros [->|[H1 H2]]; [split; [tauto|congruence]|tauto].
Qed.

Lemma NoDup_without a l : NoDup l -> NoDup (without a l).
Proof.
  induction 1 as [|b l Hnin Hnd IH]; cbn; [constructor|].
  destruct (Pos.eqb a b); [exact IH|].
  constructor; [|exact IH]. rewrite elem_of_without. tauto.
Qed.

Lemma dlist_frame h h' prev p l :
  (forall x, x ∈ l -> h' !! x = h !! x) -> dlist h prev p l -> dlist h' prev p l.
Proof.
  revert prev p. induction l as [|a l IH]; intros prev p Hagree; [exact id|].
  intros (-> & w & Hw & Hprev & Hrest). split; [reflexivity|].
  exists w. rewrite Hagree by apply list_elem_of_here. repeat split; auto.
  apply IH; [|exact Hrest]. intros x Hx. apply Hagree. now apply list_elem_of_further.
Qed.

Lemma dlist_alter_outside h f b prev p l :
  b ∉ l -> dlist h prev p l -> dlist (alter f b h) prev p l.
Proof.
  intros Hb. apply dlist_frame. intros x Hx.
  apply lookup_alter_ne. intros ->. contradiction.
Qed.

Lemma dlist_set_prev h prev q p l :
  dlist h prev p l -> NoDup l ->
  dlist (match p with Some b => alter (set_prev q) b h | None => h end) q p l.
Proof.
  destruct l as [|b l]; [now intros -> _|].
  intros (-> & w & Hw & _ & Hrest) [Hnin _]%NoDup_cons.
  split; [reflexivity|]. exists (set_prev q w).
  rewrite lookup_alter_eq, Hw. repeat split.
  now apply dlist_alter_outside.
Qed.

Lemma dlist_link_head h a wa head l :
  h !! a = Some wa -> dlist h None head l -> NoDup l -> a ∉ l ->
  dlist (link_head a head h) None (Some a) (a :: l).
Proof.
  intros Ha Hl Hnd Hnin. unfold link_head.
  set (h1 := match head with Some b => alter (set_prev (Some a)) b h | None => h end).
  assert (H1 : dlist h1 (Some a) head l) by now apply (dlist_set_prev h None).
  assert (Ha1 : h1 !! a = Some wa).
  { unfold h1. destruct head as [b|]; [|exact Ha].
    rewrite lookup_alter_ne; [exact Ha|].
    intros ->. destruct l; cbn in Hl; [discriminate|].
    destruct Hl as ([= ->] & _). apply Hnin, list_elem_of_here. }
  split; [reflexivity|]. eexists. rewrite lookup_alter_eq, Ha1. repeat split.
  cbn. now apply dlist_alter_outside.
Qed.

(** Where a member of the list stands. *)
Lemma dlist_member h prev p l a wa :
  dlist h prev p l -> NoDup l -> a ∈ l -> h !! a = Some wa ->
  ((p = Some a /\ ml_prev wa = prev) \/
   (p <> Some a /\ exists x, ml_prev wa = Some x /\ x ∈ l /\ x <> a)) /\
  (forall n, ml_next wa = Some n -> n ∈ l /\ n <> a).
Proof.
  revert prev p. induction l as [|b l IH]; intros prev p Hl Hnd Hin Ha.
  { now apply elem_of_nil in Hin. }
  destruct Hl as (-> & w & Hw & Hprev & Hrest).
  apply NoDup_cons in Hnd as [Hnin Hnd].
  assert (Hnext : forall n, ml_next w = Some n -> n ∈ l).
  { intros n Hn. destruct l; cbn in Hrest; [congruence|].
    destruct Hrest as (Heq & _). rewrite Hn in Heq. injection Heq as ->.
    apply list_elem_of_here. }
  apply elem_of_cons in Hin as [->|Hin].
  - assert (w = wa) as -> by congruence. split; [left; auto|].
    intros n Hn. specialize (Hnext n Hn). split; [now apply list_elem_of_further|].
    intros ->. contradiction.
  - destruct (IH _ _ Hrest Hnd Hin Ha) as [Hpos Hnx].
    assert (Hab : a <> b) by (intros ->; contradiction).
    split.
    + right. split; [congruence|].
      destruct Hpos as [[_ Hp]|(_ & x & Hx & Hxl & Hxa)].
      * exists b. rewrite Hp. repeat split; [apply list_elem_of_here|congruence].
      * exists x. repeat split; auto. now apply list_elem_of_further.
    + intros n Hn. destruct (Hnx n Hn). split; [now apply list_elem_of_further|auto].
Qed.

Lemma dlist_unlink h a wa :
  h !! a = Some wa ->
  forall l prev p,
  dlist h prev p l -> NoDup l -> a ∈ l -> (forall x, prev = Some x -> x ∉ l) ->
  dlist (unlink a h) prev (if ptr_eqb p (Some a) then ml_next wa else p) (without a l).
Proof.
  intros Ha. induction l as [|b l IH]; intros prev p Hl Hnd Hin Hprev.
  { now apply elem_of_nil in Hin. }
  pose proof Hl as (-> & w & Hw & Hwprev & Hrest).
  pose proof Hnd as [Hnin Hnd']%NoDup_cons.
  cbn [without ptr_eqb]. rewrite (Pos.eqb_sym b a).
  destruct (Pos.eqb_spec a b) as [<-|Hne].
  - (* the node is the first of this stretch *)
    assert (w = wa) as -> by congruence.
    rewrite without_notin by exact Hnin.
    unfold unlink. rewrite Ha. cbn zeta.
    apply dlist_alter_outside; [exact Hnin|].
    rewrite Hwprev.
    apply (dlist_set_prev _ (Some a)); [|exact Hnd'].
    destruct prev as [x|]; [|exact Hrest].
    apply dlist_alter_outside; [|exact Hrest].
    intros Hx. apply (Hprev x eq_refl). now apply list_elem_of_further.
  - apply elem_of_cons in Hin as [?|Hin]; [contradiction|].
    assert (Hb : forall x, Some b = Some x -> x ∉ l) by (now intros x [= <-]).
    specialize (IH _ _ Hrest Hnd' Hin Hb).
    destruct (dlist_member _ _ _ _ _ _ Hrest Hnd' Hin Ha) as [Hpos Hnx].
    split; [reflexivity|].
    assert (Hnb : ml_next wa <> Some b).
    { intros Hn. destruct (Hnx _ Hn) as [Hbl _]. contradiction. }
    destruct Hpos as [[Hp Hpa]|(Hp & x & Hx & Hxl & Hxa)].
    + (* the node follows [b] *)
      rewrite Hp in IH. cbn [ptr_eqb] in IH. rewrite Pos.eqb_refl in IH.
      exists (set_next (ml_next wa) w). repeat split; [|exact Hwprev|exact IH].
      unfold unlink. rewrite Ha. cbn zeta. rewrite Hpa.
      rewrite lookup_alter_ne by congruence.
      destruct (ml_next wa) as [n|].
      * rewrite lookup_alter_ne by congruence. now rewrite lookup_alter_eq, Hw.
      * now rewrite lookup_alter_eq, Hw.
    + assert (Hpe : ptr_eqb (ml_next w) (Some a) = false).
      { destruct (ml_next w) as [n|]; [|reflexivity]. cbn.
        apply Pos.eqb_neq. congruence. }
      rewrite Hpe in IH.
      exists w. repeat split; [|exact Hwprev|exact IH].
      unfold unlink. rewrite Ha. cbn zeta. rewrite Hx.
      rewrite lookup_alter_ne by congruence.
      assert (x <> b) by (intros ->; contradiction).
      destruct (ml_next wa) as [n|].
      * rewrite lookup_alter_ne by congruence. now rewrite lookup_alter_ne by congruence.
      * now rewrite lookup_alter_ne by congruence.
Qed.

End Lists.

(** ** Running a computation forwards *)

Section Forward.

Context {KN : Kernel}.

Lemma dlist_head h prev p l : dlist h prev p l -> p = head_of l.
Proof. destruct l; [exact id|]. now intros [-> _]. Qed.

Lemma dlist_alter_links h f a prev p l :
  (forall w, ml_next (f w) = ml_next w /\ ml_prev (f w) = ml_prev w) ->
  dlist h prev p l -> dlist (alter f a h) prev p l.
Proof.
  intros Hf. revert prev p. induction l as [|b l IH]; intros prev p; [exact id|].
  intros (-> & w & Hw & Hprev & Hrest). split; [reflexivity|].
  destruct (decide (a = b)) as [->|Hne].
  - exists (f w). rewrite lookup_alter_eq, Hw. destruct (Hf w) as [-> ->].
    repeat split; auto.
  - exists w. rewrite lookup_alter_ne by exact Hne. repeat split; auto.
Qed.

Lemma dlist_valid h prev p l x : dlist h prev p l -> x ∈ l -> is_Some (h !! x).
Proof.
  revert prev p. induction l as [|b l IH]; intros prev p Hl Hx.
  { now apply elem_of_nil in Hx. }
  destruct Hl as (-> & w & Hw & _ & Hrest).
  apply elem_of_cons in Hx as [->|Hx]; [now exists w|]. exact (IH _ _ Hrest Hx).
Qed.

Lemma insert_as_alter {A} (m : gmap positive A) (f : A -> A) i x :
  m !! i = Some x -> <[i := f x]> m = alter f i m.
Proof.
  intros Hx. apply map_eq. intros j. destruct (decide (i = j)) as [->|Hne].
  - now rewrite lookup_insert_eq, lookup_alter_eq, Hx.
  - now rewrite lookup_insert_ne, lookup_alter_ne.
Qed.

Lemma wset_alter a w f s :
  watchers s !! a = Some w ->
  wset (Some a) f s = Done tt (with_watchers (alter f a (watchers s)) s).
Proof.
  intros Hw. unfold wset. rewrite Hw. unfold with_watchers.
  now rewrite (insert_as_alter _ _ _ _ Hw).
Qed.

Lemma cset_alter c cx f s :
  ctxs s !! c = Some cx ->
  cset (Some c) f s = Done tt (with_ctxs (alter f c (ctxs s)) s).
Proof.
  intros Hc. unfold cset. rewrite Hc. unfold with_ctxs.
  now rewrite (insert_as_alter _ _ _ _ Hc).
Qed.

Lemma start_invalid_ok a w s :
  watchers s !! a = Some w ->
  start_invalid (Some a) s = Done ((ml_fd w <? 0) || is_null (ml_ctx w)) s.
Proof.
  intros Hw. unfold start_invalid. cbn [is_null].
  rewrite (bind_done _ _ _ _ _ (wget_ok ml_fd _ _ _ Hw)).
  destruct (ml_fd w <? 0); [reflexivity|].
  now rewrite (bind_done _ _ _ _ _ (wget_ok ml_ctx _ _ _ Hw)).
Qed.

Lemma sys_ok c r k' s :
  ksys (kern s) c = (r, k') -> sys c s = Done r (after_sys c r k' s).
Proof. intros H. unfold sys. now rewrite H. Qed.

End Forward.

(** One step of a computation whose first action is decided by the
    hypotheses. *)
Ltac lookup_tac :=
  cbn [watchers ctxs errno kern trace with_watchers with_ctxs after_sys];
  repeat first
    [ rewrite lookup_alter_eq
    | rewrite lookup_alter_ne by congruence
    | rewrite lookup_insert_eq
    | rewrite lookup_insert_ne by congruence ];
  first
    [ eassumption
    | match goal with
      | H : ?m !! ?a = Some _ |- context [?m !! ?a] => rewrite H
      end; reflexivity ].

Ltac mstep :=
  first
    [ erewrite bind_done; [|first
        [ apply wget_ok; lookup_tac
        | apply cget_ok; lookup_tac
        | apply _ml_watcher_active_ok; lookup_tac
        | eapply wset_alter; lookup_tac
        | eapply cset_alter; lookup_tac
        | apply sys_ok; cbn [watchers ctxs errno kern trace with_watchers with_ctxs after_sys];
          eassumption
        | reflexivity ]]
    | progress cbn [is_null negb orb andb ptr_eqb] ];
  cbv beta;
  cbn [watchers ctxs errno kern trace with_watchers with_ctxs after_sys].

(** ** The list macros, as updates of the watcher store *)

Section Macros.

Context {KN : Kernel}.

Lemma _MINILOOP_INSERT_ok (a c : addr) (wa : ml_t) (cx : ml_ctx_t) (s : state) :
  ctxs s !! c = Some cx ->
  watchers s !! a = Some wa ->
  (forall b, ctx_watchers cx = Some b -> b <> a /\ is_Some (watchers s !! b)) ->
  _MINILOOP_INSERT (Some a) (Some c) s =
  Done tt (with_watchers (link_head a (ctx_watchers cx) (watchers s))
             (with_ctxs (alter (set_watchers (Some a)) c (ctxs s)) s)).
Proof.
  intros Hc Ha Hhead. unfold _MINILOOP_INSERT, link_head.
  mstep. mstep.
  destruct (ctx_watchers cx) as [b|].
  - destruct (Hhead b eq_refl) as [Hne [wb Hb]].
    mstep. mstep.
    erewrite wset_alter by lookup_tac.
    unfold with_watchers, with_ctxs. cbn. rewrite alter_alter_eq. reflexivity.
  - mstep. mstep.
    erewrite wset_alter by lookup_tac.
    unfold with_watchers, with_ctxs. cbn. rewrite alter_alter_eq. reflexivity.
Qed.

Lemma wset_alter_valid (a : addr) (f : ml_t -> ml_t) (s : state) :
  is_Some (watchers s !! a) ->
  wset (Some a) f s = Done tt (with_watchers (alter f a (watchers s)) s).
Proof. intros [w Hw]. now apply wset_alter with w. Qed.

Lemma _MINILOOP_REMOVE_ok (a c : addr) (wa : ml_t) (cx : ml_ctx_t) (s : state) :
  ctxs s !! c = Some cx ->
  watchers s !! a = Some wa ->
  (forall p, ml_prev wa = Some p -> is_Some (watchers s !! p)) ->
  (forall n, ml_next wa = Some n -> is_Some (watchers s !! n)) ->
  _MINILOOP_REMOVE (Some a) (Some c) s =
  Done tt (with_watchers (unlink a (watchers s))
             (with_ctxs (if ptr_eqb (ctx_watchers cx) (Some a)
                         then alter (set_watchers (ml_next wa)) c (ctxs s)
                         else ctxs s) s)).
Proof.
  intros Hc Ha Hprev Hnext. unfold _MINILOOP_REMOVE, unlink. rewrite Ha. cbn zeta.
  mstep. mstep.
  set (h1 := match ml_prev wa with
             | Some p => alter (set_next (ml_next wa)) p (watchers s)
             | None => watchers s
             end).
  set (h2 := match ml_next wa with
             | Some n => alter (set_prev (ml_prev wa)) n h1
             | None => h1
             end).
  assert (Hv1 : forall x, is_Some (watchers s !! x) -> is_Some (h1 !! x)).
  { intros x Hx. unfold h1. destruct (ml_prev wa); [|exact Hx].
    now rewrite lookup_alter_is_Some. }
  assert (Hv2 : forall x, is_Some (watchers s !! x) -> is_Some (h2 !! x)).
  { intros x Hx. unfold h2. destruct (ml_next wa); [|auto].
    rewrite lookup_alter_is_Some. auto. }
  assert (E1 : (if is_null (ml_prev wa) then ret ()
                else wset (ml_prev wa) (set_next (ml_next wa))) s =
               Done tt (with_watchers h1 s)).
  { unfold h1. destruct (ml_prev wa) as [p|]; cbn [is_null].
    - apply wset_alter_valid. now apply Hprev.
    - now destruct s. }
  rewrite (bind_done _ _ _ _ _ E1).
  assert (E2 : (if is_null (ml_next wa) then ret ()
                else wset (ml_next wa) (set_prev (ml_prev wa))) (with_watchers h1 s) =
               Done tt (with_watchers h2 s)).
  { unfold h2. destruct (ml_next wa) as [n|] eqn:Hn; cbn [is_null].
    - rewrite wset_alter_valid by (cbn; apply Hv1, (Hnext n eq_refl)). reflexivity.
    - reflexivity. }
  rewrite (bind_done _ _ _ _ _ E2).
  rewrite (bind_done _ _ _ _ _
             (wset_alter_valid a (set_prev None) (with_watchers h2 s)
                (Hv2 a (ex_intro _ wa Ha)))).
  erewrite bind_done;
    [|apply wset_alter_valid; cbn; rewrite lookup_alter_is_Some;
      exact (Hv2 a (ex_intro _ wa Ha))].
  cbn [watchers ctxs with_watchers with_ctxs]. rewrite alter_alter_eq.
  erewrite bind_done by (apply cget_ok; exact Hc).
  destruct (ptr_eqb (ctx_watchers cx) (Some a)).
  - erewrite cset_alter by exact Hc. reflexivity.
  - reflexivity.
Qed.

End Macros.

(** ** Start and stop on a well-linked list *)

Section Registry.

Context {KN : Kernel}.

Lemma lookup_alter_payload (f : ml_t -> ml_t) (h : gmap positive ml_t) (i j : addr) :
  (forall w, payload (f w) = payload w) ->
  payload <$> alter f i h !! j = payload <$> h !! j.
Proof.
  intros Hf. rewrite lookup_alter. case_decide as Hij; [subst j|reflexivity].
  destruct (h !! i); cbn; [|reflexivity]. now rewrite Hf.
Qed.

Lemma unlink_payload (a : addr) (h : gmap positive ml_t) (b : addr) :
  payload <$> unlink a h !! b = payload <$> h !! b.
Proof.
  unfold unlink. destruct (h !! a) as [wa|]; [|reflexivity]. cbn zeta.
  rewrite lookup_alter_payload by reflexivity.
  destruct (ml_next wa);
    [rewrite lookup_alter_payload by reflexivity|];
    (destruct (ml_prev wa); [now rewrite lookup_alter_payload by reflexivity|reflexivity]).
Qed.

Lemma link_head_payload (a : addr) (head : ptr) (h : gmap positive ml_t) (b : addr) :
  payload <$> link_head a head h !! b = payload <$> h !! b.
Proof.
  unfold link_head. rewrite lookup_alter_payload by reflexivity.
  destruct head; [now rewrite lookup_alter_payload by reflexivity|reflexivity].
Qed.

Lemma unlink_self (a : addr) (wa : ml_t) (h : gmap positive ml_t) :
  h !! a = Some wa -> unlink a h !! a = Some (payload wa).
Proof.
  intros Ha. unfold unlink. rewrite Ha. cbn zeta. rewrite lookup_alter_eq.
  change (fun w : ml_t => set_next None (set_prev None w)) with payload.
  destruct (ml_next wa);
    [rewrite lookup_alter_payload by reflexivity|];
    (destruct (ml_prev wa); [rewrite lookup_alter_payload by reflexivity|]);
    now rewrite Ha.
Qed.

Lemma set_watchers_same (cx : ml_ctx_t) : set_watchers (ctx_watchers cx) cx = cx.
Proof. now destruct cx. Qed.

(** The state [_ml_watcher_stop] ends in, for an active watcher on the
    list. *)
Lemma _ml_watcher_stop_run
    (a c : addr) (wa : ml_t) (cx : ml_ctx_t) (l : list addr) (s : state)
    (r : reply) (k' : kstate) :
  ctxs s !! c = Some cx ->
  dlist (watchers s) None (ctx_watchers cx) l ->
  NoDup l ->
  a ∈ l ->
  watchers s !! a = Some wa ->
  0 < ml_active wa ->
  ml_ctx wa = Some c ->
  ksys (kern s) (SysEpollCtl (ctx_fd cx) EPOLL_CTL_DEL (ml_fd wa) None) = (r, k') ->
  _ml_watcher_stop (Some a) s =
  Done (if r_ret r <? 0 then -1 else 0)
    (after_sys (SysEpollCtl (ctx_fd cx) EPOLL_CTL_DEL (ml_fd wa) None) r k'
       (with_watchers (unlink a (alter (set_active 0) a (watchers s)))
          (with_ctxs (<[c := set_watchers (head_of (without a l)) cx]> (ctxs s)) s))) /\
  dlist (unlink a (alter (set_active 0) a (watchers s))) None
    (head_of (without a l)) (without a l).
Proof.
  intros Hc Hl Hnd Hin Ha Hact Hctx Hk.
  set (h0 := alter (set_active 0) a (watchers s)).
  assert (Ha0 : h0 !! a = Some (set_active 0 wa))
    by (unfold h0; now rewrite lookup_alter_eq, Ha).
  assert (Hl0 : dlist h0 None (ctx_watchers cx) l)
    by (apply dlist_alter_links; [now intros w|exact Hl]).
  destruct (dlist_member _ _ _ _ _ _ Hl0 Hnd Hin Ha0) as [Hpos Hnx].
  assert (Hlist : dlist (unlink a h0) None
                    (if ptr_eqb (ctx_watchers cx) (Some a) then ml_next wa
                     else ctx_watchers cx) (without a l)).
  { apply (dlist_unlink h0 a _ Ha0 l None _ Hl0 Hnd Hin). discriminate. }
  set (g' := if ptr_eqb (ctx_watchers cx) (Some a)
             then alter (set_watchers (ml_next wa)) c (ctxs s) else ctxs s).
  assert (Hg' : g' = <[c := set_watchers (head_of (without a l)) cx]> (ctxs s)).
  { rewrite <- (dlist_head _ _ _ _ Hlist). unfold g'.
    destruct (ptr_eqb (ctx_watchers cx) (Some a)).
    - symmetry. now apply insert_as_alter.
    - rewrite set_watchers_same. symmetry. now apply insert_id. }
  split.
  2:{ rewrite <- (dlist_head _ _ _ _ Hlist). exact Hlist. }
  rewrite <- Hg'.
  unfold _ml_watcher_stop. mstep. mstep.
  destruct (Z.ltb_spec 0 (ml_active wa)) as [_|]; [|lia]. cbn [Z_of_bool Z.eqb].
  mstep. mstep. cbn [set_active ml_ctx]. rewrite Hctx.
  erewrite bind_done.
  2:{ apply (_MINILOOP_REMOVE_ok a c (set_active 0 wa) cx); cbn [watchers ctxs]; auto.
      - intros p Hp. cbn in Hp.
        destruct Hpos as [[_ Hnone]|(_ & x & Hx & Hxl & _)]; cbn in *; [congruence|].
        assert (x = p) as -> by congruence. exact (dlist_valid _ _ _ _ _ Hl0 Hxl).
      - intros n Hn. destruct (Hnx n Hn) as [Hnl _].
        exact (dlist_valid _ _ _ _ _ Hl0 Hnl). }
  cbn [watchers ctxs with_watchers with_ctxs set_active ml_next]. fold h0. fold g'.
  assert (Hau : unlink a h0 !! a = Some (payload (set_active 0 wa)))
    by now apply unlink_self.
  assert (Hcg : g' !! c = Some (set_watchers (head_of (without a l)) cx))
    by (rewrite Hg'; apply lookup_insert_eq).
  erewrite bind_done by (apply wget_ok; exact Hau).
  cbn [payload set_active set_next set_prev ml_ctx]. rewrite Hctx.
  erewrite bind_done by (apply cget_ok; exact Hcg).
  erewrite bind_done by (apply wget_ok; exact Hau).
  erewrite bind_done by (apply sys_ok; exact Hk).
  now destruct (r_ret r <? 0).
Qed.

(** X1: [_ml_watcher_stop] on an active watcher [a] of the list [l]: the result
    is -1 when [epoll_ctl] DEL fails and 0 otherwise; either way the list
    becomes [l] without [a], still well linked, [a] is inactive with both
    links cleared, the other watchers change in their links only, and the one
    system call is the DEL. *)
Theorem _ml_watcher_stop_unlinks
    (a c : addr) (wa : ml_t) (cx : ml_ctx_t) (l : list addr) (s : state)
    (r : reply) (k' : kstate) :
  ctxs s !! c = Some cx ->
  dlist (watchers s) None (ctx_watchers cx) l ->
  NoDup l ->
  a ∈ l ->
  watchers s !! a = Some wa ->
  0 < ml_active wa ->
  ml_ctx wa = Some c ->
  ksys (kern s) (SysEpollCtl (ctx_fd cx) EPOLL_CTL_DEL (ml_fd wa) None) = (r, k') ->
  exists s',
    _ml_watcher_stop (Some a) s = Done (if r_ret r <? 0 then -1 else 0) s' /\
    registry s' c (without a l) /\
    watchers s' !! a = Some (payload (set_active 0 wa)) /\
    (forall b, b <> a -> payload <$> watchers s' !! b = payload <$> watchers s !! b) /\
    ctxs s' = <[c := set_watchers (head_of (without a l)) cx]> (ctxs s) /\
    trace s' = trace s ++ [Sys (SysEpollCtl (ctx_fd cx) EPOLL_CTL_DEL (ml_fd wa) None)].
Proof.
  intros Hc Hl Hnd Hin Ha Hact Hctx Hk.
  destruct (_ml_watcher_stop_run a c wa cx l s r k' Hc Hl Hnd Hin Ha Hact Hctx Hk)
    as [Hrun Hlist].
  eexists. split; [exact Hrun|].
  cbn [watchers ctxs trace after_sys with_watchers with_ctxs].
  split; [|split; [|split; [|split]]].
  - exists (set_watchers (head_of (without a l)) cx).
    cbn [watchers ctxs after_sys with_watchers with_ctxs]. unfold addr in *.
    rewrite lookup_insert_eq. split; [reflexivity|].
    split; [exact Hlist|now apply NoDup_without].
  - apply unlink_self. now rewrite lookup_alter_eq, Ha.
  - intros b Hb. rewrite unlink_payload.
    now rewrite lookup_alter_ne by congruence.
  - reflexivity.
  - reflexivity.
Qed.

Lemma insert_tail_ok (a c : addr) (wa : ml_t) (cx : ml_ctx_t) (l : list addr) (s : state) :
  ctxs s !! c = Some cx ->
  dlist (watchers s) None (ctx_watchers cx) l ->
  a ∉ l ->
  watchers s !! a = Some wa ->
  ml_ctx wa = Some c ->
  (c' <- wget (Some a) ml_ctx ;; _MINILOOP_INSERT (Some a) c' ;; ret 0) s =
  Done 0 (with_watchers (link_head a (head_of l) (watchers s))
            (with_ctxs (<[c := set_watchers (Some a) cx]> (ctxs s)) s)).
Proof.
  intros Hc Hl Hnin Ha Hctx.
  mstep. rewrite Hctx.
  erewrite bind_done.
  2:{ apply (_MINILOOP_INSERT_ok a c wa cx); auto.
      intros b Hb. rewrite Hb in Hl. destruct l as [|b' l]; [discriminate|].
      destruct Hl as ([= <-] & w & Hw & _). split; [|now exists w].
      intros ->. apply Hnin, list_elem_of_here. }
  rewrite (dlist_head _ _ _ _ Hl). unfold addr in *.
  rewrite <- (insert_as_alter (ctxs s) (set_watchers (Some a)) c cx Hc).
  reflexivity.
Qed.

(** The state [_ml_watcher_start] ends in, for an inactive watcher that
    the kernel accepts. *)
Lemma _ml_watcher_start_run
    (a c : addr) (wa : ml_t) (cx : ml_ctx_t) (l : list addr) (s : state)
    (r : reply) (k' : kstate) :
  ctxs s !! c = Some cx ->
  dlist (watchers s) None (ctx_watchers cx) l ->
  a ∉ l ->
  watchers s !! a = Some wa ->
  ml_active wa <= 0 ->
  0 <= ml_fd wa ->
  ml_ctx wa = Some c ->
  ksys (kern s) (SysEpollCtl (ctx_fd cx) EPOLL_CTL_ADD (ml_fd wa) (registration a wa)) = (r, k') ->
  0 <= r_ret r ->
  _ml_watcher_start (Some a) s =
  Done 0 (with_watchers (link_head a (head_of l) (alter (set_active 1) a (watchers s)))
            (with_ctxs (<[c := set_watchers (Some a) cx]> (ctxs s))
               (after_sys (SysEpollCtl (ctx_fd cx) EPOLL_CTL_ADD (ml_fd wa)
                             (registration a wa)) r k' s))).
Proof.
  intros Hc Hl Hnin Ha Hact Hfd Hctx Hk Hr.
  set (h0 := alter (set_active 1) a (watchers s)).
  assert (Ha0 : h0 !! a = Some (set_active 1 wa))
    by (unfold h0; now rewrite lookup_alter_eq, Ha).
  assert (Hl0 : dlist h0 None (ctx_watchers cx) l)
    by (apply dlist_alter_links; [now intros w|exact Hl]).
  unfold _ml_watcher_start.
  rewrite (bind_done _ _ _ _ _ (start_invalid_ok _ _ _ Ha)), Hctx.
  destruct (Z.ltb_spec (ml_fd wa) 0) as [|_]; [lia|]. cbn [is_null orb].
  mstep. destruct (Z.ltb_spec 0 (ml_active wa)) as [|_]; [lia|]. cbn [Z_of_bool Z.eqb negb].
  mstep. mstep. rewrite Hctx. mstep. mstep.
  erewrite bind_done by (apply sys_ok; exact Hk).
  destruct (Z.ltb_spec (r_ret r) 0) as [|_]; [lia|].
  unfold bind at 1. unfold bind at 1.
  erewrite wset_alter by exact Ha. unfold ret at 1.
  exact (insert_tail_ok a c (set_active 1 wa) cx l
           (with_watchers h0 (after_sys _ r k' s)) Hc Hl0 Hnin Ha0 Hctx).
Qed.

Lemma _ml_watcher_start_post
    (a c : addr) (wa : ml_t) (cx : ml_ctx_t) (l : list addr) (s : state)
    (r : reply) (k' : kstate) :
  ctxs s !! c = Some cx ->
  dlist (watchers s) None (ctx_watchers cx) l ->
  NoDup l ->
  a ∉ l ->
  watchers s !! a = Some wa ->
  ml_active wa <= 0 ->
  0 <= ml_fd wa ->
  ml_ctx wa = Some c ->
  ksys (kern s) (SysEpollCtl (ctx_fd cx) EPOLL_CTL_ADD (ml_fd wa) (registration a wa)) = (r, k') ->
  0 <= r_ret r ->
  exists s',
    _ml_watcher_start (Some a) s = Done 0 s' /\
    registry s' c (a :: l) /\
    watchers s' !! a = Some (set_prev None (set_next (head_of l) (set_active 1 wa))) /\
    (forall b, b <> a -> payload <$> watchers s' !! b = payload <$> watchers s !! b) /\
    ctxs s' = <[c := set_watchers (Some a) cx]> (ctxs s) /\
    trace s' = trace s ++
      [Sys (SysEpollCtl (ctx_fd cx) EPOLL_CTL_ADD (ml_fd wa) (registration a wa))] /\
    errno s' = errno s.
Proof.
  intros Hc Hl Hnd Hnin Ha Hact Hfd Hctx Hk Hr.
  set (h0 := alter (set_active 1) a (watchers s)).
  assert (Ha0 : h0 !! a = Some (set_active 1 wa))
    by (unfold h0; now rewrite lookup_alter_eq, Ha).
  assert (Hl0 : dlist h0 None (ctx_watchers cx) l)
    by (apply dlist_alter_links; [now intros w|exact Hl]).
  eexists. split; [exact (_ml_watcher_start_run a c wa cx l s r k' Hc Hl Hnin Ha Hact Hfd Hctx Hk Hr)|].
  cbn [watchers ctxs trace errno after_sys with_watchers with_ctxs]. fold h0.
  split; [|split; [|split; [|split; [|split]]]].
  - exists (set_watchers (Some a) cx).
    cbn [watchers ctxs with_watchers with_ctxs after_sys]. unfold addr in *.
    rewrite lookup_insert_eq. split; [reflexivity|].
    split; [|now apply NoDup_cons].
    cbn [ctx_watchers set_watchers].
    rewrite <- (dlist_head _ _ _ _ Hl0).
    now apply (dlist_link_head h0 a (set_active 1 wa)).
  - unfold link_head. rewrite lookup_alter_eq.
    destruct (head_of l) as [b|] eqn:Hh.
    + rewrite lookup_alter_ne, Ha0; [reflexivity|].
      intros ->. destruct l as [|b' l']; [discriminate|]. injection Hh as ->.
      apply Hnin, list_elem_of_here.
    + now rewrite Ha0.
  - intros b Hb. rewrite link_head_payload. unfold h0.
    now rewrite lookup_alter_ne by congruence.
  - reflexivity.
  - reflexivity.
  - now destruct (Z.ltb_spec (r_ret r) 0); [lia|].
Qed.

Lemma without_head (a : addr) (l : list addr) : a ∉ l -> without a (a :: l) = l.
Proof. intros H. cbn. rewrite Pos.eqb_refl. now apply without_notin. Qed.

(** Linking a fresh node at the head and unlinking it again gives the
    store back. *)
Lemma unlink_link_head (a : addr) (wa : ml_t) (l : list addr) (h : gmap positive ml_t)
    (head : ptr) :
  h !! a = Some wa ->
  ml_active wa = 0 -> ml_next wa = None -> ml_prev wa = None ->
  dlist h None head l -> a ∉ l ->
  unlink a (alter (set_active 0) a
              (link_head a (head_of l) (alter (set_active 1) a h))) = h.
Proof.
  intros Ha Hact Hnext Hprev Hl Hnin.
  set (h0 := alter (set_active 1) a h).
  set (h1 := link_head a (head_of l) h0).
  set (h2 := alter (set_active 0) a h1).
  assert (Hb : forall b, head_of l = Some b ->
                 b <> a /\ exists wb, h !! b = Some wb /\ ml_prev wb = None).
  { intros b Hh. destruct l as [|b' l']; [discriminate|]. injection Hh as ->.
    destruct Hl as (_ & wb & Hwb & Hp & _). split; [|now exists wb].
    intros ->. apply Hnin, list_elem_of_here. }
  assert (Ha1 : h1 !! a = Some (set_prev None (set_next (head_of l) (set_active 1 wa)))).
  { unfold h1, link_head. rewrite lookup_alter_eq.
    destruct (head_of l) as [b|] eqn:Hh.
    - destruct (Hb b eq_refl) as [Hne _].
      rewrite lookup_alter_ne by congruence. unfold h0. now rewrite lookup_alter_eq, Ha.
    - unfold h0. now rewrite lookup_alter_eq, Ha. }
  assert (Ha2 : h2 !! a = Some (set_active 0 (set_prev None (set_next (head_of l)
                                                  (set_active 1 wa)))))
    by (unfold h2; now rewrite lookup_alter_eq, Ha1).
  assert (Hwa : payload (set_active 0 wa) = wa)
    by (destruct wa; cbn in *; now subst).
  apply map_eq. intros j.
  destruct (decide (j = a)) as [->|Hja].
  { pose proof (unlink_self _ _ _ Ha2) as Hs. unfold addr in *.
    rewrite Hs, Ha. f_equal. exact Hwa. }
  unfold unlink. unfold addr in *. rewrite Ha2. cbn [set_active set_prev set_next ml_prev ml_next].
  rewrite lookup_alter_ne by congruence.
  destruct (head_of l) as [b|] eqn:Hh.
  - destruct (Hb b eq_refl) as (Hne & wb & Hwb & Hpb).
    unfold h2, h1, link_head, h0.
    destruct (decide (j = b)) as [->|Hjb].
    + rewrite lookup_alter_eq, !lookup_alter_ne by congruence.
      rewrite lookup_alter_eq, lookup_alter_ne by congruence.
      rewrite Hwb. cbn. f_equal. destruct wb; cbn in *; now subst.
    + now rewrite !lookup_alter_ne by congruence.
  - unfold h2, h1, link_head, h0. now rewrite !lookup_alter_ne by congruence.
Qed.

(** X2: [_ml_watcher_start] on an inactive watcher [a] that is not on the
    list [l], when [epoll_ctl] ADD succeeds: the result is 0, the list becomes
    [a :: l], still well linked, [a] is active, the other watchers change in
    their links only, [errno] is kept and the one system call is the ADD. *)
Theorem _ml_watcher_start_links
    (a c : addr) (wa : ml_t) (cx : ml_ctx_t) (l : list addr) (s : state)
    (r : reply) (k' : kstate) :
  ctxs s !! c = Some cx ->
  dlist (watchers s) None (ctx_watchers cx) l ->
  NoDup l ->
  a ∉ l ->
  watchers s !! a = Some wa ->
  ml_active wa <= 0 ->
  0 <= ml_fd wa ->
  ml_ctx wa = Some c ->
  ksys (kern s) (SysEpollCtl (ctx_fd cx) EPOLL_CTL_ADD (ml_fd wa) (registration a wa)) = (r, k') ->
  0 <= r_ret r ->
  exists s',
    _ml_watcher_start (Some a) s = Done 0 s' /\
    registry s' c (a :: l) /\
    watchers s' !! a = Some (set_prev None (set_next (head_of l) (set_active 1 wa))) /\
    (forall b, b <> a -> payload <$> watchers s' !! b = payload <$> watchers s !! b) /\
    ctxs s' = <[c := set_watchers (Some a) cx]> (ctxs s) /\
    trace s' = trace s ++
      [Sys (SysEpollCtl (ctx_fd cx) EPOLL_CTL_ADD (ml_fd wa) (registration a wa))] /\
    errno s' = errno s.
Proof. apply _ml_watcher_start_post. Qed.

(** X3: start, then stop, of an unlinked inactive watcher: the watcher store
    and the context store are what they were, and the trace has gained the
    ADD and the DEL. *)
Theorem start_stop_round_trip
    (a c : addr) (wa : ml_t) (cx : ml_ctx_t) (l : list addr) (s : state)
    (r1 r2 : reply) (k1 k2 : kstate) :
  ctxs s !! c = Some cx ->
  dlist (watchers s) None (ctx_watchers cx) l ->
  NoDup l ->
  a ∉ l ->
  watchers s !! a = Some wa ->
  ml_active wa = 0 -> ml_next wa = None -> ml_prev wa = None ->
  0 <= ml_fd wa ->
  ml_ctx wa = Some c ->
  ksys (kern s) (SysEpollCtl (ctx_fd cx) EPOLL_CTL_ADD (ml_fd wa) (registration a wa)) = (r1, k1) ->
  0 <= r_ret r1 ->
  ksys k1 (SysEpollCtl (ctx_fd cx) EPOLL_CTL_DEL (ml_fd wa) None) = (r2, k2) ->
  exists s1 s2,
    _ml_watcher_start (Some a) s = Done 0 s1 /\
    _ml_watcher_stop (Some a) s1 = Done (if r_ret r2 <? 0 then -1 else 0) s2 /\
    watchers s2 = watchers s /\
    ctxs s2 = ctxs s /\
    trace s2 = trace s ++
      [Sys (SysEpollCtl (ctx_fd cx) EPOLL_CTL_ADD (ml_fd wa) (registration a wa));
       Sys (SysEpollCtl (ctx_fd cx) EPOLL_CTL_DEL (ml_fd wa) None)].
Proof.
  intros Hc Hl Hnd Hnin Ha Hact Hnext Hprev Hfd Hctx Hk1 Hr1 Hk2.
  assert (Hle : ml_active wa <= 0) by lia.
  pose proof (_ml_watcher_start_run a c wa cx l s r1 k1 Hc Hl Hnin Ha Hle Hfd Hctx Hk1 Hr1)
    as Hstart.
  destruct (_ml_watcher_start_post a c wa cx l s r1 k1 Hc Hl Hnd Hnin Ha Hle Hfd Hctx Hk1 Hr1)
    as (s1 & Hs1 & (cx1 & Hc1 & Hl1 & Hnd1) & Ha1 & _ & Hg1 & Ht1 & _).
  rewrite Hstart in Hs1. injection Hs1 as Hs1.
  assert (Hcx1 : cx1 = set_watchers (Some a) cx).
  { rewrite Hg1 in Hc1. unfold addr in *. rewrite lookup_insert_eq in Hc1. congruence. }
  subst cx1. cbn [ctx_watchers set_watchers] in Hl1.
  assert (Hk2' : ksys (kern s1)
                   (SysEpollCtl (ctx_fd (set_watchers (Some a) cx)) EPOLL_CTL_DEL
                      (ml_fd (set_prev None (set_next (head_of l) (set_active 1 wa)))) None) =
                 (r2, k2)) by (subst s1; exact Hk2).
  assert (Hin : a ∈ a :: l) by apply list_elem_of_here.
  destruct (_ml_watcher_stop_run a c _ _ (a :: l) s1 r2 k2
              Hc1 Hl1 Hnd1 Hin Ha1 ltac:(cbn; lia) Hctx Hk2') as [Hstop _].
  exists s1. eexists. split; [now rewrite Hstart, Hs1|]. split; [exact Hstop|].
  cbn [watchers ctxs trace after_sys with_watchers with_ctxs].
  split; [|split].
  - subst s1. cbn [watchers with_watchers].
    now apply (unlink_link_head a wa l _ (ctx_watchers cx)).
  - rewrite Hg1, (without_head _ _ Hnin), <- (dlist_head _ _ _ _ Hl).
    unfold addr in *. rewrite insert_insert_eq.
    apply insert_id. rewrite Hc. f_equal. now destruct cx.
  - rewrite Ht1, <- app_assoc. reflexivity.
Qed.

Lemma _ml_watcher_start_refused_run
    (a c : addr) (wa : ml_t) (cx : ml_ctx_t) (s : state) (r : reply) (k' : kstate) :
  ctxs s !! c = Some cx ->
  watchers s !! a = Some wa ->
  ml_active wa <= 0 ->
  0 <= ml_fd wa ->
  ml_ctx wa = Some c ->
  ksys (kern s) (SysEpollCtl (ctx_fd cx) EPOLL_CTL_ADD (ml_fd wa) (registration a wa)) = (r, k') ->
  r_ret r < 0 ->
  r_errno r <> EPERM \/ ml_type wa <> MINILOOP_IO_TYPE \/
    ml_events wa <> MINILOOP_READ \/ ml_fd wa <> STDIN_FILENO ->
  _ml_watcher_start (Some a) s =
  Done (-1) (after_sys (SysEpollCtl (ctx_fd cx) EPOLL_CTL_ADD (ml_fd wa) (registration a wa))
               r k' s).
Proof.
  intros Hc Ha Hact Hfd Hctx Hk Hr Hwhy.
  unfold _ml_watcher_start.
  rewrite (bind_done _ _ _ _ _ (start_invalid_ok _ _ _ Ha)), Hctx.
  destruct (Z.ltb_spec (ml_fd wa) 0) as [|_]; [lia|]. cbn [is_null orb].
  mstep. destruct (Z.ltb_spec 0 (ml_active wa)) as [|_]; [lia|]. cbn [Z_of_bool Z.eqb negb].
  mstep. mstep. rewrite Hctx. mstep. mstep.
  erewrite bind_done by (apply sys_ok; exact Hk).
  destruct (Z.ltb_spec (r_ret r) 0) as [_|]; [|lia].
  unfold bind at 1. unfold bind at 1. unfold get_errno at 1.
  cbn [errno after_sys].
  destruct (Z.ltb_spec (r_ret r) 0) as [_|]; [|lia].
  destruct (Z.eqb_spec (r_errno r) EPERM) as [He|]; [|reflexivity].
  cbn [negb]. unfold bind at 1.
  erewrite (wget_ok ml_type a wa) by exact Ha. unfold bind at 1.
  erewrite (wget_ok ml_events a wa) by exact Ha.
  destruct (ml_type wa) eqn:Hty; try reflexivity.
  destruct (Z.eqb_spec (ml_events wa) MINILOOP_READ) as [Hev|]; [|reflexivity].
  cbn [negb orb]. unfold bind at 1.
  erewrite (wget_ok ml_fd a wa) by exact Ha.
  destruct (Z.eqb_spec (ml_fd wa) STDIN_FILENO) as [Hfd0|]; [|reflexivity].
  exfalso. destruct Hwhy as [?|[?|[?|?]]]; congruence.
Qed.

(** X4: a registration that the kernel refuses, outside the one case of the
    stdin workaround, is reported with -1; neither store changes and [errno]
    is the kernel's. *)
Theorem _ml_watcher_start_refused
    (a c : addr) (wa : ml_t) (cx : ml_ctx_t) (s : state) (r : reply) (k' : kstate) :
  ctxs s !! c = Some cx ->
  watchers s !! a = Some wa ->
  ml_active wa <= 0 ->
  0 <= ml_fd wa ->
  ml_ctx wa = Some c ->
  ksys (kern s) (SysEpollCtl (ctx_fd cx) EPOLL_CTL_ADD (ml_fd wa) (registration a wa)) = (r, k') ->
  r_ret r < 0 ->
  r_errno r <> EPERM \/ ml_type wa <> MINILOOP_IO_TYPE \/
    ml_events wa <> MINILOOP_READ \/ ml_fd wa <> STDIN_FILENO ->
  exists s',
    _ml_watcher_start (Some a) s = Done (-1) s' /\
    watchers s' = watchers s /\
    ctxs s' = ctxs s /\
    errno s' = r_errno r /\
    trace s' = trace s ++
      [Sys (SysEpollCtl (ctx_fd cx) EPOLL_CTL_ADD (ml_fd wa) (registration a wa))].
Proof.
  intros Hc Ha Hact Hfd Hctx Hk Hr Hwhy.
  eexists. split.
  - exact (_ml_watcher_start_refused_run a c wa cx s r k' Hc Ha Hact Hfd Hctx Hk Hr Hwhy).
  - cbn [watchers ctxs errno trace after_sys].
    repeat split. now destruct (Z.ltb_spec (r_ret r) 0); [|lia].
Qed.

(** X5: the one registration failure that is not reported: EPERM for an I/O
    watcher of the standard input with exactly READ requested.  The result
    is 0, the watcher is pseudo-active (-1) at the head of the list, and the
    workaround flag of the context is set. *)
Theorem _ml_watcher_start_stdin_workaround
    (a c : addr) (wa : ml_t) (cx : ml_ctx_t) (l : list addr) (s : state)
    (r : reply) (k' : kstate) :
  ctxs s !! c = Some cx ->
  dlist (watchers s) None (ctx_watchers cx) l ->
  NoDup l ->
  a ∉ l ->
  watchers s !! a = Some wa ->
  ml_active wa <= 0 ->
  ml_ctx wa = Some c ->
  ml_type wa = MINILOOP_IO_TYPE ->
  ml_events wa = MINILOOP_READ ->
  ml_fd wa = STDIN_FILENO ->
  ksys (kern s) (SysEpollCtl (ctx_fd cx) EPOLL_CTL_ADD (ml_fd wa) (registration a wa)) = (r, k') ->
  r_ret r < 0 ->
  r_errno r = EPERM ->
  exists s',
    _ml_watcher_start (Some a) s = Done 0 s' /\
    registry s' c (a :: l) /\
    watchers s' !! a = Some (set_prev None (set_next (head_of l) (set_active (-1) wa))) /\
    (forall b, b <> a -> payload <$> watchers s' !! b = payload <$> watchers s !! b) /\
    ctxs s' = <[c := set_watchers (Some a) (set_workaround 1 cx)]> (ctxs s).
Proof.
  intros Hc Hl Hnd Hnin Ha Hact Hctx Hty Hev Hfd0 Hk Hr He.
  set (call := SysEpollCtl (ctx_fd cx) EPOLL_CTL_ADD (ml_fd wa) (registration a wa)).
  set (h0 := alter (set_active (-1)) a (watchers s)).
  set (g0 := alter (set_workaround 1) c (ctxs s)).
  assert (Ha0 : h0 !! a = Some (set_active (-1) wa))
    by (unfold h0; now rewrite lookup_alter_eq, Ha).
  assert (Hl0 : dlist h0 None (ctx_watchers cx) l)
    by (apply dlist_alter_links; [now intros w|exact Hl]).
  assert (Hc0 : g0 !! c = Some (set_workaround 1 cx))
    by (unfold g0; now rewrite lookup_alter_eq, Hc).
  assert (Hrun : _ml_watcher_start (Some a) s =
                 Done 0 (with_watchers (link_head a (head_of l) h0)
                           (with_ctxs (<[c := set_watchers (Some a) (set_workaround 1 cx)]> g0)
                              (after_sys call r k' s)))).
  { assert (Hfd : 0 <= ml_fd wa) by (rewrite Hfd0; unfold STDIN_FILENO; lia).
    unfold _ml_watcher_start.
    rewrite (bind_done _ _ _ _ _ (start_invalid_ok _ _ _ Ha)), Hctx.
    destruct (Z.ltb_spec (ml_fd wa) 0) as [|_]; [lia|]. cbn [is_null orb].
    mstep. destruct (Z.ltb_spec 0 (ml_active wa)) as [|_]; [lia|]. cbn [Z_of_bool Z.eqb negb].
    mstep. mstep. rewrite Hctx. mstep. mstep.
    erewrite bind_done by (apply sys_ok; exact Hk).
    destruct (Z.ltb_spec (r_ret r) 0) as [_|]; [|lia].
    unfold bind at 1. unfold bind at 1. unfold get_errno at 1.
    cbn [errno after_sys].
    destruct (Z.ltb_spec (r_ret r) 0) as [_|]; [|lia].
    destruct (Z.eqb_spec (r_errno r) EPERM) as [_|]; [|contradiction].
    cbn [negb].
    unfold bind at 1. erewrite (wget_ok ml_type a wa) by exact Ha.
    unfold bind at 1. erewrite (wget_ok ml_events a wa) by exact Ha.
    rewrite Hty.
    destruct (Z.eqb_spec (ml_events wa) MINILOOP_READ) as [_|]; [|contradiction].
    cbn [negb orb].
    unfold bind at 1. erewrite (wget_ok ml_fd a wa) by exact Ha.
    destruct (Z.eqb_spec (ml_fd wa) STDIN_FILENO) as [_|]; [|contradiction].
    cbn [negb].
    unfold bind at 1. erewrite (wget_ok ml_ctx a wa) by exact Ha. rewrite Hctx.
    unfold bind at 1. erewrite cset_alter by exact Hc.
    unfold bind at 1. erewrite wset_alter by exact Ha. unfold ret at 1.
    exact (insert_tail_ok a c (set_active (-1) wa) (set_workaround 1 cx) l
             (with_watchers h0 (with_ctxs g0 (after_sys call r k' s)))
             Hc0 Hl0 Hnin Ha0 Hctx). }
  eexists. split; [exact Hrun|].
  cbn [watchers ctxs with_watchers with_ctxs after_sys].
  split; [|split; [|split]].
  - exists (set_watchers (Some a) (set_workaround 1 cx)).
    cbn [watchers ctxs with_watchers with_ctxs after_sys]. unfold addr in *.
    rewrite lookup_insert_eq. split; [reflexivity|].
    split; [|now apply NoDup_cons].
    cbn [ctx_watchers set_watchers set_workaround].
    rewrite <- (dlist_head _ _ _ _ Hl0).
    now apply (dlist_link_head h0 a (set_active (-1) wa)).
  - unfold link_head. rewrite lookup_alter_eq.
    destruct (head_of l) as [b|] eqn:Hh.
    + rewrite lookup_alter_ne, Ha0; [reflexivity|].
      intros ->. destruct l as [|b' l']; [discriminate|]. injection Hh as ->.
      apply Hnin, list_elem_of_here.
    + now rewrite Ha0.
  - intros b Hb. rewrite link_head_payload. unfold h0.
    now rewrite lookup_alter_ne by congruence.
  - unfold g0, addr in *. rewrite <- (insert_as_alter _ (set_workaround 1) _ _ Hc).
    now rewrite insert_insert_eq.
Qed.

End Registry.

(** ** The main loop *)

Section Loop.

Context {KN : Kernel} {EX : Extern}.

Lemma foreach_skip {A} (body : ptr -> A -> M A) (s : state) (acc : A) (l : list addr) :
  (forall a, a ∈ l -> body (Some a) acc s = Done acc s) ->
  forall (fuel : nat) (prev head : ptr),
  dlist (watchers s) prev head l ->
  (length l <= fuel)%nat ->
  _MINILOOP_FOREACH fuel head acc body s = Done acc s.
Proof.
  intros Hbody fuel. revert l Hbody.
  induction fuel as [|fuel IH]; intros l Hbody prev head Hl Hlen.
  - destruct l; [|cbn in Hlen; lia]. cbn in Hl. now subst.
  - destruct l as [|a l]; [cbn in Hl; now subst|].
    destruct Hl as (-> & w & Hw & _ & Hrest). cbn [_MINILOOP_FOREACH].
    rewrite (bind_done _ _ _ _ _ (wget_ok ml_next _ _ _ Hw)).
    rewrite (bind_done _ _ _ _ _ (Hbody a (list_elem_of_here _ _))).
    apply (IH l) with (prev := Some a); [|exact Hrest|cbn in Hlen; lia].
    intros b Hb. apply Hbody. now apply list_elem_of_further.
Qed.

Lemma cset_insert c cx f s :
  ctxs s !! c = Some cx ->
  cset (Some c) f s = Done tt (with_ctxs (<[c := f cx]> (ctxs s)) s).
Proof. intros Hc. unfold cset. now rewrite Hc. Qed.

Lemma bind_bind_eq {A B C} (m : M A) (k : A -> M B) (k' : B -> M C) s :
  bind (bind m k) k' s = bind m (fun a => bind (k a) k') s.
Proof. unfold bind. now destruct (m s). Qed.

Lemma run_invalid_ok c cx s :
  ctxs s !! c = Some cx -> run_invalid (Some c) s = Done (ctx_fd cx <? 0) s.
Proof.
  intros Hc. unfold run_invalid. cbn [is_null].
  now rewrite (bind_done _ _ _ _ _ (cget_ok ctx_fd _ _ _ Hc)).
Qed.

Lemma loop_cond_ok c cx s :
  ctxs s !! c = Some cx ->
  loop_cond (Some c) s =
  Done (negb (ctx_running cx =? 0) && negb (is_null (ctx_watchers cx))) s.
Proof.
  intros Hc. unfold loop_cond.
  rewrite (bind_done _ _ _ _ _ (cget_ok ctx_running _ _ _ Hc)).
  destruct (ctx_running cx =? 0); [reflexivity|].
  now rewrite (bind_done _ _ _ _ _ (cget_ok ctx_watchers _ _ _ Hc)).
Qed.

(** X6: [ml_run] on a context without watchers returns 0 at once: no system
    call, and [running] is left at 1. *)
Theorem ml_run_no_watchers (fuel : nat) (c : addr) (cx : ml_ctx_t) (flags : Z) (s : state) :
  ctxs s !! c = Some cx ->
  0 <= ctx_fd cx ->
  ctx_watchers cx = None ->
  ml_run (S fuel) (Some c) flags s =
  Done 0 (with_ctxs (<[c := set_running 1 cx]> (ctxs s)) s).
Proof.
  intros Hc Hfd Hnone. unfold ml_run.
  rewrite (bind_done _ _ _ _ _ (run_invalid_ok _ _ _ Hc)).
  destruct (Z.ltb_spec (ctx_fd cx) 0) as [|_]; [lia|].
  rewrite (bind_done _ _ _ _ _ (cset_insert _ _ (set_running 1) _ Hc)).
  set (s1 := with_ctxs _ s).
  assert (Hc1 : ctxs s1 !! c = Some (set_running 1 cx))
    by (unfold s1; cbn; unfold addr; apply lookup_insert_eq).
  rewrite (bind_done _ _ _ _ _ (cget_ok ctx_watchers _ _ _ Hc1)).
  cbn [ctx_watchers set_running]. rewrite Hnone. cbn [_MINILOOP_FOREACH].
  unfold bind at 1, ret at 1. cbn [main_loop].
  rewrite (bind_done _ _ _ _ _ (loop_cond_ok _ _ _ Hc1)).
  cbn [ctx_watchers ctx_running set_running]. rewrite Hnone. reflexivity.
Qed.

Lemma workaround_step_skip (ctx : ptr) (a : addr) (w : ml_t) (rerun : Z) (s : state) :
  watchers s !! a = Some w ->
  ml_active w <> -1 \/ ml_cb w = None ->
  workaround_step ctx (Some a) rerun s = Done rerun s.
Proof.
  intros Hw Hskip. unfold workaround_step.
  rewrite (bind_done _ _ _ _ _ (wget_ok ml_active _ _ _ Hw)).
  rewrite (bind_done _ _ _ _ _ (wget_ok ml_cb _ _ _ Hw)).
  destruct Hskip as [Hact| ->].
  - now destruct (Z.eqb_spec (ml_active w) (-1)).
  - cbn [is_null]. now rewrite orb_true_r.
Qed.

(** The way of [ml_run] to its first kernel wait, over a list of plain
    watchers: it sets [running], clears the workaround flag, and makes no
    system call. *)
Lemma ml_run_reaches_wait
    (fuel : nat) (c : addr) (cx : ml_ctx_t) (l : list addr) (flags : Z) (s : state) :
  ctxs s !! c = Some cx ->
  0 <= ctx_fd cx ->
  dlist (watchers s) None (ctx_watchers cx) l ->
  l <> [] ->
  all_plain s l ->
  (length l <= fuel)%nat ->
  ml_run (S fuel) (Some c) flags s =
  (c0 <- wait_and_dispatch fuel (Some c) flags (run_timeout flags) ;;
   resume c0 (main_loop fuel (Some c) flags (run_timeout flags)))
    (with_ctxs (<[c := set_workaround 0 (set_running 1 cx)]> (ctxs s)) s).
Proof.
  intros Hc Hfd Hl Hne Hplain Hlen. unfold ml_run. fold (run_timeout flags).
  rewrite (bind_done _ _ _ _ _ (run_invalid_ok _ _ _ Hc)).
  destruct (Z.ltb_spec (ctx_fd cx) 0) as [|_]; [lia|].
  rewrite (bind_done _ _ _ _ _ (cset_insert _ _ (set_running 1) _ Hc)).
  set (s1 := with_ctxs (<[c := set_running 1 cx]> (ctxs s)) s).
  assert (Hc1 : ctxs s1 !! c = Some (set_running 1 cx))
    by (unfold s1; cbn; unfold addr; apply lookup_insert_eq).
  assert (Hl1 : dlist (watchers s1) None (ctx_watchers cx) l) by exact Hl.
  rewrite (bind_done _ _ _ _ _ (cget_ok ctx_watchers _ _ _ Hc1)).
  cbn [ctx_watchers set_running].
  erewrite bind_done.
  2:{ apply (foreach_skip _ s1 tt l) with (prev := None); [|exact Hl1|lia].
      intros a Ha. destruct (Hplain a Ha) as (w & Hw & Hty & _).
      erewrite bind_done by (apply wget_ok; exact Hw).
      now destruct (ml_type w). }
  cbn [main_loop].
  rewrite (bind_done _ _ _ _ _ (loop_cond_ok _ _ _ Hc1)).
  cbn [ctx_watchers ctx_running set_running Z.eqb negb andb].
  assert (Hhead : is_null (ctx_watchers cx) = false).
  { rewrite (dlist_head _ _ _ _ Hl). now destruct l. }
  rewrite Hhead. cbn [negb].
  unfold loop_body at 1. rewrite bind_bind_eq.
  rewrite (bind_done _ _ _ _ _ (cget_ok ctx_workaround _ _ _ Hc1)).
  assert (Hwalk : (if negb (ctx_workaround (set_running 1 cx) =? 0)
                   then workaround_walk fuel (Some c) else ret 0) s1 = Done 0 s1).
  { destruct (negb _); [|reflexivity]. unfold workaround_walk.
    rewrite (bind_done _ _ _ _ _ (cget_ok ctx_watchers _ _ _ Hc1)).
    apply (foreach_skip _ s1 0 l) with (prev := None); [|exact Hl1|exact Hlen].
    intros a Ha. destruct (Hplain a Ha) as (w & Hw & _ & Hskip).
    now apply workaround_step_skip with w. }
  rewrite bind_bind_eq.
  rewrite (bind_done _ _ _ _ _ Hwalk). cbn [Z.eqb negb].
  rewrite bind_bind_eq.
  rewrite (bind_done _ _ _ _ _ (cset_insert _ _ (set_workaround 0) _ Hc1)).
  unfold s1, with_ctxs. cbn [ctxs watchers errno kern trace]. unfold addr.
  now rewrite insert_insert_eq.
Qed.

Lemma epoll_wait_loop_ready
    (fuel exit_fuel : nat) (c : addr) (cx : ml_ctx_t) (timeout : Z) (s : state)
    (r : reply) (k' : kstate) :
  ctxs s !! c = Some cx ->
  ksys (kern s) (SysEpollWait (ctx_fd cx) (ctx_maxevents cx) timeout) = (r, k') ->
  0 <= r_ret r ->
  epoll_wait_loop (S fuel) exit_fuel (Some c) timeout s =
  Done (Some (r_ret r, r_ready r))
    (after_sys (SysEpollWait (ctx_fd cx) (ctx_maxevents cx) timeout) r k' s).
Proof.
  intros Hc Hk Hr. cbn [epoll_wait_loop].
  rewrite (bind_done _ _ _ _ _ (cget_ok ctx_fd _ _ _ Hc)).
  rewrite (bind_done _ _ _ _ _ (cget_ok ctx_maxevents _ _ _ Hc)).
  rewrite (bind_done _ _ _ _ _ (sys_ok _ _ _ _ Hk)).
  now destruct (Z.ltb_spec (r_ret r) 0); [lia|].
Qed.

Lemma epoll_wait_loop_failed
    (fuel exit_fuel : nat) (c : addr) (cx : ml_ctx_t) (timeout : Z) (s : state)
    (r : reply) (k' : kstate) :
  ctxs s !! c = Some cx ->
  ctx_running cx <> 0 ->
  ksys (kern s) (SysEpollWait (ctx_fd cx) (ctx_maxevents cx) timeout) = (r, k') ->
  r_ret r < 0 ->
  epoll_wait_loop (S fuel) exit_fuel (Some c) timeout s =
  (if r_errno r =? EINTR then epoll_wait_loop fuel exit_fuel (Some c) timeout
   else ml_exit exit_fuel (Some c) ;; ret None)
    (after_sys (SysEpollWait (ctx_fd cx) (ctx_maxevents cx) timeout) r k' s).
Proof.
  intros Hc Hrun Hk Hr. cbn [epoll_wait_loop].
  rewrite (bind_done _ _ _ _ _ (cget_ok ctx_fd _ _ _ Hc)).
  rewrite (bind_done _ _ _ _ _ (cget_ok ctx_maxevents _ _ _ Hc)).
  rewrite (bind_done _ _ _ _ _ (sys_ok _ _ _ _ Hk)).
  destruct (Z.ltb_spec (r_ret r) 0) as [_|]; [|lia].
  erewrite bind_done by (apply cget_ok; exact Hc).
  destruct (Z.eqb_spec (ctx_running cx) 0) as [|_]; [contradiction|].
  unfold bind at 1, get_errno at 1. cbn [errno after_sys].
  now destruct (Z.ltb_spec (r_ret r) 0) as [_|]; [|lia].
Qed.

(** X7: a wait that fails with EINTR is repeated: after [n] such failures and
    one success the wait loop ends with the result of the success, having
    made [n + 1] identical calls and changed neither store. *)
Theorem epoll_wait_retries_eintr
    (n : nat) (c : addr) (cx : ml_ctx_t) (timeout : Z) (r : reply) (k1 k2 : kstate) :
  forall (fuel exit_fuel : nat) (s : state),
  ctxs s !! c = Some cx ->
  ctx_running cx <> 0 ->
  interrupted (SysEpollWait (ctx_fd cx) (ctx_maxevents cx) timeout) n (kern s) k1 ->
  ksys k1 (SysEpollWait (ctx_fd cx) (ctx_maxevents cx) timeout) = (r, k2) ->
  0 <= r_ret r ->
  (n < fuel)%nat ->
  epoll_wait_loop fuel exit_fuel (Some c) timeout s =
  Done (Some (r_ret r, r_ready r))
    (Build_state KN (watchers s) (ctxs s)
       (match n with O => errno s | S _ => EINTR end) k2
       (trace s ++ replicate (S n)
                     (Sys (SysEpollWait (ctx_fd cx) (ctx_maxevents cx) timeout)))).
Proof.
  induction n as [|n IH]; intros fuel exit_fuel s Hc Hrun Hint Hk Hr Hfuel.
  - cbn in Hint. subst k1. destruct fuel as [|fuel]; [lia|].
    rewrite (epoll_wait_loop_ready _ _ _ _ _ _ _ _ Hc Hk Hr).
    unfold after_sys. now destruct (Z.ltb_spec (r_ret r) 0); [lia|].
  - destruct Hint as (r1 & ka & Hk1 & Hr1 & He1 & Hint).
    destruct fuel as [|fuel]; [lia|].
    rewrite (epoll_wait_loop_failed _ _ _ _ _ _ _ _ Hc Hrun Hk1 Hr1), He1.
    cbn [Z.eqb EINTR Pos.eqb].
    rewrite (IH fuel exit_fuel (after_sys _ r1 ka s)); [|exact Hc|exact Hrun|exact Hint|exact Hk|exact Hr|lia].
    cbn [watchers ctxs errno trace after_sys].
    destruct (Z.ltb_spec (r_ret r1) 0) as [_|]; [|lia].
    rewrite <- app_assoc. cbn [replicate app]. rewrite He1. now destruct n.
Qed.

Lemma ml_run_once_run
    (fuel : nat) (c : addr) (cx : ml_ctx_t) (l : list addr) (flags : Z) (s : state)
    (r : reply) (k' : kstate) :
  ctxs s !! c = Some cx ->
  0 <= ctx_fd cx ->
  dlist (watchers s) None (ctx_watchers cx) l ->
  l <> [] ->
  all_plain s l ->
  (length l <= S fuel)%nat ->
  ksys (kern s) (SysEpollWait (ctx_fd cx) (ctx_maxevents cx) (run_timeout flags)) = (r, k') ->
  Z.land flags MINILOOP_ONCE <> 0 ->
  0 <= r_ret r <= MINILOOP_MAX_EVENTS ->
  ml_run (S (S fuel)) (Some c) flags s =
    (dispatch_loop (Some c) (take (Z.to_nat (r_ret r)) (r_ready r)) ;; ret 0)
      (after_sys (SysEpollWait (ctx_fd cx) (ctx_maxevents cx) (run_timeout flags)) r k'
         (with_ctxs (<[c := set_workaround 0 (set_running 1 cx)]> (ctxs s)) s)).
Proof.
  intros Hc Hfd Hl Hne Hplain Hlen Hk Honce [Hr0 Hr1].
  rewrite (ml_run_reaches_wait (S fuel) c cx l flags s Hc Hfd Hl Hne Hplain Hlen).
  set (s1 := with_ctxs (<[c := set_workaround 0 (set_running 1 cx)]> (ctxs s)) s) in *.
  assert (Hc1 : ctxs s1 !! c = Some (set_workaround 0 (set_running 1 cx)))
    by (cbn; unfold addr; apply lookup_insert_eq).
  unfold wait_and_dispatch. rewrite bind_bind_eq.
  rewrite (bind_done _ _ _ _ _
             (epoll_wait_loop_ready fuel (S fuel) c _ (run_timeout flags) s1 r k'
                Hc1 Hk Hr0)).
  destruct (Z.ltb_spec MINILOOP_MAX_EVENTS (r_ret r)) as [|_]; [lia|].
  unfold dispatch_cycle. rewrite bind_bind_eq. unfold bind.
  destruct (dispatch_loop _ _ _) as [u s'| |]; try reflexivity.
  now destruct (Z.eqb_spec (Z.land flags MINILOOP_ONCE) 0).
Qed.

(** X8: with MINILOOP_ONCE, over a list of plain watchers: [running] is set,
    the workaround flag cleared, one wait made, and what is left of the run
    is the dispatch of the batch it returned, then 0. *)
Theorem ml_run_once_one_cycle
    (fuel : nat) (c : addr) (cx : ml_ctx_t) (l : list addr) (flags : Z) (s : state)
    (r : reply) (k' : kstate) :
  ctxs s !! c = Some cx ->
  0 <= ctx_fd cx ->
  dlist (watchers s) None (ctx_watchers cx) l ->
  l <> [] ->
  all_plain s l ->
  (length l <= S fuel)%nat ->
  ksys (kern s) (SysEpollWait (ctx_fd cx) (ctx_maxevents cx) (run_timeout flags)) = (r, k') ->
  Z.land flags MINILOOP_ONCE <> 0 ->
  0 <= r_ret r <= MINILOOP_MAX_EVENTS ->
  ml_run (S (S fuel)) (Some c) flags s =
    (dispatch_loop (Some c) (take (Z.to_nat (r_ret r)) (r_ready r)) ;; ret 0)
      (after_sys (SysEpollWait (ctx_fd cx) (ctx_maxevents cx) (run_timeout flags)) r k'
         (with_ctxs (<[c := set_workaround 0 (set_running 1 cx)]> (ctxs s)) s)).
Proof. apply ml_run_once_run. Qed.

(** X9: with MINILOOP_ONCE and MINILOOP_NONBLOCK, over a list of plain
    watchers, when nothing is ready: one wait with timeout 0, no callback,
    and 0. *)
Theorem ml_run_poll_nothing_ready
    (fuel : nat) (c : addr) (cx : ml_ctx_t) (l : list addr) (flags : Z) (s : state)
    (r : reply) (k' : kstate) :
  ctxs s !! c = Some cx ->
  0 <= ctx_fd cx ->
  dlist (watchers s) None (ctx_watchers cx) l ->
  l <> [] ->
  all_plain s l ->
  (length l <= S fuel)%nat ->
  Z.land flags MINILOOP_ONCE <> 0 ->
  Z.land flags MINILOOP_NONBLOCK <> 0 ->
  ksys (kern s) (SysEpollWait (ctx_fd cx) (ctx_maxevents cx) 0) = (r, k') ->
  r_ret r = 0 ->
  ml_run (S (S fuel)) (Some c) flags s =
  Done 0 (Build_state KN (watchers s)
            (<[c := set_workaround 0 (set_running 1 cx)]> (ctxs s))
            (errno s) k'
            (trace s ++ [Sys (SysEpollWait (ctx_fd cx) (ctx_maxevents cx) 0)])).
Proof.
  intros Hc Hfd Hl Hne Hplain Hlen Honce Hnb Hk Hr.
  assert (Ht : run_timeout flags = 0).
  { unfold run_timeout. now destruct (Z.eqb_spec (Z.land flags MINILOOP_NONBLOCK) 0). }
  rewrite <- Ht in Hk.
  rewrite (ml_run_once_run fuel c cx l flags s r k' Hc Hfd Hl Hne Hplain Hlen Hk Honce)
    by (rewrite Hr; unfold MINILOOP_MAX_EVENTS; lia).
  rewrite Hr, Ht. unfold after_sys. rewrite Hr. reflexivity.
Qed.

Lemma ml_run_wait_failure_run
    (fuel : nat) (c : addr) (cx : ml_ctx_t) (l : list addr) (flags : Z) (s : state)
    (r : reply) (k' : kstate) :
  ctxs s !! c = Some cx ->
  0 <= ctx_fd cx ->
  dlist (watchers s) None (ctx_watchers cx) l ->
  l <> [] ->
  all_plain s l ->
  (length l <= S fuel)%nat ->
  ksys (kern s) (SysEpollWait (ctx_fd cx) (ctx_maxevents cx) (run_timeout flags)) = (r, k') ->
  r_ret r < 0 ->
  r_errno r <> EINTR ->
  ml_run (S (S fuel)) (Some c) flags s =
    (ml_exit (S fuel) (Some c) ;; ret (-2))
      (after_sys (SysEpollWait (ctx_fd cx) (ctx_maxevents cx) (run_timeout flags)) r k'
         (with_ctxs (<[c := set_workaround 0 (set_running 1 cx)]> (ctxs s)) s)).
Proof.
  intros Hc Hfd Hl Hne Hplain Hlen Hk Hr He.
  rewrite (ml_run_reaches_wait (S fuel) c cx l flags s Hc Hfd Hl Hne Hplain Hlen).
  set (s1 := with_ctxs (<[c := set_workaround 0 (set_running 1 cx)]> (ctxs s)) s) in *.
  assert (Hc1 : ctxs s1 !! c = Some (set_workaround 0 (set_running 1 cx)))
    by (cbn; unfold addr; apply lookup_insert_eq).
  unfold wait_and_dispatch. rewrite bind_bind_eq.
  assert (Hrun1 : ctx_running (set_workaround 0 (set_running 1 cx)) <> 0) by (cbn; lia).
  unfold bind at 1.
  rewrite (epoll_wait_loop_failed fuel (S fuel) c _ (run_timeout flags) s1 r k'
             Hc1 Hrun1 Hk Hr).
  destruct (Z.eqb_spec (r_errno r) EINTR) as [|_]; [contradiction|].
  unfold bind. now destruct (ml_exit _ _ _).
Qed.

(** X10: over a list of plain watchers, a wait that fails with anything but
    EINTR: what is left of the run is [ml_exit], then -2. *)
Theorem ml_run_wait_failure
    (fuel : nat) (c : addr) (cx : ml_ctx_t) (l : list addr) (flags : Z) (s : state)
    (r : reply) (k' : kstate) :
  ctxs s !! c = Some cx ->
  0 <= ctx_fd cx ->
  dlist (watchers s) None (ctx_watchers cx) l ->
  l <> [] ->
  all_plain s l ->
  (length l <= S fuel)%nat ->
  ksys (kern s) (SysEpollWait (ctx_fd cx) (ctx_maxevents cx) (run_timeout flags)) = (r, k') ->
  r_ret r < 0 ->
  r_errno r <> EINTR ->
  ml_run (S (S fuel)) (Some c) flags s =
    (ml_exit (S fuel) (Some c) ;; ret (-2))
      (after_sys (SysEpollWait (ctx_fd cx) (ctx_maxevents cx) (run_timeout flags)) r k'
         (with_ctxs (<[c := set_workaround 0 (set_running 1 cx)]> (ctxs s)) s)).
Proof. apply ml_run_wait_failure_run. Qed.

Lemma with_ctxs_same (g : gmap positive ml_ctx_t) (s : state) :
  g = ctxs s -> with_ctxs g s = s.
Proof. intros ->. now destruct s. Qed.

Lemma ml_exit_of_closed (fuel : nat) (c : addr) (cx : ml_ctx_t) (s : state) :
  ctxs s !! c = Some cx -> closed_ctx cx -> ml_exit fuel (Some c) s = Done 0 s.
Proof.
  intros Hc (Hw & Hr & Hfd). unfold ml_exit. cbn [is_null].
  rewrite (bind_done _ _ _ _ _ (cget_ok ctx_watchers _ _ _ Hc)), Hw.
  assert (Hsame : forall f, f cx = cx -> cset (Some c) f s = Done tt s).
  { intros f Hf. rewrite (cset_insert _ _ f _ Hc), Hf.
    rewrite with_ctxs_same; [reflexivity|]. unfold addr in *. now apply insert_id. }
  assert (E : _MINILOOP_FOREACH fuel None tt
                (fun w (_ : unit) =>
                   _MINILOOP_REMOVE w (Some c) ;;
                   act <- _ml_watcher_active w ;;
                   (if act =? 0 then ret tt
                    else ty <- wget w ml_type ;;
                         match ty with
                         | MINILOOP_IO_TYPE => ml_io_stop w ;; ret tt
                         | MINILOOP_SIGNAL_TYPE => ml_signal_stop w ;; ret tt
                         | MINILOOP_TIMER_TYPE => ml_timer_stop w ;; ret tt
                         | MINILOOP_FS_TYPE => ret tt
                         | MINILOOP_EVENT_TYPE => ml_event_stop w ;; ret tt
                         end)) s = Done tt s)
    by (destruct fuel; reflexivity).
  rewrite (bind_done _ _ _ _ _ E).
  rewrite (bind_done _ _ _ _ _ (Hsame (set_watchers None) ltac:(destruct cx; cbn in *; now subst))).
  rewrite (bind_done _ _ _ _ _ (Hsame (set_running 0) ltac:(destruct cx; cbn in *; now subst))).
  rewrite (bind_done _ _ _ _ _ (cget_ok ctx_fd _ _ _ Hc)), Hfd.
  change (-1 <? -1) with false. cbv iota.
  erewrite bind_done by reflexivity.
  rewrite (bind_done _ _ _ _ _ (Hsame (set_ctx_fd (-1)) ltac:(destruct cx; cbn in *; now subst))).
  reflexivity.
Qed.

(** What [ml_exit] leaves of the context, whatever the stop functions of
    the adapters do, when it returns. *)
Lemma ml_exit_closes (fuel : nat) (c : addr) (s : state) (r : Z) (s' : state) :
  ml_exit fuel (Some c) s = Done r s' ->
  r = 0 /\ exists cx', ctxs s' !! c = Some cx' /\ closed_ctx cx'.
Proof.
  unfold ml_exit. cbn [is_null]. intros H.
  apply bind_inv in H as (head & s0 & _ & H).
  apply bind_inv in H as (u1 & s1 & _ & H).
  apply bind_inv in H as (u2 & s2 & Hset1 & H).
  destruct (cset_inv _ _ _ _ _ Hset1) as (c1 & cx1 & [= <-] & Hc1 & ->).
  apply bind_inv in H as (u3 & s3 & Hset2 & H).
  destruct (cset_inv _ _ _ _ _ Hset2) as (c2 & cx2 & [= <-] & Hc2 & ->).
  cbn [ctxs] in Hc2. unfold addr in *. rewrite lookup_insert_eq in Hc2.
  injection Hc2 as <-.
  apply bind_inv in H as (fd & s4 & Hfd & H).
  destruct (cget_inv _ _ _ _ _ Hfd) as (-> & _).
  apply bind_inv in H as (u5 & s5 & Hclose & H).
  assert (Hc5 : ctxs s5 !! c = Some (set_running 0 (set_watchers None cx1))).
  { destruct (-1 <? fd).
    - apply bind_inv in Hclose as (rr & s6 & Hsys & [= _ <-]).
      destruct (sys_inv _ _ _ _ Hsys) as [_ ->]. cbn [ctxs].
      unfold addr. now rewrite !lookup_insert_eq.
    - injection Hclose as _ <-. cbn [ctxs]. unfold addr. now rewrite !lookup_insert_eq. }
  apply bind_inv in H as (u6 & s6 & Hset3 & [= <- <-]).
  destruct (cset_inv _ _ _ _ _ Hset3) as (c3 & cx3 & [= <-] & Hc3 & ->).
  split; [reflexivity|].
  eexists. cbn [ctxs]. unfold addr in *. rewrite lookup_insert_eq.
  split; [reflexivity|]. rewrite Hc5 in Hc3. injection Hc3 as <-.
  now repeat split.
Qed.

(** X11: a second [ml_exit] returns 0 and changes nothing. *)
Theorem ml_exit_twice (fuel fuel' : nat) (c : addr) (s : state) (r : Z) (s' : state) :
  ml_exit fuel (Some c) s = Done r s' ->
  ml_exit fuel' (Some c) s' = Done 0 s'.
Proof.
  intros H. destruct (ml_exit_closes _ _ _ _ _ H) as (_ & cx' & Hc' & Hclosed).
  now apply ml_exit_of_closed with cx'.
Qed.

(** X12: after [ml_exit], [ml_run] is refused with -1 and EINVAL, and changes
    nothing else. *)
Theorem ml_run_after_exit (fuel fuel' : nat) (c : addr) (flags : Z) (s : state)
    (r : Z) (s' : state) :
  ml_exit fuel (Some c) s = Done r s' ->
  ml_run fuel' (Some c) flags s' =
  Done (-1) (Build_state KN (watchers s') (ctxs s') EINVAL (kern s') (trace s')).
Proof.
  intros H. destruct (ml_exit_closes _ _ _ _ _ H) as (_ & cx' & Hc' & _ & _ & Hfd).
  unfold ml_run. rewrite (bind_done _ _ _ _ _ (run_invalid_ok _ _ _ Hc')), Hfd.
  reflexivity.
Qed.

End Loop.

(** ** [ml_exit] over I/O watchers *)

Section Exit.

Context {KN : Kernel} {EX : Extern}.

Lemma ml_exit_unfold (fuel : nat) (c : addr) :
  ml_exit fuel (Some c) =
  (head <- cget (Some c) ctx_watchers ;;
   _MINILOOP_FOREACH fuel head tt (fun w _ => ml_exit_step (Some c) w) ;;
   cset (Some c) (set_watchers None) ;;
   cset (Some c) (set_running 0) ;;
   fd <- cget (Some c) ctx_fd ;;
   (if -1 <? fd then sys (SysClose fd) ;; ret tt else ret tt) ;;
   cset (Some c) (set_ctx_fd (-1)) ;;
   ret 0).
Proof. reflexivity. Qed.

Lemma payload_idem (w : ml_t) : payload (payload w) = payload w.
Proof. now destruct w. Qed.

Lemma unlink_unlinked (a : addr) (w : ml_t) (h : gmap positive ml_t) :
  h !! a = Some w -> ml_next w = None -> ml_prev w = None -> unlink a h = h.
Proof.
  intros Ha Hn Hp. unfold unlink. rewrite Ha, Hn, Hp. cbn zeta.
  apply alter_id. intros x Hx. assert (x = w) as -> by (unfold addr in *; congruence).
  destruct w; cbn in *; now subst.
Qed.

Lemma ml_exit_step_io (a c : addr) (wa : ml_t) (cx : ml_ctx_t) (l' : list addr) (s : state) :
  ctxs s !! c = Some cx ->
  dlist (watchers s) None (ctx_watchers cx) (a :: l') ->
  NoDup (a :: l') ->
  watchers s !! a = Some wa ->
  io_of c wa ->
  exists s',
    ml_exit_step (Some c) (Some a) s = Done tt s' /\
    watchers s' = alter (fun w => if 0 <? ml_active wa then set_active 0 w else w) a
                    (unlink a (watchers s)) /\
    ctxs s' = <[c := set_watchers (ml_next wa) cx]> (ctxs s) /\
    trace s' = trace s ++ exit_calls (ctx_fd cx) (watchers s) [a].
Proof.
  intros Hc Hl Hnd Ha [Hty Hctx].
  pose proof Hl as (Hhead & w0 & Hw0 & Hprev & Hrest).
  assert (w0 = wa) as -> by (unfold addr in *; congruence).
  apply NoDup_cons in Hnd as [Hnin Hnd].
  assert (Hnx : forall n, ml_next wa = Some n -> n ∈ l').
  { intros n Hn. rewrite Hn in Hrest. destruct l'; cbn in Hrest; [discriminate|].
    destruct Hrest as ([= ->] & _). apply list_elem_of_here. }
  set (h1 := unlink a (watchers s)).
  set (g1 := <[c := set_watchers (ml_next wa) cx]> (ctxs s)).
  assert (Hrem : _MINILOOP_REMOVE (Some a) (Some c) s =
                 Done tt (with_watchers h1 (with_ctxs g1 s))).
  { rewrite (_MINILOOP_REMOVE_ok a c wa cx s Hc Ha).
    - rewrite Hhead. cbn [ptr_eqb]. rewrite Pos.eqb_refl. unfold g1.
      erewrite insert_as_alter by exact Hc. reflexivity.
    - intros p Hp. congruence.
    - intros n Hn. exact (dlist_valid _ _ _ _ _ Hrest (Hnx n Hn)). }
  assert (Ha1 : h1 !! a = Some (payload wa)) by now apply unlink_self.
  assert (Hc1 : g1 !! c = Some (set_watchers (ml_next wa) cx))
    by (unfold g1, addr; apply lookup_insert_eq).
  unfold ml_exit_step, exit_calls. cbn [flat_map]. rewrite Ha, app_nil_r.
  rewrite (bind_done _ _ _ _ _ Hrem).
  erewrite bind_done by (apply _ml_watcher_active_ok; exact Ha1).
  change (ml_active (payload wa)) with (ml_active wa).
  destruct (Z.ltb_spec 0 (ml_active wa)) as [Hact|Hact]; cbn [Z_of_bool Z.eqb].
  2:{ eexists. split; [reflexivity|]. cbn [watchers ctxs trace with_watchers with_ctxs].
      repeat split; [|now rewrite app_nil_r].
      symmetry. apply alter_id. reflexivity. }
  erewrite bind_done by (apply wget_ok; exact Ha1).
  change (ml_type (payload wa)) with (ml_type wa). rewrite Hty.
  (* [ml_io_stop]: the second removal finds the node already unlinked *)
  unfold ml_io_stop, _ml_watcher_stop. cbn [is_null]. rewrite !bind_bind_eq.
  erewrite bind_done by (apply _ml_watcher_active_ok; exact Ha1).
  change (ml_active (payload wa)) with (ml_active wa).
  destruct (Z.ltb_spec 0 (ml_active wa)) as [_|]; [|lia]. cbn [Z_of_bool Z.eqb].
  rewrite !bind_bind_eq.
  erewrite bind_done by (eapply wset_alter; exact Ha1).
  set (h2 := alter (set_active 0) a h1).
  assert (Ha2 : h2 !! a = Some (set_active 0 (payload wa)))
    by (unfold h2; now rewrite lookup_alter_eq, Ha1).
  rewrite !bind_bind_eq.
  erewrite bind_done by (apply wget_ok; exact Ha2).
  change (ml_ctx (set_active 0 (payload wa))) with (ml_ctx wa). rewrite Hctx.
  rewrite !bind_bind_eq.
  erewrite bind_done.
  2:{ apply (_MINILOOP_REMOVE_ok a c (set_active 0 (payload wa))
               (set_watchers (ml_next wa) cx)); [exact Hc1|exact Ha2|discriminate..]. }
  cbn [watchers ctxs with_watchers with_ctxs ctx_watchers set_watchers].
  assert (Hne : ptr_eqb (ml_next wa) (Some a) = false).
  { destruct (ml_next wa) as [n|] eqn:Hn; [|reflexivity]. cbn.
    apply Pos.eqb_neq. intros ->. apply Hnin. now apply Hnx. }
  rewrite Hne.
  erewrite (unlink_unlinked a) by first [exact Ha2 | reflexivity].
  rewrite !bind_bind_eq.
  erewrite bind_done by (apply wget_ok; exact Ha2).
  change (ml_ctx (set_active 0 (payload wa))) with (ml_ctx wa). rewrite Hctx.
  rewrite !bind_bind_eq.
  erewrite bind_done by (apply cget_ok; exact Hc1).
  rewrite !bind_bind_eq.
  erewrite bind_done by (apply wget_ok; exact Ha2).
  change (ml_fd (set_active 0 (payload wa))) with (ml_fd wa).
  change (ctx_fd (set_watchers (ml_next wa) cx)) with (ctx_fd cx).
  rewrite !bind_bind_eq.
  destruct (ksys (kern s) (SysEpollCtl (ctx_fd cx) EPOLL_CTL_DEL (ml_fd wa) None))
    as [r k'] eqn:Hk.
  erewrite bind_done by (apply sys_ok; exact Hk).
  eexists. split.
  { destruct (r_ret r <? 0); reflexivity. }
  cbn [watchers ctxs trace with_watchers with_ctxs after_sys]. repeat split.
Qed.

Lemma exited_alt (w : ml_t) :
  exited w = if 0 <? ml_active w then set_active 0 (payload w) else payload w.
Proof. unfold exited. now destruct (0 <? ml_active w), w. Qed.

Lemma exited_payload (w w' : ml_t) : payload w' = payload w -> exited w' = exited w.
Proof.
  intros H. rewrite !exited_alt, H.
  assert (ml_active w' = ml_active w) as -> by exact (f_equal ml_active H). reflexivity.
Qed.

Lemma unlink_other (a b : addr) (wa : ml_t) (h : gmap positive ml_t) :
  h !! a = Some wa -> b <> a -> ml_prev wa <> Some b -> ml_next wa <> Some b ->
  unlink a h !! b = h !! b.
Proof.
  intros Ha Hba Hp Hn. unfold unlink. rewrite Ha. cbn zeta.
  rewrite lookup_alter_ne by congruence.
  destruct (ml_next wa) as [n|]; [rewrite lookup_alter_ne by congruence|];
    (destruct (ml_prev wa) as [p|]; [now rewrite lookup_alter_ne by congruence|reflexivity]).
Qed.

Lemma exit_calls_ext (epfd : Z) (h h' : gmap positive ml_t) (l : list addr) :
  (forall b, b ∈ l -> payload <$> h' !! b = payload <$> h !! b) ->
  exit_calls epfd h' l = exit_calls epfd h l.
Proof.
  induction l as [|a l IH]; intros H; [reflexivity|].
  unfold exit_calls in *. cbn [flat_map]. f_equal.
  - pose proof (H a (list_elem_of_here _ _)) as Ha.
    destruct (h' !! a) as [w'|], (h !! a) as [w|]; cbn in Ha; try discriminate; [|reflexivity].
    assert (Hp : payload w' = payload w) by congruence.
    assert (ml_active w' = ml_active w) as -> by exact (f_equal ml_active Hp).
    assert (ml_fd w' = ml_fd w) as -> by exact (f_equal ml_fd Hp). reflexivity.
  - apply IH. intros b Hb. apply H. now apply list_elem_of_further.
Qed.

Lemma exit_calls_cons (epfd : Z) (h : gmap positive ml_t) (a : addr) (l : list addr) :
  exit_calls epfd h (a :: l) = exit_calls epfd h [a] ++ exit_calls epfd h l.
Proof. unfold exit_calls. cbn [flat_map]. now rewrite app_nil_r. Qed.

Lemma io_of_payload (c : addr) (w w' : ml_t) : payload w' = payload w -> io_of c w -> io_of c w'.
Proof.
  intros H. unfold io_of.
  assert (ml_type w' = ml_type w) as -> by exact (f_equal ml_type H).
  assert (ml_ctx w' = ml_ctx w) as -> by exact (f_equal ml_ctx H). exact id.
Qed.

Lemma ml_exit_loop (c : addr) (l : list addr) :
  forall (fuel : nat) (s : state) (cx : ml_ctx_t),
  ctxs s !! c = Some cx ->
  dlist (watchers s) None (ctx_watchers cx) l ->
  NoDup l ->
  (forall a w, a ∈ l -> watchers s !! a = Some w -> io_of c w) ->
  (length l <= fuel)%nat ->
  exists s',
    _MINILOOP_FOREACH fuel (ctx_watchers cx) tt (fun w _ => ml_exit_step (Some c) w) s
      = Done tt s' /\
    (forall a w, a ∈ l -> watchers s !! a = Some w -> watchers s' !! a = Some (exited w)) /\
    (forall b, b ∉ l -> watchers s' !! b = watchers s !! b) /\
    ctxs s' = <[c := set_watchers None cx]> (ctxs s) /\
    trace s' = trace s ++ exit_calls (ctx_fd cx) (watchers s) l.
Proof.
  induction l as [|a l' IH]; intros fuel s cx Hc Hl Hnd Hio Hlen.
  { cbn in Hl. rewrite Hl. exists s. destruct fuel; cbn [_MINILOOP_FOREACH];
      (repeat split; [intros a w Ha; now apply elem_of_nil in Ha
                     |symmetry; apply insert_id; rewrite Hc; f_equal;
                      destruct cx; cbn in *; now subst
                     |cbn; now rewrite app_nil_r]). }
  destruct fuel as [|fuel]; [cbn in Hlen; lia|].
  pose proof Hl as (Hhead & wa & Ha & Hprev & Hrest).
  pose proof Hnd as [Hnin Hnd']%NoDup_cons.
  assert (Hioa : io_of c wa) by (apply (Hio a); [apply list_elem_of_here|exact Ha]).
  destruct (ml_exit_step_io a c wa cx l' s Hc Hl Hnd Ha Hioa)
    as (s1 & Hstep & Hw1 & Hc1 & Ht1).
  rewrite Hhead. cbn [_MINILOOP_FOREACH].
  rewrite (bind_done _ _ _ _ _ (wget_ok ml_next _ _ _ Ha)).
  rewrite (bind_done _ _ _ _ _ Hstep).
  set (cx1 := set_watchers (ml_next wa) cx).
  assert (Hcx1 : ctxs s1 !! c = Some cx1)
    by (rewrite Hc1; unfold addr; apply lookup_insert_eq).
  assert (Hpay : forall b, b ∈ l' ->
            payload <$> watchers s1 !! b = payload <$> watchers s !! b).
  { intros b Hb. rewrite Hw1, lookup_alter_ne by (intros ->; contradiction).
    apply unlink_payload. }
  assert (Hl1 : dlist (watchers s1) None (ctx_watchers cx1) l').
  { rewrite Hw1. apply dlist_alter_outside; [exact Hnin|].
    pose proof (dlist_unlink _ _ _ Ha _ _ _ Hl Hnd (list_elem_of_here _ _)) as Hu.
    rewrite without_head in Hu by exact Hnin.
    rewrite Hhead in Hu. cbn [ptr_eqb] in Hu. rewrite Pos.eqb_refl in Hu.
    apply Hu. discriminate. }
  destruct (IH fuel s1 cx1 Hcx1 Hl1 Hnd') as (s' & Hrun & Hin & Hout & Hc' & Ht').
  { intros b w1 Hb Hb1. pose proof (Hpay b Hb) as Hp. rewrite Hb1 in Hp.
    destruct (watchers s !! b) as [w|] eqn:Hbw; [|discriminate].
    apply (io_of_payload c w w1); [cbn in Hp; congruence|].
    apply (Hio b); [now apply list_elem_of_further|exact Hbw]. }
  { cbn in Hlen. lia. }
  exists s'. split; [exact Hrun|]. repeat split.
  - intros b w Hb Hbw. apply elem_of_cons in Hb as [->|Hb].
    + rewrite (Hout a Hnin), Hw1, lookup_alter_eq, (unlink_self a wa _ Ha).
      assert (w = wa) as -> by (unfold addr in *; congruence). cbn.
      unfold exited. f_equal. now destruct (0 <? ml_active wa), wa.
    + pose proof (Hpay b Hb) as Hp. rewrite Hbw in Hp.
      destruct (watchers s1 !! b) as [w1|] eqn:Hb1; [|discriminate].
      rewrite (Hin b w1 Hb Hb1). f_equal. apply exited_payload. cbn in Hp. congruence.
  - intros b Hb. apply not_elem_of_cons in Hb as [Hba Hb].
    rewrite (Hout b Hb), Hw1, lookup_alter_ne by congruence.
    apply (unlink_other a b wa _ Ha Hba); [rewrite Hprev; discriminate|].
    intros Hn. apply Hb. rewrite Hn in Hrest. destruct l'; cbn in Hrest; [discriminate|].
    destruct Hrest as ([= ->] & _). apply list_elem_of_here.
  - rewrite Hc', Hc1. unfold addr. now rewrite insert_insert_eq.
  - rewrite Ht', Ht1, <- app_assoc. f_equal.
    rewrite (exit_calls_cons _ _ a l'). f_equal. apply exit_calls_ext. exact Hpay.
Qed.

Lemma ml_exit_io_run (fuel : nat) (c : addr) (cx : ml_ctx_t) (l : list addr)
    (s : state) :
  ctxs s !! c = Some cx ->
  dlist (watchers s) None (ctx_watchers cx) l ->
  NoDup l ->
  (forall a w, a ∈ l -> watchers s !! a = Some w -> io_of c w) ->
  (length l <= fuel)%nat ->
  exists s',
    ml_exit fuel (Some c) s = Done 0 s' /\
    (forall a w, a ∈ l -> watchers s !! a = Some w -> watchers s' !! a = Some (exited w)) /\
    (forall b, b ∉ l -> watchers s' !! b = watchers s !! b) /\
    ctxs s' = <[c := set_ctx_fd (-1) (set_running 0 (set_watchers None cx))]> (ctxs s) /\
    trace s' = trace s ++ exit_calls (ctx_fd cx) (watchers s) l
                       ++ (if -1 <? ctx_fd cx then [Sys (SysClose (ctx_fd cx))] else []).
Proof.
  intros Hc Hl Hnd Hio Hlen.
  destruct (ml_exit_loop c l fuel s cx Hc Hl Hnd Hio Hlen)
    as (s1 & Hrun & Hin & Hout & Hc1 & Ht1).
  rewrite ml_exit_unfold.
  erewrite bind_done by (apply cget_ok; exact Hc).
  rewrite (bind_done _ _ _ _ _ Hrun).
  assert (Hcx1 : ctxs s1 !! c = Some (set_watchers None cx))
    by (rewrite Hc1; unfold addr; apply lookup_insert_eq).
  erewrite bind_done by (apply cset_insert; exact Hcx1).
  erewrite bind_done
    by (apply cset_insert; cbn [ctxs with_ctxs]; unfold addr; apply lookup_insert_eq).
  erewrite bind_done
    by (apply cget_ok; cbn [ctxs with_ctxs]; unfold addr; apply lookup_insert_eq).
  cbn [ctx_fd set_running set_watchers].
  destruct (-1 <? ctx_fd cx).
  - rewrite !bind_bind_eq.
    destruct (ksys (kern s1) (SysClose (ctx_fd cx))) as [r k'] eqn:Hk.
    erewrite bind_done by (apply sys_ok; cbn [kern with_ctxs]; exact Hk).
    erewrite bind_done by reflexivity.
    erewrite bind_done
      by (apply cset_insert; cbn [ctxs with_ctxs after_sys]; unfold addr; apply lookup_insert_eq).
    eexists. split; [reflexivity|].
    cbn [watchers ctxs trace with_ctxs after_sys]. repeat split; try assumption.
    + rewrite Hc1. unfold addr. now rewrite !insert_insert_eq.
    + now rewrite Ht1, <- app_assoc.
  - erewrite bind_done by reflexivity.
    erewrite bind_done
      by (apply cset_insert; cbn [ctxs with_ctxs]; unfold addr; apply lookup_insert_eq).
    eexists. split; [reflexivity|].
    cbn [watchers ctxs trace with_ctxs]. repeat split; try assumption.
    + rewrite Hc1. unfold addr. now rewrite !insert_insert_eq.
    + now rewrite Ht1, app_nil_r.
Qed.

(** X13: [ml_exit] on a context whose list holds I/O watchers only: the result
    is 0, every watcher of the list is unlinked and, if it was active, made
    inactive, the watchers off the list are untouched, the context ends
    without watchers, not running and with descriptor -1, and the system
    calls are one DEL for each active watcher, in list order, then the close
    of the demultiplexer. *)
Theorem ml_exit_io_watchers (fuel : nat) (c : addr) (cx : ml_ctx_t) (l : list addr)
    (s : state) :
  ctxs s !! c = Some cx ->
  dlist (watchers s) None (ctx_watchers cx) l ->
  NoDup l ->
  (forall a w, a ∈ l -> watchers s !! a = Some w -> io_of c w) ->
  (length l <= fuel)%nat ->
  exists s',
    ml_exit fuel (Some c) s = Done 0 s' /\
    (forall a w, a ∈ l -> watchers s !! a = Some w -> watchers s' !! a = Some (exited w)) /\
    (forall b, b ∉ l -> watchers s' !! b = watchers s !! b) /\
    ctxs s' = <[c := set_ctx_fd (-1) (set_running 0 (set_watchers None cx))]> (ctxs s) /\
    trace s' = trace s ++ exit_calls (ctx_fd cx) (watchers s) l
                       ++ (if -1 <? ctx_fd cx then [Sys (SysClose (ctx_fd cx))] else []).
Proof. apply ml_exit_io_run. Qed.

End Exit.

(** ** Initialisation and the I/O adapter *)

Section Adapters.

Context {KN : Kernel} {EX : Extern}.

Lemma _ml_watcher_init_ok (a c : addr) (wa : ml_t) (type : ml_type_t)
    (cb : option positive) (arg fd events : Z) (s : state) :
  watchers s !! a = Some wa ->
  _ml_watcher_init (Some c) (Some a) type cb arg fd events s =
  Done 0 (with_watchers
            (<[a := initialised wa (Some c) type cb arg fd events]> (watchers s)) s).
Proof.
  intros Ha. unfold _ml_watcher_init. cbn [is_null orb].
  erewrite bind_done by (eapply wset_alter; exact Ha).
  erewrite <- insert_as_alter by exact Ha. reflexivity.
Qed.

(** X14: [ml_init] on valid arguments, when the kernel grants both
    descriptors: the result is 0, the context is overwritten whatever it
    held, and the two creations are the only system calls. *)
Theorem ml_init_creates (c : addr) (cx : ml_ctx_t) (maxevents : Z) (s : state)
    (r1 r2 : reply) (k' : kstate) :
  ctxs s !! c = Some cx ->
  1 <= maxevents ->
  answers (kern s) [(SysEpollCreate1 EPOLL_CLOEXEC, r1);
                    (SysInotifyInit1 (Z.lor IN_NONBLOCK IN_CLOEXEC), r2)] k' ->
  0 <= r_ret r1 ->
  0 <= r_ret r2 ->
  ml_init (Some c) maxevents s =
  Done 0 (Build_state KN (watchers s)
            (<[c := Build_ctx 0 (r_ret r2) (r_ret r1) maxevents None 0]> (ctxs s))
            (errno s) k'
            (trace s ++ [Sys (SysEpollCreate1 EPOLL_CLOEXEC);
                         Sys (SysInotifyInit1 (Z.lor IN_NONBLOCK IN_CLOEXEC))])).
Proof.
  intros Hc Hmax (k1 & Hk1 & k2 & Hk2 & ->) Hr1 Hr2.
  unfold ml_init. cbn [is_null orb].
  destruct (Z.ltb_spec maxevents 1) as [|_]; [lia|].
  erewrite bind_done by (apply cset_insert; exact Hc).
  erewrite bind_done
    by (apply cset_insert; cbn [ctxs with_ctxs]; unfold addr; apply lookup_insert_eq).
  unfold _init.
  erewrite bind_done by (apply sys_ok; exact Hk1).
  erewrite bind_done by (apply sys_ok; exact Hk2).
  destruct (Z.ltb_spec (r_ret r1) 0) as [|_]; [lia|].
  destruct (Z.ltb_spec (r_ret r2) 0) as [|_]; [lia|]. cbn [orb].
  erewrite bind_done by reflexivity.
  erewrite bind_done
    by (apply cset_insert; cbn [ctxs with_ctxs after_sys]; unfold addr; apply lookup_insert_eq).
  erewrite bind_done
    by (apply cset_insert; cbn [ctxs with_ctxs after_sys]; unfold addr; apply lookup_insert_eq).
  unfold ret, with_ctxs, after_sys. cbn [watchers ctxs errno kern trace].
  destruct (Z.ltb_spec (r_ret r1) 0) as [|_]; [lia|].
  destruct (Z.ltb_spec (r_ret r2) 0) as [|_]; [lia|].
  unfold addr. rewrite !insert_insert_eq, <- app_assoc. reflexivity.
Qed.

(** The list after [_MINILOOP_INSERT] of a node that was not on it. *)
Lemma linked_facts (a : addr) (w0 : ml_t) (head : ptr) (l : list addr)
    (h : gmap positive ml_t) :
  h !! a = Some w0 -> dlist h None head l -> NoDup l -> a ∉ l ->
  dlist (link_head a (head_of l) h) None (Some a) (a :: l) /\
  link_head a (head_of l) h !! a = Some (set_prev None (set_next (head_of l) w0)).
Proof.
  intros Ha Hl Hnd Hnin. split.
  - rewrite <- (dlist_head _ _ _ _ Hl). now apply (dlist_link_head h a w0).
  - unfold link_head. rewrite lookup_alter_eq.
    destruct (head_of l) as [b|] eqn:Hh; [|now rewrite Ha].
    rewrite lookup_alter_ne, Ha; [reflexivity|].
    intros ->. destruct l as [|b' l']; [discriminate|]. injection Hh as ->.
    apply Hnin, list_elem_of_here.
Qed.

Lemma insert_payload (a b : addr) (w : ml_t) (h : gmap positive ml_t) :
  b <> a -> payload <$> <[a := w]> h !! b = payload <$> h !! b.
Proof. intros Hb. now rewrite lookup_insert_ne by congruence. Qed.

Lemma ml_io_init_run
    (a c : addr) (wa : ml_t) (cx : ml_ctx_t) (l : list addr) (s : state)
    (cb : option positive) (arg fd events : Z) (r : reply) (k' : kstate) :
  ctxs s !! c = Some cx ->
  dlist (watchers s) None (ctx_watchers cx) l ->
  NoDup l ->
  a ∉ l ->
  watchers s !! a = Some wa ->
  0 <= fd ->
  ksys (kern s) (SysEpollCtl (ctx_fd cx) EPOLL_CTL_ADD fd
                   (Some (to_uint32 (Z.lor events EPOLLRDHUP), Some a))) = (r, k') ->
  0 <= r_ret r ->
  exists s',
    ml_io_init (Some c) (Some a) cb arg fd events s = Done 0 s' /\
    registry s' c (a :: l) /\
    watchers s' !! a =
      Some (Build_ml (head_of l) None 1 events cb arg (ml_timeout wa) (ml_period wa)
              MINILOOP_IO_TYPE (ml_signo wa) fd (Some c)) /\
    (forall b, b <> a -> payload <$> watchers s' !! b = payload <$> watchers s !! b) /\
    trace s' = trace s ++
      [Sys (SysEpollCtl (ctx_fd cx) EPOLL_CTL_ADD fd
              (Some (to_uint32 (Z.lor events EPOLLRDHUP), Some a)))].
Proof.
  intros Hc Hl Hnd Hnin Ha Hfd Hk Hr.
  set (w0 := initialised wa (Some c) MINILOOP_IO_TYPE cb arg fd events).
  set (s0 := with_watchers (<[a := w0]> (watchers s)) s).
  assert (Ha0 : watchers s0 !! a = Some w0) by (cbn; unfold addr; apply lookup_insert_eq).
  assert (Hl0 : dlist (watchers s0) None (ctx_watchers cx) l).
  { apply (dlist_frame (watchers s)); [|exact Hl].
    intros x Hx. cbn. apply lookup_insert_ne. intros ->. contradiction. }
  unfold ml_io_init. destruct (Z.ltb_spec fd 0) as [|_]; [lia|].
  erewrite bind_done by (apply _ml_watcher_init_ok; exact Ha).
  cbn [Z.eqb negb]. fold w0. fold s0.
  rewrite (_ml_watcher_start_run a c w0 cx l s0 r k' Hc Hl0 Hnin Ha0);
    [|cbn; lia|exact Hfd|reflexivity|exact Hk|exact Hr].
  eexists. split; [reflexivity|].
  cbn [watchers ctxs trace after_sys with_watchers with_ctxs s0].
  assert (Ha1 : alter (set_active 1) a (<[a := w0]> (watchers s)) !! a = Some (set_active 1 w0))
    by (rewrite lookup_alter_eq; unfold addr; now rewrite lookup_insert_eq).
  assert (Hl1 : dlist (alter (set_active 1) a (<[a := w0]> (watchers s))) None
                  (ctx_watchers cx) l)
    by (apply dlist_alter_links; [now intros w|exact Hl0]).
  destruct (linked_facts a _ _ l _ Ha1 Hl1 Hnd Hnin) as [Hlist Hrec].
  split; [|split; [|split]].
  - exists (set_watchers (Some a) cx).
    cbn [watchers ctxs after_sys with_watchers with_ctxs]. unfold addr in *.
    rewrite lookup_insert_eq. split; [reflexivity|].
    split; [exact Hlist|now apply NoDup_cons].
  - rewrite Hrec. reflexivity.
  - intros b Hb. rewrite link_head_payload.
    rewrite lookup_alter_ne by congruence. now apply insert_payload.
  - reflexivity.
Qed.

(** X15: [ml_io_init] of a watcher that is not on the list, when the kernel
    accepts the descriptor: the result is 0 and the watcher, initialised
    with the arguments, is active at the head of the list. *)
Theorem ml_io_init_links
    (a c : addr) (wa : ml_t) (cx : ml_ctx_t) (l : list addr) (s : state)
    (cb : option positive) (arg fd events : Z) (r : reply) (k' : kstate) :
  ctxs s !! c = Some cx ->
  dlist (watchers s) None (ctx_watchers cx) l ->
  NoDup l ->
  a ∉ l ->
  watchers s !! a = Some wa ->
  0 <= fd ->
  ksys (kern s) (SysEpollCtl (ctx_fd cx) EPOLL_CTL_ADD fd
                   (Some (to_uint32 (Z.lor events EPOLLRDHUP), Some a))) = (r, k') ->
  0 <= r_ret r ->
  exists s',
    ml_io_init (Some c) (Some a) cb arg fd events s = Done 0 s' /\
    registry s' c (a :: l) /\
    watchers s' !! a =
      Some (Build_ml (head_of l) None 1 events cb arg (ml_timeout wa) (ml_period wa)
              MINILOOP_IO_TYPE (ml_signo wa) fd (Some c)) /\
    (forall b, b <> a -> payload <$> watchers s' !! b = payload <$> watchers s !! b) /\
    trace s' = trace s ++
      [Sys (SysEpollCtl (ctx_fd cx) EPOLL_CTL_ADD fd
              (Some (to_uint32 (Z.lor events EPOLLRDHUP), Some a)))].
Proof. apply ml_io_init_run. Qed.

(** X16: [ml_io_set] without ONESHOT on an active watcher of the list: a DEL
    for the old descriptor, whose result is ignored, then an ADD for the new
    descriptor and events; the watcher moves to the head of the list. *)
Theorem ml_io_set_restarts
    (a c : addr) (wa : ml_t) (cx : ml_ctx_t) (l : list addr) (s : state)
    (fd events : Z) (r1 r2 : reply) (k' : kstate) :
  ctxs s !! c = Some cx ->
  dlist (watchers s) None (ctx_watchers cx) l ->
  NoDup l ->
  a ∈ l ->
  watchers s !! a = Some wa ->
  0 < ml_active wa ->
  ml_ctx wa = Some c ->
  Z.land events MINILOOP_ONESHOT = 0 ->
  0 <= fd ->
  answers (kern s)
    [(SysEpollCtl (ctx_fd cx) EPOLL_CTL_DEL (ml_fd wa) None, r1);
     (SysEpollCtl (ctx_fd cx) EPOLL_CTL_ADD fd
        (Some (to_uint32 (Z.lor events EPOLLRDHUP), Some a)), r2)] k' ->
  0 <= r_ret r2 ->
  exists s',
    ml_io_set (Some a) fd events s = Done 0 s' /\
    registry s' c (a :: without a l) /\
    watchers s' !! a =
      Some (Build_ml (head_of (without a l)) None 1 events (ml_cb wa) (ml_arg wa)
              (ml_timeout wa) (ml_period wa) MINILOOP_IO_TYPE (ml_signo wa) fd (Some c)) /\
    (forall b, b <> a -> payload <$> watchers s' !! b = payload <$> watchers s !! b) /\
    trace s' = trace s ++
      [Sys (SysEpollCtl (ctx_fd cx) EPOLL_CTL_DEL (ml_fd wa) None);
       Sys (SysEpollCtl (ctx_fd cx) EPOLL_CTL_ADD fd
              (Some (to_uint32 (Z.lor events EPOLLRDHUP), Some a)))].
Proof.
  intros Hc Hl Hnd Hin Ha Hact Hctx Hone Hfd (k1 & Hk1 & k2 & Hk2 & ->) Hr2.
  destruct (_ml_watcher_stop_run a c wa cx l s r1 k1 Hc Hl Hnd Hin Ha Hact Hctx Hk1)
    as [Hstop Hlist].
  set (s1 := after_sys _ r1 k1 _) in Hstop.
  set (l1 := without a l) in *.
  assert (Ha1 : watchers s1 !! a = Some (payload (set_active 0 wa))).
  { cbn. apply unlink_self. now rewrite lookup_alter_eq, Ha. }
  assert (Hc1 : ctxs s1 !! c = Some (set_watchers (head_of l1) cx))
    by (cbn; unfold addr; apply lookup_insert_eq).
  assert (Hnin : a ∉ l1).
  { unfold l1. intros Hx. apply elem_of_without in Hx. now destruct Hx. }
  assert (Hnd1 : NoDup l1) by now apply NoDup_without.
  unfold ml_io_set. rewrite Hone. cbn [Z.eqb negb].
  erewrite bind_done by reflexivity.
  unfold ml_io_stop at 1. rewrite (bind_done _ _ _ _ _ Hstop).
  erewrite bind_done by (apply wget_ok; exact Ha1).
  erewrite bind_done by (apply wget_ok; exact Ha1).
  erewrite bind_done by (apply wget_ok; exact Ha1).
  change (ml_ctx (payload (set_active 0 wa))) with (ml_ctx wa). rewrite Hctx.
  change (ml_cb (payload (set_active 0 wa))) with (ml_cb wa).
  change (ml_arg (payload (set_active 0 wa))) with (ml_arg wa).
  destruct (ml_io_init_run a c (payload (set_active 0 wa)) (set_watchers (head_of l1) cx)
              l1 s1 (ml_cb wa) (ml_arg wa) fd events r2 k2 Hc1 Hlist Hnd1 Hnin Ha1 Hfd Hk2 Hr2)
    as (s' & Hrun & Hreg & Hrec & Hothers & Htr).
  exists s'. split; [exact Hrun|]. split; [exact Hreg|]. split; [exact Hrec|].
  split.
  - intros b Hb. rewrite (Hothers b Hb). cbn. rewrite unlink_payload.
    now rewrite lookup_alter_ne by congruence.
  - rewrite Htr. cbn. now rewrite <- app_assoc.
Qed.

(** *** The signal adapter *)

Lemma signal_set_invalid_ok (a : addr) (w : ml_t) (s : state) :
  watchers s !! a = Some w ->
  signal_set_invalid (Some a) s = Done (is_null (ml_ctx w)) s.
Proof.
  intros Hw. unfold signal_set_invalid. cbn [is_null].
  now rewrite (bind_done _ _ _ _ _ (wget_ok ml_ctx _ _ _ Hw)).
Qed.

Lemma _ml_watcher_start_active (a : addr) (w : ml_t) (s : state) :
  watchers s !! a = Some w -> 0 < ml_active w -> 0 <= ml_fd w -> ml_ctx w <> None ->
  _ml_watcher_start (Some a) s = Done 0 s.
Proof.
  intros Hw Hact Hfd Hctx. unfold _ml_watcher_start.
  rewrite (bind_done _ _ _ _ _ (start_invalid_ok _ _ _ Hw)).
  destruct (Z.ltb_spec (ml_fd w) 0) as [|_]; [lia|].
  destruct (ml_ctx w); [|contradiction]. cbn [is_null orb].
  erewrite bind_done by (apply _ml_watcher_active_ok; exact Hw).
  now destruct (Z.ltb_spec 0 (ml_active w)) as [_|]; [|lia].
Qed.

Lemma _ml_watcher_stop_inactive (a : addr) (w : ml_t) (s : state) :
  watchers s !! a = Some w -> ml_active w <= 0 -> _ml_watcher_stop (Some a) s = Done 0 s.
Proof.
  intros Hw Hact. unfold _ml_watcher_stop. cbn [is_null].
  erewrite bind_done by (apply _ml_watcher_active_ok; exact Hw).
  now destruct (Z.ltb_spec 0 (ml_active w)) as [|_]; [lia|].
Qed.

Lemma sigaddset_run (signo : Z) (s : state) :
  sigaddset [] signo s = Done (mask_of signo) (after_sigaddset signo s).
Proof.
  unfold sigaddset, mask_of, after_sigaddset.
  destruct (sigaddset_ok signo); [now destruct s|reflexivity].
Qed.

Lemma ml_signal_set_run (n : nat)
    (a c : addr) (wa : ml_t) (cx : ml_ctx_t) (l : list addr) (s : state) (signo : Z)
    (r1 r2 r3 : reply) (k' : kstate) :
  ctxs s !! c = Some cx ->
  dlist (watchers s) None (ctx_watchers cx) l ->
  NoDup l ->
  a ∉ l ->
  watchers s !! a = Some wa ->
  ml_active wa <= 0 ->
  0 <= ml_fd wa ->
  ml_ctx wa = Some c ->
  answers (kern s)
    (zip (signal_set_calls (ctx_fd cx) a (ml_fd wa) (ml_events wa) signo) [r1; r2; r3]) k' ->
  r_ret r1 <> -1 ->
  0 <= r_ret r2 ->
  0 <= r_ret r3 ->
  exists s',
    ml_signal_set_fuel (S n) (Some a) signo s = Done 0 s' /\
    registry s' c (a :: l) /\
    watchers s' !! a =
      Some (set_prev None (set_next (head_of l) (set_active 1 (set_signo signo wa)))) /\
    (forall b, b <> a -> payload <$> watchers s' !! b = payload <$> watchers s !! b) /\
    trace s' = trace s ++
      map Sys (signal_set_calls (ctx_fd cx) a (ml_fd wa) (ml_events wa) signo) /\
    kern s' = k' /\
    errno s' = (if r_ret r1 <? 0 then r_errno r1
                else if sigaddset_ok signo then errno s else EINVAL).
Proof.
  intros Hc Hl Hnd Hnin Ha Hact Hfd Hctx (k1 & Hk1 & k2 & Hk2 & k3 & Hk3 & ->) Hr1 Hr2 Hr3.
  set (w1 := set_signo signo wa).
  set (h1 := alter (set_signo signo) a (watchers s)).
  assert (Ha1 : h1 !! a = Some w1) by (unfold h1; now rewrite lookup_alter_eq, Ha).
  assert (Hl1 : dlist h1 None (ctx_watchers cx) l)
    by (apply dlist_alter_links; [now intros w|exact Hl]).
  cbn [ml_signal_set_fuel].
  rewrite (bind_done _ _ _ _ _ (signal_set_invalid_ok _ _ _ Ha)), Hctx. cbn [is_null].
  erewrite bind_done by (eapply wset_alter; exact Ha). fold h1.
  erewrite bind_done by (apply wget_ok; exact Ha1).
  change (ml_fd w1) with (ml_fd wa).
  destruct (Z.ltb_spec (ml_fd wa) 0) as [|_]; [lia|].
  erewrite bind_done by reflexivity. cbv beta iota.
  rewrite (bind_done _ _ _ _ _ (sigaddset_run _ _)).
  erewrite bind_done by (apply sys_ok; exact Hk1).
  destruct (Z.eqb_spec (r_ret r1) (-1)) as [|_]; [contradiction|].
  erewrite bind_done by (apply wget_ok; exact Ha1).
  change (ml_fd w1) with (ml_fd wa).
  erewrite bind_done by (apply sys_ok; exact Hk2).
  destruct (Z.ltb_spec (r_ret r2) 0) as [|_]; [lia|].
  match goal with |- context [_ml_watcher_start _ ?st] => set (s2 := st) end.
  rewrite (_ml_watcher_start_run a c w1 cx l s2 r3 k3 Hc Hl1 Hnin Ha1 Hact Hfd Hctx Hk3 Hr3).
  eexists. split; [reflexivity|].
  cbn [watchers ctxs trace kern errno after_sys after_sigaddset with_watchers with_ctxs s2].
  assert (Ha2 : alter (set_active 1) a h1 !! a = Some (set_active 1 w1))
    by now rewrite lookup_alter_eq, Ha1.
  assert (Hl2 : dlist (alter (set_active 1) a h1) None (ctx_watchers cx) l)
    by (apply dlist_alter_links; [now intros w|exact Hl1]).
  destruct (linked_facts a _ _ l _ Ha2 Hl2 Hnd Hnin) as [Hlist Hrec].
  split; [|split; [|split; [|split; [|split]]]].
  - exists (set_watchers (Some a) cx).
    cbn [watchers ctxs after_sys after_sigaddset with_watchers with_ctxs]. unfold addr in *.
    rewrite lookup_insert_eq. split; [reflexivity|].
    split; [exact Hlist|now apply NoDup_cons].
  - exact Hrec.
  - intros b Hb. rewrite link_head_payload. unfold h1.
    now rewrite !lookup_alter_ne by congruence.
  - rewrite <- !app_assoc. reflexivity.
  - reflexivity.
  - destruct (Z.ltb_spec (r_ret r3) 0) as [|_]; [lia|].
    destruct (Z.ltb_spec (r_ret r2) 0) as [|_]; [lia|]. reflexivity.
Qed.

Lemma ml_signal_init_run
    (a c : addr) (wa : ml_t) (cx : ml_ctx_t) (l : list addr) (s : state)
    (cb : option positive) (arg signo : Z) (r0 r1 r2 r3 : reply) (k' : kstate) :
  ctxs s !! c = Some cx ->
  dlist (watchers s) None (ctx_watchers cx) l ->
  NoDup l ->
  a ∉ l ->
  watchers s !! a = Some wa ->
  answers (kern s)
    (zip (SysSignalfd (-1) [] (Z.lor SFD_NONBLOCK SFD_CLOEXEC)
          :: signal_set_calls (ctx_fd cx) a (r_ret r0) MINILOOP_READ signo)
       [r0; r1; r2; r3]) k' ->
  0 <= r_ret r0 ->
  r_ret r1 <> -1 ->
  0 <= r_ret r2 ->
  0 <= r_ret r3 ->
  exists s',
    ml_signal_init (Some c) (Some a) cb arg signo s = Done 0 s' /\
    registry s' c (a :: l) /\
    watchers s' !! a =
      Some (Build_ml (head_of l) None 1 MINILOOP_READ cb arg (ml_timeout wa) (ml_period wa)
              MINILOOP_SIGNAL_TYPE signo (r_ret r0) (Some c)) /\
    (forall b, b <> a -> payload <$> watchers s' !! b = payload <$> watchers s !! b) /\
    trace s' = trace s ++
      map Sys (SysSignalfd (-1) [] (Z.lor SFD_NONBLOCK SFD_CLOEXEC)
               :: signal_set_calls (ctx_fd cx) a (r_ret r0) MINILOOP_READ signo) /\
    kern s' = k' /\
    errno s' = (if r_ret r1 <? 0 then r_errno r1
                else if sigaddset_ok signo then errno s else EINVAL).
Proof.
  intros Hc Hl Hnd Hnin Ha (k0 & Hk0 & Hrest) Hr0 Hr1 Hr2 Hr3.
  unfold ml_signal_init, ml_signal_init_with. cbn [is_null orb].
  erewrite bind_done by (eapply wset_alter; exact Ha).
  erewrite bind_done by (apply sys_ok; exact Hk0).
  destruct (Z.ltb_spec (r_ret r0) 0) as [|_]; [lia|].
  set (w0 := initialised (set_fd (-1) wa) (Some c) MINILOOP_SIGNAL_TYPE cb arg
               (r_ret r0) MINILOOP_READ).
  erewrite bind_done.
  2:{ apply _ml_watcher_init_ok. cbn [watchers after_sys with_watchers].
      now rewrite lookup_alter_eq, Ha. }
  cbn [Z.eqb negb]. fold w0.
  match goal with |- context [bind (ml_signal_set_fuel 1 _ _) _ ?st] => set (s1 := st) end.
  assert (Ha1 : watchers s1 !! a = Some w0) by (cbn; unfold addr; apply lookup_insert_eq).
  assert (Hl1 : dlist (watchers s1) None (ctx_watchers cx) l).
  { apply (dlist_frame (watchers s)); [|exact Hl].
    intros x Hx. cbn. rewrite lookup_insert_ne by (intros ->; contradiction).
    apply lookup_alter_ne. intros ->. contradiction. }
  destruct (ml_signal_set_run 0 a c w0 cx l s1 signo r1 r2 r3 k' Hc Hl1 Hnd Hnin Ha1)
    as (s' & Hrun & Hreg & Hrec & Hothers & Htr & Hkern & Herr);
    [cbn; lia|exact Hr0|reflexivity|exact Hrest|exact Hr1|exact Hr2|exact Hr3|].
  rewrite (bind_done _ _ _ _ _ Hrun). cbn [Z.eqb negb].
  exists s'. split; [reflexivity|]. split; [exact Hreg|]. split; [exact Hrec|].
  split; [|split; [|split; [exact Hkern|]]].
  - intros b Hb. rewrite (Hothers b Hb). cbn.
    rewrite lookup_insert_ne by congruence. now rewrite lookup_alter_ne by congruence.
  - rewrite Htr. cbn [trace s1 after_sys with_watchers map]. now rewrite <- app_assoc.
  - rewrite Herr. cbn [errno s1 after_sys with_watchers].
    now destruct (Z.ltb_spec (r_ret r0) 0) as [|_]; [lia|].
Qed.

(** X17: [ml_signal_init] when the kernel grants the descriptor and takes
    the mask and the registration: the result is 0, the watcher is an active
    signal watcher at the head of the list, and the four system calls are
    made in the order of [signal_set_calls] after the first [signalfd].  The
    mask holds [signo] when [sigaddset] takes the number; when it refuses
    it, the mask handed to the kernel is empty, the result is still 0, and
    [errno] is left at EINVAL (unless [sigprocmask] fails and sets it). *)
Theorem ml_signal_init_registers
    (a c : addr) (wa : ml_t) (cx : ml_ctx_t) (l : list addr) (s : state)
    (cb : option positive) (arg signo : Z) (r0 r1 r2 r3 : reply) (k' : kstate) :
  ctxs s !! c = Some cx ->
  dlist (watchers s) None (ctx_watchers cx) l ->
  NoDup l ->
  a ∉ l ->
  watchers s !! a = Some wa ->
  answers (kern s)
    (zip (SysSignalfd (-1) [] (Z.lor SFD_NONBLOCK SFD_CLOEXEC)
          :: signal_set_calls (ctx_fd cx) a (r_ret r0) MINILOOP_READ signo)
       [r0; r1; r2; r3]) k' ->
  0 <= r_ret r0 ->
  r_ret r1 <> -1 ->
  0 <= r_ret r2 ->
  0 <= r_ret r3 ->
  exists s',
    ml_signal_init (Some c) (Some a) cb arg signo s = Done 0 s' /\
    registry s' c (a :: l) /\
    watchers s' !! a =
      Some (Build_ml (head_of l) None 1 MINILOOP_READ cb arg (ml_timeout wa) (ml_period wa)
              MINILOOP_SIGNAL_TYPE signo (r_ret r0) (Some c)) /\
    (forall b, b <> a -> payload <$> watchers s' !! b = payload <$> watchers s !! b) /\
    trace s' = trace s ++
      map Sys (SysSignalfd (-1) [] (Z.lor SFD_NONBLOCK SFD_CLOEXEC)
               :: signal_set_calls (ctx_fd cx) a (r_ret r0) MINILOOP_READ signo) /\
    errno s' = (if r_ret r1 <? 0 then r_errno r1
                else if sigaddset_ok signo then errno s else EINVAL).
Proof.
  intros Hc Hl Hnd Hnin Ha Hk Hr0 Hr1 Hr2 Hr3.
  destruct (ml_signal_init_run a c wa cx l s cb arg signo r0 r1 r2 r3 k'
              Hc Hl Hnd Hnin Ha Hk Hr0 Hr1 Hr2 Hr3)
    as (s' & Hrun & Hreg & Hrec & Hothers & Htr & _ & Herr).
  now exists s'.
Qed.

(** X18: [ml_signal_init] when [epoll_ctl] refuses the new descriptor: the
    result is -1, the descriptor is closed again, the context and the links of
    the watcher are unchanged, and the inactive watcher keeps the number of
    the closed descriptor.  The masks handed to the kernel before that are
    those of [signal_set_calls]: empty when [sigaddset] refuses [signo]. *)
Theorem ml_signal_init_refused_closes
    (a c : addr) (wa : ml_t) (cx : ml_ctx_t) (s : state)
    (cb : option positive) (arg signo : Z) (r0 r1 r2 r3 r4 : reply) (k' : kstate) :
  ctxs s !! c = Some cx ->
  watchers s !! a = Some wa ->
  answers (kern s)
    (zip (SysSignalfd (-1) [] (Z.lor SFD_NONBLOCK SFD_CLOEXEC)
          :: signal_set_calls (ctx_fd cx) a (r_ret r0) MINILOOP_READ signo
          ++ [SysClose (r_ret r0)])
       [r0; r1; r2; r3; r4]) k' ->
  0 <= r_ret r0 ->
  r_ret r1 <> -1 ->
  0 <= r_ret r2 ->
  r_ret r3 < 0 ->
  exists s',
    ml_signal_init (Some c) (Some a) cb arg signo s = Done (-1) s' /\
    watchers s' =
      <[a := Build_ml (ml_next wa) (ml_prev wa) 0 MINILOOP_READ cb arg (ml_timeout wa)
               (ml_period wa) MINILOOP_SIGNAL_TYPE signo (r_ret r0) (Some c)]> (watchers s) /\
    ctxs s' = ctxs s /\
    trace s' = trace s ++
      map Sys (SysSignalfd (-1) [] (Z.lor SFD_NONBLOCK SFD_CLOEXEC)
               :: signal_set_calls (ctx_fd cx) a (r_ret r0) MINILOOP_READ signo
               ++ [SysClose (r_ret r0)]).
Proof.
  intros Hc Ha (k0 & Hk0 & k1 & Hk1 & k2 & Hk2 & k3 & Hk3 & k4 & Hk4 & ->) Hr0 Hr1 Hr2 Hr3.
  unfold ml_signal_init, ml_signal_init_with. cbn [is_null orb].
  erewrite bind_done by (eapply wset_alter; exact Ha).
  erewrite bind_done by (apply sys_ok; exact Hk0).
  destruct (Z.ltb_spec (r_ret r0) 0) as [|_]; [lia|].
  set (w0 := initialised (set_fd (-1) wa) (Some c) MINILOOP_SIGNAL_TYPE cb arg
               (r_ret r0) MINILOOP_READ).
  erewrite bind_done.
  2:{ apply _ml_watcher_init_ok. cbn [watchers after_sys with_watchers].
      now rewrite lookup_alter_eq, Ha. }
  cbn [Z.eqb negb]. fold w0.
  match goal with |- context [bind (ml_signal_set_fuel 1 _ _) _ ?st] => set (s1 := st) end.
  assert (Ha1 : watchers s1 !! a = Some w0) by (cbn; unfold addr; apply lookup_insert_eq).
  set (w1 := set_signo signo w0).
  set (h1 := alter (set_signo signo) a (watchers s1)).
  assert (Ha2 : h1 !! a = Some w1) by (unfold h1; now rewrite lookup_alter_eq, Ha1).
  assert (Hset : ml_signal_set_fuel 1 (Some a) signo s1 =
                 Done (-1)
                   (after_sys (SysEpollCtl (ctx_fd cx) EPOLL_CTL_ADD (r_ret r0)
                                 (registration a w1)) r3 k3
                      (after_sys (SysSignalfd (r_ret r0) (mask_of signo) SFD_NONBLOCK) r2 k2
                         (after_sys (SysSigprocmask SIG_BLOCK (mask_of signo)) r1 k1
                            (after_sigaddset signo (with_watchers h1 s1)))))).
  { cbn [ml_signal_set_fuel].
    rewrite (bind_done _ _ _ _ _ (signal_set_invalid_ok _ _ _ Ha1)). cbn [is_null ml_ctx w0 initialised].
    erewrite bind_done by (eapply wset_alter; exact Ha1). fold h1.
    erewrite bind_done by (apply wget_ok; exact Ha2).
    change (ml_fd w1) with (r_ret r0).
    destruct (Z.ltb_spec (r_ret r0) 0) as [|_]; [lia|].
    erewrite bind_done by reflexivity. cbv beta iota.
    rewrite (bind_done _ _ _ _ _ (sigaddset_run _ _)).
    erewrite bind_done by (apply sys_ok; exact Hk1).
    destruct (Z.eqb_spec (r_ret r1) (-1)) as [|_]; [contradiction|].
    erewrite bind_done by (apply wget_ok; exact Ha2).
    change (ml_fd w1) with (r_ret r0).
    erewrite bind_done by (apply sys_ok; exact Hk2).
    destruct (Z.ltb_spec (r_ret r2) 0) as [|_]; [lia|].
    apply (_ml_watcher_start_refused_run a c w1 cx);
      [exact Hc|exact Ha2|cbn; lia|exact Hr0|reflexivity|exact Hk3|exact Hr3|].
    right. left. discriminate. }
  rewrite (bind_done _ _ _ _ _ Hset). cbn [Z.eqb negb].
  erewrite bind_done.
  2:{ apply (_ml_watcher_stop_inactive a w1); [exact Ha2|cbn; lia]. }
  erewrite bind_done by (apply sys_ok; exact Hk4).
  eexists. split; [reflexivity|].
  cbn [watchers ctxs trace after_sys after_sigaddset with_watchers s1]. repeat split.
  - unfold h1. cbn [watchers s1 with_watchers after_sys].
    apply map_eq. intros j. destruct (decide (j = a)) as [->|Hne].
    + unfold addr in *. now rewrite lookup_alter_eq, !lookup_insert_eq.
    + unfold addr in *. rewrite lookup_alter_ne, !lookup_insert_ne by congruence.
      now rewrite lookup_alter_ne by congruence.
  - rewrite <- !app_assoc. reflexivity.
Qed.

(** X19: [ml_signal_stop] of an active watcher whose registration the kernel
    deletes: the result is 0, the watcher is unlinked and inactive, its
    descriptor is closed and forgotten (-1). *)
Theorem ml_signal_stop_closes
    (a c : addr) (wa : ml_t) (cx : ml_ctx_t) (l : list addr) (s : state)
    (r1 r2 : reply) (k' : kstate) :
  ctxs s !! c = Some cx ->
  dlist (watchers s) None (ctx_watchers cx) l ->
  NoDup l ->
  a ∈ l ->
  watchers s !! a = Some wa ->
  0 < ml_active wa ->
  ml_ctx wa = Some c ->
  answers (kern s)
    [(SysEpollCtl (ctx_fd cx) EPOLL_CTL_DEL (ml_fd wa) None, r1);
     (SysClose (ml_fd wa), r2)] k' ->
  0 <= r_ret r1 ->
  exists s',
    ml_signal_stop (Some a) s = Done 0 s' /\
    registry s' c (without a l) /\
    watchers s' !! a = Some (set_fd (-1) (payload (set_active 0 wa))) /\
    (forall b, b <> a -> payload <$> watchers s' !! b = payload <$> watchers s !! b) /\
    trace s' = trace s ++
      [Sys (SysEpollCtl (ctx_fd cx) EPOLL_CTL_DEL (ml_fd wa) None);
       Sys (SysClose (ml_fd wa))].
Proof.
  intros Hc Hl Hnd Hin Ha Hact Hctx (k1 & Hk1 & k2 & Hk2 & ->) Hr1.
  destruct (_ml_watcher_stop_run a c wa cx l s r1 k1 Hc Hl Hnd Hin Ha Hact Hctx Hk1)
    as [Hstop Hlist].
  set (s1 := after_sys _ r1 k1 _) in Hstop.
  assert (Ha1 : watchers s1 !! a = Some (payload (set_active 0 wa))).
  { cbn. apply unlink_self. now rewrite lookup_alter_eq, Ha. }
  unfold ml_signal_stop.
  erewrite bind_done by (apply _ml_watcher_active_ok; exact Ha).
  destruct (Z.ltb_spec 0 (ml_active wa)) as [_|]; [|lia]. cbn [Z_of_bool Z.eqb].
  rewrite (bind_done _ _ _ _ _ Hstop).
  destruct (Z.ltb_spec (r_ret r1) 0) as [|_]; [lia|]. cbn [Z.eqb negb].
  erewrite bind_done by (apply wget_ok; exact Ha1).
  change (ml_fd (payload (set_active 0 wa))) with (ml_fd wa).
  erewrite bind_done by (apply sys_ok; exact Hk2).
  erewrite bind_done by (eapply wset_alter; cbn [watchers after_sys]; exact Ha1).
  eexists. split; [reflexivity|]. subst s1.
  cbn [watchers ctxs trace after_sys with_watchers with_ctxs].
  split; [|split; [|split]].
  - exists (set_watchers (head_of (without a l)) cx).
    cbn [watchers ctxs after_sys with_watchers with_ctxs]. unfold addr in *.
    rewrite lookup_insert_eq. split; [reflexivity|].
    split; [|now apply NoDup_without].
    apply dlist_alter_links; [now intros w|exact Hlist].
  - rewrite lookup_alter_eq. cbn in Ha1. now rewrite Ha1.
  - intros b Hb. rewrite lookup_alter_ne by congruence. rewrite unlink_payload.
    now rewrite lookup_alter_ne by congruence.
  - now rewrite <- app_assoc.
Qed.

(** X20: [ml_signal_stop] when the kernel refuses to delete the
    registration: the result is -1 and the descriptor is neither closed nor
    forgotten, though the watcher is already inactive and off the list. *)
Theorem ml_signal_stop_refused_keeps_fd
    (a c : addr) (wa : ml_t) (cx : ml_ctx_t) (l : list addr) (s : state)
    (r : reply) (k' : kstate) :
  ctxs s !! c = Some cx ->
  dlist (watchers s) None (ctx_watchers cx) l ->
  NoDup l ->
  a ∈ l ->
  watchers s !! a = Some wa ->
  0 < ml_active wa ->
  ml_ctx wa = Some c ->
  ksys (kern s) (SysEpollCtl (ctx_fd cx) EPOLL_CTL_DEL (ml_fd wa) None) = (r, k') ->
  r_ret r < 0 ->
  exists s',
    ml_signal_stop (Some a) s = Done (-1) s' /\
    registry s' c (without a l) /\
    watchers s' !! a = Some (payload (set_active 0 wa)) /\
    trace s' = trace s ++ [Sys (SysEpollCtl (ctx_fd cx) EPOLL_CTL_DEL (ml_fd wa) None)].
Proof.
  intros Hc Hl Hnd Hin Ha Hact Hctx Hk Hr.
  destruct (_ml_watcher_stop_run a c wa cx l s r k' Hc Hl Hnd Hin Ha Hact Hctx Hk)
    as [Hstop Hlist].
  unfold ml_signal_stop.
  erewrite bind_done by (apply _ml_watcher_active_ok; exact Ha).
  destruct (Z.ltb_spec 0 (ml_active wa)) as [_|]; [|lia]. cbn [Z_of_bool Z.eqb].
  rewrite (bind_done _ _ _ _ _ Hstop).
  destruct (Z.ltb_spec (r_ret r) 0) as [_|]; [|lia]. cbn [Z.eqb negb].
  eexists. split; [reflexivity|].
  cbn [watchers ctxs trace after_sys with_watchers with_ctxs].
  split; [|split].
  - exists (set_watchers (head_of (without a l)) cx).
    cbn [watchers ctxs after_sys with_watchers with_ctxs]. unfold addr in *.
    rewrite lookup_insert_eq. split; [reflexivity|].
    split; [exact Hlist|now apply NoDup_without].
  - apply unlink_self. now rewrite lookup_alter_eq, Ha.
  - reflexivity.
Qed.

(** X21: [ml_signal_start] of a stopped watcher, through [ml_signal_set],
    [ml_signal_init] and [ml_signal_set] again: the result is 0, the watcher
    is active at the head of the list with a new descriptor, registered
    once, and the mask is set twice.  The mask is that of the stored
    [signo]: empty when [sigaddset] refuses the number. *)
Theorem ml_signal_start_stopped
    (a c : addr) (wa : ml_t) (cx : ml_ctx_t) (l : list addr) (s : state)
    (r0 r1 r2 r3 r4 r5 : reply) (k' : kstate) :
  ctxs s !! c = Some cx ->
  dlist (watchers s) None (ctx_watchers cx) l ->
  NoDup l ->
  a ∉ l ->
  watchers s !! a = Some wa ->
  ml_fd wa = -1 ->
  ml_ctx wa = Some c ->
  answers (kern s)
    (zip (SysSignalfd (-1) [] (Z.lor SFD_NONBLOCK SFD_CLOEXEC)
          :: signal_set_calls (ctx_fd cx) a (r_ret r0) MINILOOP_READ (ml_signo wa)
          ++ [SysSigprocmask SIG_BLOCK (mask_of (ml_signo wa));
              SysSignalfd (r_ret r0) (mask_of (ml_signo wa)) SFD_NONBLOCK])
       [r0; r1; r2; r3; r4; r5]) k' ->
  0 <= r_ret r0 ->
  r_ret r1 <> -1 ->
  0 <= r_ret r2 ->
  0 <= r_ret r3 ->
  r_ret r4 <> -1 ->
  0 <= r_ret r5 ->
  exists s',
    ml_signal_start (Some a) s = Done 0 s' /\
    registry s' c (a :: l) /\
    watchers s' !! a =
      Some (Build_ml (head_of l) None 1 MINILOOP_READ (ml_cb wa) (ml_arg wa) (ml_timeout wa)
              (ml_period wa) MINILOOP_SIGNAL_TYPE (ml_signo wa) (r_ret r0) (Some c)) /\
    (forall b, b <> a -> payload <$> watchers s' !! b = payload <$> watchers s !! b) /\
    trace s' = trace s ++
      map Sys (SysSignalfd (-1) [] (Z.lor SFD_NONBLOCK SFD_CLOEXEC)
               :: signal_set_calls (ctx_fd cx) a (r_ret r0) MINILOOP_READ (ml_signo wa)
               ++ [SysSigprocmask SIG_BLOCK (mask_of (ml_signo wa));
                   SysSignalfd (r_ret r0) (mask_of (ml_signo wa)) SFD_NONBLOCK]).
Proof.
  intros Hc Hl Hnd Hnin Ha Hfd Hctx Hk Hr0 Hr1 Hr2 Hr3 Hr4 Hr5.
  set (signo := ml_signo wa) in *.
  assert (Hk' : exists k3,
            answers (kern s)
              (zip (SysSignalfd (-1) [] (Z.lor SFD_NONBLOCK SFD_CLOEXEC)
                    :: signal_set_calls (ctx_fd cx) a (r_ret r0) MINILOOP_READ signo)
                 [r0; r1; r2; r3]) k3 /\
            answers k3 [(SysSigprocmask SIG_BLOCK (mask_of signo), r4);
                        (SysSignalfd (r_ret r0) (mask_of signo) SFD_NONBLOCK, r5)] k').
  { destruct Hk as (k0 & Hk0 & k1 & Hk1 & k2 & Hk2 & k3 & Hk3 & Hrest).
    exists k3. split; [|exact Hrest].
    exists k0. split; [exact Hk0|]. exists k1. split; [exact Hk1|].
    exists k2. split; [exact Hk2|]. exists k3. split; [exact Hk3|reflexivity]. }
  destruct Hk' as (k3 & Hinit & k4 & Hk4 & k5 & Hk5 & ->).
  unfold ml_signal_start. cbn [is_null].
  erewrite bind_done by (apply wget_ok; exact Ha).
  rewrite Hfd. cbn [Z.eqb negb].
  erewrite bind_done by reflexivity.
  erewrite bind_done by (apply wget_ok; exact Ha). fold signo.
  unfold ml_signal_set. cbn [ml_signal_set_fuel].
  rewrite (bind_done _ _ _ _ _ (signal_set_invalid_ok _ _ _ Ha)), Hctx. cbn [is_null].
  erewrite bind_done by (eapply wset_alter; exact Ha).
  set (w1 := set_signo signo wa).
  set (s1 := with_watchers (alter (set_signo signo) a (watchers s)) s).
  assert (Ha1 : watchers s1 !! a = Some w1) by (cbn; now rewrite lookup_alter_eq, Ha).
  assert (Hl1 : dlist (watchers s1) None (ctx_watchers cx) l)
    by (apply dlist_alter_links; [now intros w|exact Hl]).
  erewrite bind_done by (apply wget_ok; exact Ha1).
  change (ml_fd w1) with (ml_fd wa). rewrite Hfd. cbn [Z.ltb Z.compare].
  rewrite !bind_bind_eq.
  erewrite bind_done by (apply wget_ok; exact Ha1).
  rewrite !bind_bind_eq.
  erewrite bind_done by (apply wget_ok; exact Ha1).
  rewrite !bind_bind_eq.
  erewrite bind_done by (apply wget_ok; exact Ha1).
  change (ml_ctx w1) with (ml_ctx wa). rewrite Hctx.
  destruct (ml_signal_init_run a c w1 cx l s1 (ml_cb w1) (ml_arg w1) signo r0 r1 r2 r3 k3
              Hc Hl1 Hnd Hnin Ha1 Hinit Hr0 Hr1 Hr2 Hr3)
    as (s2 & Hrun & Hreg & Hrec & Hothers & Htr & Hkern & _).
  rewrite !bind_bind_eq.
  fold (ml_signal_init (Some c) (Some a) (ml_cb w1) (ml_arg w1) signo).
  rewrite (bind_done _ _ _ _ _ Hrun). cbn [Z.eqb negb].
  erewrite bind_done by reflexivity. cbv beta iota.
  rewrite (bind_done _ _ _ _ _ (sigaddset_run _ _)).
  erewrite bind_done
    by (apply sys_ok; cbn [kern after_sigaddset]; rewrite Hkern; exact Hk4).
  destruct (Z.eqb_spec (r_ret r4) (-1)) as [|_]; [contradiction|].
  erewrite bind_done by (apply wget_ok; cbn [watchers after_sys after_sigaddset]; exact Hrec).
  cbn [ml_fd].
  erewrite bind_done by (apply sys_ok; cbn [kern after_sys]; exact Hk5).
  destruct (Z.ltb_spec (r_ret r5) 0) as [|_]; [lia|].
  erewrite (_ml_watcher_start_active a);
    [|cbn [watchers after_sys after_sigaddset]; exact Hrec|cbn; lia|exact Hr0|discriminate].
  eexists. split; [reflexivity|].
  cbn [watchers ctxs trace after_sys after_sigaddset].
  split; [|split; [|split]].
  - destruct Hreg as (cx2 & Hcx2 & Hl2 & Hnd2). exists cx2.
    cbn [watchers ctxs after_sys after_sigaddset].
    split; [exact Hcx2|split; [exact Hl2|exact Hnd2]].
  - exact Hrec.
  - intros b Hb. rewrite (Hothers b Hb). cbn.
    now rewrite lookup_alter_ne by congruence.
  - rewrite Htr. cbn [trace s1 with_watchers]. rewrite <- !app_assoc.
    cbn [map app signal_set_calls]. reflexivity.
Qed.

End Adapters.

(** ** Restart, dispatch and teardown *)

Section Composition.

Context {KN : Kernel} {EX : Extern}.

(** *** Hang-up and error on an I/O watcher *)

(** A ready I/O record with HUP or ERR, from the stop on: the callback is
    entered in the state the stop has left, with the call recorded. *)
Lemma dispatch_io_hup_err_run
    (a : addr) (wr w0 : ml_t) (f : positive) (raw v : Z) (s s0 : state) :
  watchers s !! a = Some wr ->
  ml_type wr = MINILOOP_IO_TYPE ->
  Z.land raw (Z.lor EPOLLHUP EPOLLERR) <> 0 ->
  _ml_watcher_stop (Some a) s = Done v s0 ->
  watchers s0 !! a = Some w0 ->
  ml_cb w0 = Some f ->
  let ev := to_int32 (Z.land (to_uint32 raw) MINILOOP_EVENT_MASK) in
  dispatch_record (Some a, raw) s =
  cb_body f (Some a) (ml_arg w0) ev
    (Build_state KN (watchers s0) (ctxs s0) (errno s0) (kern s0)
       (trace s0 ++ [Call f (Some a) (ml_arg w0) ev])).
Proof.
  intros Hw Hty Hraw Hstop Hw0 Hcb ev.
  unfold dispatch_record. cbn [fst snd].
  rewrite (bind_done _ _ _ _ _ (wget_ok ml_type _ _ _ Hw)), Hty.
  rewrite land_hup_err_uint32.
  destruct (Z.eqb_spec (Z.land raw (Z.lor EPOLLHUP EPOLLERR)) 0) as [|_]; [contradiction|].
  cbn [negb]. rewrite !bind_bind_eq. unfold ml_io_stop.
  rewrite (bind_done _ _ _ _ _ Hstop).
  erewrite bind_done by reflexivity.
  rewrite (bind_done _ _ _ _ _ (wget_ok ml_cb _ _ _ Hw0)), Hcb. cbn [is_null].
  unfold call_cb.
  rewrite (bind_done _ _ _ _ _ (wget_ok ml_cb _ _ _ Hw0)), Hcb.
  rewrite (bind_done _ _ _ _ _ (wget_ok ml_arg _ _ _ Hw0)).
  reflexivity.
Qed.

(** C5. For a ready record of an I/O watcher with a callback whose raw
    events contain HUP or ERR, the dispatcher stops the watcher before it
    calls the callback.  The events the callback is given are the raw events
    masked to the valid set, in which the HUP and ERR bits are those of the
    raw events.  If the watcher is active and on the well-linked list of its
    context, then whatever the kernel answers to the deregistration, the
    callback is entered in a state where the watcher is off the list, which
    is still well linked, has [active] 0 and both links cleared, and the
    other watchers are changed in their links only; up to there the trace
    has gained the [epoll_ctl] DEL for the watcher's descriptor and then the
    call of the callback, in this order.  If the watcher is not active, the
    stop has nothing to do and the callback is entered in the state of the
    dispatch, with the call recorded. *)
Theorem dispatch_io_hup_err_stops_then_calls
    (a : addr) (wr : ml_t) (f : positive) (raw : Z) (s : state) :
  watchers s !! a = Some wr ->
  ml_type wr = MINILOOP_IO_TYPE ->
  ml_cb wr = Some f ->
  Z.land raw (Z.lor EPOLLHUP EPOLLERR) <> 0 ->
  let ev := to_int32 (Z.land (to_uint32 raw) MINILOOP_EVENT_MASK) in
  Z.land ev (Z.lor EPOLLHUP EPOLLERR) = Z.land raw (Z.lor EPOLLHUP EPOLLERR) /\
  (forall (c : addr) (cx : ml_ctx_t) (l : list addr) (r : reply) (k' : kstate),
     ctxs s !! c = Some cx ->
     dlist (watchers s) None (ctx_watchers cx) l ->
     NoDup l ->
     a ∈ l ->
     0 < ml_active wr ->
     ml_ctx wr = Some c ->
     ksys (kern s) (SysEpollCtl (ctx_fd cx) EPOLL_CTL_DEL (ml_fd wr) None) = (r, k') ->
     exists s1,
       dispatch_record (Some a, raw) s = cb_body f (Some a) (ml_arg wr) ev s1 /\
       registry s1 c (without a l) /\
       watchers s1 !! a = Some (payload (set_active 0 wr)) /\
       _ml_watcher_active (Some a) s1 = Done 0 s1 /\
       (forall b, b <> a -> payload <$> watchers s1 !! b = payload <$> watchers s !! b) /\
       trace s1 = trace s ++
         [Sys (SysEpollCtl (ctx_fd cx) EPOLL_CTL_DEL (ml_fd wr) None);
          Call f (Some a) (ml_arg wr) ev]) /\
  (ml_active wr <= 0 ->
     dispatch_record (Some a, raw) s =
     cb_body f (Some a) (ml_arg wr) ev
       (Build_state KN (watchers s) (ctxs s) (errno s) (kern s)
          (trace s ++ [Call f (Some a) (ml_arg wr) ev]))).
Proof.
  intros Hw Hty Hcb Hraw ev.
  split; [apply masked_events_keep_hup_err|]. split.
  - intros c cx l r k' Hc Hl Hnd Hin Hact Hctx Hk.
    destruct (_ml_watcher_stop_run a c wr cx l s r k' Hc Hl Hnd Hin Hw Hact Hctx Hk)
      as [Hstop Hlist].
    set (s0 := after_sys _ r k' _) in Hstop.
    assert (Hw0 : watchers s0 !! a = Some (payload (set_active 0 wr))).
    { cbn. apply unlink_self. now rewrite lookup_alter_eq, Hw. }
    eexists. split.
    { exact (dispatch_io_hup_err_run a wr _ f raw _ s s0 Hw Hty Hraw Hstop Hw0 Hcb). }
    subst s0. cbn [watchers ctxs trace after_sys with_watchers with_ctxs].
    split; [|split; [|split; [|split]]].
    + exists (set_watchers (head_of (without a l)) cx).
      cbn [watchers ctxs]. unfold addr in *. rewrite lookup_insert_eq.
      split; [reflexivity|]. split; [exact Hlist|now apply NoDup_without].
    + apply unlink_self. now rewrite lookup_alter_eq, Hw.
    + erewrite _ml_watcher_active_ok
        by (cbn [watchers]; apply unlink_self; now rewrite lookup_alter_eq, Hw).
      reflexivity.
    + intros b Hb. rewrite unlink_payload. now rewrite lookup_alter_ne by congruence.
    + now rewrite <- app_assoc.
  - intros Hle.
    exact (dispatch_io_hup_err_run a wr wr f raw 0 s s Hw Hty Hraw
             (_ml_watcher_stop_inactive a wr s Hw Hle) Hw Hcb).
Qed.

(** X22: [ml_io_start] of a stopped watcher registers it again with the
    descriptor, events, callback and argument it has stored, and puts it at
    the head of the list. *)
Theorem ml_io_start_stopped
    (a c : addr) (wa : ml_t) (cx : ml_ctx_t) (l : list addr) (s : state)
    (r : reply) (k' : kstate) :
  ctxs s !! c = Some cx ->
  dlist (watchers s) None (ctx_watchers cx) l ->
  NoDup l ->
  a ∉ l ->
  watchers s !! a = Some wa ->
  ml_active wa <= 0 ->
  0 <= ml_fd wa ->
  ml_ctx wa = Some c ->
  ksys (kern s) (SysEpollCtl (ctx_fd cx) EPOLL_CTL_ADD (ml_fd wa) (registration a wa)) = (r, k') ->
  0 <= r_ret r ->
  exists s',
    ml_io_start (Some a) s = Done 0 s' /\
    registry s' c (a :: l) /\
    watchers s' !! a =
      Some (Build_ml (head_of l) None 1 (ml_events wa) (ml_cb wa) (ml_arg wa)
              (ml_timeout wa) (ml_period wa) MINILOOP_IO_TYPE (ml_signo wa) (ml_fd wa)
              (Some c)) /\
    (forall b, b <> a -> payload <$> watchers s' !! b = payload <$> watchers s !! b) /\
    trace s' = trace s ++
      [Sys (SysEpollCtl (ctx_fd cx) EPOLL_CTL_ADD (ml_fd wa) (registration a wa))].
Proof.
  intros Hc Hl Hnd Hnin Ha Hact Hfd Hctx Hk Hr.
  unfold ml_io_start.
  erewrite bind_done by (apply wget_ok; exact Ha).
  erewrite bind_done by (apply wget_ok; exact Ha).
  unfold ml_io_set.
  assert (Hrearm : (if negb (Z.land (ml_events wa) MINILOOP_ONESHOT =? 0)
                    then act <- _ml_watcher_active (Some a) ;; ret (negb (act =? 0))
                    else ret false) s = Done false s).
  { destruct (negb _); [|reflexivity].
    erewrite bind_done by (apply _ml_watcher_active_ok; exact Ha).
    now destruct (Z.ltb_spec 0 (ml_active wa)) as [|_]; [lia|]. }
  rewrite (bind_done _ _ _ _ _ Hrearm). cbv beta iota.
  unfold ml_io_stop at 1.
  rewrite (bind_done _ _ _ _ _ (_ml_watcher_stop_inactive a wa s Ha Hact)).
  erewrite bind_done by (apply wget_ok; exact Ha).
  erewrite bind_done by (apply wget_ok; exact Ha).
  erewrite bind_done by (apply wget_ok; exact Ha).
  rewrite Hctx.
  exact (ml_io_init_run a c wa cx l s (ml_cb wa) (ml_arg wa) (ml_fd wa) (ml_events wa) r k'
           Hc Hl Hnd Hnin Ha Hfd Hk Hr).
Qed.



(** X25: [ml_run] over I/O watchers when the wait fails for good: every
    watcher is taken off the list and deregistered, the demultiplexer is
    closed, and the result is -2. *)
Theorem ml_run_wait_failure_tears_down
    (fuel : nat) (c : addr) (cx : ml_ctx_t) (l : list addr) (flags : Z) (s : state)
    (r : reply) (k' : kstate) :
  ctxs s !! c = Some cx ->
  0 <= ctx_fd cx ->
  dlist (watchers s) None (ctx_watchers cx) l ->
  NoDup l ->
  l <> [] ->
  (forall a w, a ∈ l -> watchers s !! a = Some w -> io_of c w /\ ml_active w <> -1) ->
  (length l <= S fuel)%nat ->
  ksys (kern s) (SysEpollWait (ctx_fd cx) (ctx_maxevents cx) (run_timeout flags)) = (r, k') ->
  r_ret r < 0 ->
  r_errno r <> EINTR ->
  exists s',
    ml_run (S (S fuel)) (Some c) flags s = Done (-2) s' /\
    (forall a w, a ∈ l -> watchers s !! a = Some w -> watchers s' !! a = Some (exited w)) /\
    ctxs s' !! c =
      Some (Build_ctx 0 (ctx_inotify_fd cx) (-1) (ctx_maxevents cx) None 0) /\
    trace s' = trace s ++
      Sys (SysEpollWait (ctx_fd cx) (ctx_maxevents cx) (run_timeout flags))
      :: exit_calls (ctx_fd cx) (watchers s) l ++ [Sys (SysClose (ctx_fd cx))].
Proof.
  intros Hc Hfd Hl Hnd Hne Hio Hlen Hk Hr He.
  assert (Hplain : all_plain s l).
  { intros a Ha. destruct (dlist_valid _ _ _ _ _ Hl Ha) as [w Hw].
    destruct (Hio a w Ha Hw) as [[Hty _] Hact]. exists w. split; [exact Hw|].
    split; [rewrite Hty; discriminate|now left]. }
  rewrite (ml_run_wait_failure_run fuel c cx l flags s r k' Hc Hfd Hl Hne Hplain Hlen Hk Hr He).
  set (cx1 := set_workaround 0 (set_running 1 cx)).
  match goal with |- context [bind _ _ ?st] => set (s2 := st) end.
  assert (Hc2 : ctxs s2 !! c = Some cx1) by (cbn; unfold addr; apply lookup_insert_eq).
  destruct (ml_exit_io_run (S fuel) c cx1 l s2 Hc2 Hl Hnd) as
    (s' & Hrun & Hin & _ & Hcs & Htr); [|exact Hlen|].
  { intros a w Ha Hw. now apply (Hio a w Ha). }
  rewrite (bind_done _ _ _ _ _ Hrun). exists s'. split; [reflexivity|].
  split; [exact Hin|]. split.
  - rewrite Hcs. unfold addr. now rewrite lookup_insert_eq.
  - rewrite Htr. cbn [trace s2 after_sys with_ctxs ctx_fd cx1 set_workaround set_running watchers].
    destruct (Z.ltb_spec (-1) (ctx_fd cx)) as [_|]; [|lia].
    now rewrite <- app_assoc.
Qed.

End Composition.

(** * The theorems above, at work on the scenarios *)

(** Membership in a list that is written out, the links of a list that is
    written out, and the answers of the scripted kernel. *)
Ltac members :=
  repeat match goal with
  | H : _ ∈ _ :: _ |- _ => apply elem_of_cons in H as [->|H]
  | H : _ ∈ [] |- _ => apply elem_of_nil in H; contradiction
  end.

Ltac decided := refine (bool_decide_unpack _ _); vm_compute; exact I.

Ltac written_out := repeat first [reflexivity | split | eexists].

Section CaseRuns.

Import Scenario Cases.

#[local] Existing Instance scripted.
#[local] Existing Instance env.

(** *** C5 *)

Lemma dispatch_io_hup_err_stops_then_calls_witness :
  exists s1,
    dispatch_record (w1, Z.lor EPOLLIN EPOLLHUP) (both_active 1 [fails EINVAL]) =
      cb_body cb_quit w1 0 (Z.lor EPOLLIN EPOLLHUP) s1 /\
    registry s1 1%positive [2%positive] /\
    watchers s1 !! 1%positive = Some (io_w None None 0 cb_quit 5) /\
    _ml_watcher_active w1 s1 = Done 0 s1 /\
    trace s1 = [Sys (SysEpollCtl 3 EPOLL_CTL_DEL 5 None);
                Call cb_quit w1 0 (Z.lor EPOLLIN EPOLLHUP)].
Proof.
  destruct (proj1 (proj2 (dispatch_io_hup_err_stops_then_calls 1%positive
                            (io_w None w2 1 cb_quit 5) cb_quit (Z.lor EPOLLIN EPOLLHUP)
                            (both_active 1 [fails EINVAL])
                            eq_refl eq_refl eq_refl ltac:(discriminate)))
              1%positive (ctx_of 1 3 w2) [2%positive; 1%positive] (fails EINVAL) [])
    as (s1 & Hrun & Hreg & Hrec & Hact & _ & Htr).
  - reflexivity.
  - written_out.
  - decided.
  - decided.
  - reflexivity.
  - reflexivity.
  - reflexivity.
  - exists s1. repeat split; assumption.
Defined.

(** *** The extensions *)

Lemma _ml_watcher_stop_unlinks_witness :
  exists s',
    _ml_watcher_stop w1 (both_active 0 [ok 0]) = Done 0 s' /\
    registry s' 1%positive [2%positive] /\
    watchers s' !! 1%positive = Some (io_w None None 0 cb_quit 5) /\
    trace s' = [Sys (SysEpollCtl 3 EPOLL_CTL_DEL 5 None)].
Proof.
  destruct (_ml_watcher_stop_unlinks 1%positive 1%positive (io_w None w2 1 cb_quit 5)
              (ctx_of 0 3 w2) [2%positive; 1%positive] (both_active 0 [ok 0]) (ok 0) [])
    as (s' & Hrun & Hreg & Hrec & _ & _ & Htr).
  - reflexivity.
  - written_out.
  - decided.
  - decided.
  - reflexivity.
  - reflexivity.
  - reflexivity.
  - reflexivity.
  - exists s'. repeat split; assumption.
Defined.


Lemma _ml_watcher_start_links_witness :
  exists s',
    _ml_watcher_start w1 (one_active (io_w None None 0 cb_quit 5) [ok 0]) = Done 0 s' /\
    registry s' 1%positive [1%positive; 2%positive] /\
    watchers s' !! 1%positive = Some (io_w w2 None 1 cb_quit 5) /\
    trace s' = [Sys (SysEpollCtl 3 EPOLL_CTL_ADD 5 (Some (8193, w1)))].
Proof.
  destruct (_ml_watcher_start_links 1%positive 1%positive (io_w None None 0 cb_quit 5)
              (ctx_of 0 3 w2) [2%positive]
              (one_active (io_w None None 0 cb_quit 5) [ok 0]) (ok 0) [])
    as (s' & Hrun & Hreg & Hrec & _ & _ & Htr & _).
  - reflexivity.
  - written_out.
  - decided.
  - decided.
  - reflexivity.
  - reflexivity.
  - vm_compute. discriminate.
  - reflexivity.
  - reflexivity.
  - vm_compute. discriminate.
  - exists s'. repeat split; assumption.
Defined.

Lemma start_stop_round_trip_witness :
  exists s1 s2,
    _ml_watcher_start w1 (one_active (io_w None None 0 cb_quit 5) [ok 0; ok 0]) = Done 0 s1 /\
    _ml_watcher_stop w1 s1 = Done 0 s2 /\
    watchers s2 = watchers (one_active (io_w None None 0 cb_quit 5) [ok 0; ok 0]) /\
    ctxs s2 = ctxs (one_active (io_w None None 0 cb_quit 5) [ok 0; ok 0]).
Proof.
  destruct (start_stop_round_trip 1%positive 1%positive (io_w None None 0 cb_quit 5)
              (ctx_of 0 3 w2) [2%positive]
              (one_active (io_w None None 0 cb_quit 5) [ok 0; ok 0]) (ok 0) (ok 0) [ok 0] [])
    as (s1 & s2 & Hstart & Hstop & Hw & Hc & _).
  - reflexivity.
  - written_out.
  - decided.
  - decided.
  - reflexivity.
  - reflexivity.
  - reflexivity.
  - reflexivity.
  - vm_compute. discriminate.
  - reflexivity.
  - reflexivity.
  - vm_compute. discriminate.
  - reflexivity.
  - exists s1, s2. repeat split; assumption.
Defined.

Lemma _ml_watcher_start_refused_witness :
  exists s',
    _ml_watcher_start w1 (one_active (io_w None None 0 cb_quit 5) [fails EINVAL])
      = Done (-1) s' /\
    watchers s' = watchers (one_active (io_w None None 0 cb_quit 5) [fails EINVAL]) /\
    ctxs s' = ctxs (one_active (io_w None None 0 cb_quit 5) [fails EINVAL]) /\
    errno s' = EINVAL.
Proof.
  destruct (_ml_watcher_start_refused 1%positive 1%positive (io_w None None 0 cb_quit 5)
              (ctx_of 0 3 w2) (one_active (io_w None None 0 cb_quit 5) [fails EINVAL])
              (fails EINVAL) [])
    as (s' & Hrun & Hw & Hc & He & _).
  - reflexivity.
  - reflexivity.
  - vm_compute. discriminate.
  - vm_compute. discriminate.
  - reflexivity.
  - reflexivity.
  - reflexivity.
  - left. discriminate.
  - exists s'. repeat split; assumption.
Defined.

Lemma _ml_watcher_start_stdin_workaround_witness :
  exists s',
    _ml_watcher_start w1
      (mem (io_w None None 0 cb_idle STDIN_FILENO) blank_w (ctx_of 0 3 None) [fails EPERM] [])
      = Done 0 s' /\
    watchers s' !! 1%positive = Some (io_w None None (-1) cb_idle STDIN_FILENO) /\
    ctxs s' !! 1%positive = Some (Build_ctx 0 4 3 8 w1 1).
Proof.
  destruct (_ml_watcher_start_stdin_workaround 1%positive 1%positive
              (io_w None None 0 cb_idle STDIN_FILENO) (ctx_of 0 3 None) []
              (mem (io_w None None 0 cb_idle STDIN_FILENO) blank_w (ctx_of 0 3 None)
                 [fails EPERM] [])
              (fails EPERM) [])
    as (s' & Hrun & _ & Hrec & _ & Hc).
  - reflexivity.
  - reflexivity.
  - decided.
  - decided.
  - reflexivity.
  - vm_compute. discriminate.
  - reflexivity.
  - reflexivity.
  - reflexivity.
  - reflexivity.
  - reflexivity.
  - reflexivity.
  - reflexivity.
  - exists s'. split; [exact Hrun|]. split; [exact Hrec|]. rewrite Hc. reflexivity.
Defined.

Lemma ml_run_no_watchers_witness :
  ml_run 1 ctx 0 (none_active 3 []) = Done 0 (mem blank_w blank_w (ctx_of 1 3 None) [] []).
Proof.
  apply (ml_run_no_watchers 0 1%positive (ctx_of 0 3 None) 0 (none_active 3 [])).
  - reflexivity.
  - vm_compute. discriminate.
  - reflexivity.
Defined.

Lemma epoll_wait_retries_eintr_witness :
  epoll_wait_loop 3 3 ctx (-1) (both_active 1 [fails EINTR; fails EINTR; ok 0]) =
  Done (Some (0, []))
    (Build_state scripted (watchers (both_active 1 [])) (ctxs (both_active 1 [])) EINTR []
       (replicate 3 (Sys (SysEpollWait 3 8 (-1))))).
Proof.
  apply (epoll_wait_retries_eintr (KN := scripted) 2 1%positive (ctx_of 1 3 w2) (-1) (ok 0) [ok 0] [] 3 3
           (both_active 1 [fails EINTR; fails EINTR; ok 0])).
  - reflexivity.
  - discriminate.
  - written_out.
  - reflexivity.
  - vm_compute. discriminate.
  - lia.
Defined.

Lemma ml_run_once_one_cycle_witness :
  ml_run 3 ctx MINILOOP_ONCE (both_active 0 [batch]) =
  (dispatch_loop ctx [(w1, EPOLLIN); (w2, EPOLLIN)] ;; ret 0)
    (mem (io_w None w2 1 cb_quit 5) (io_w w1 None 1 cb_idle 6) (ctx_of 1 3 w2) []
       [Sys (SysEpollWait 3 8 (-1))]).
Proof.
  apply (ml_run_once_one_cycle 1 1%positive (ctx_of 0 3 w2) [2%positive; 1%positive]
           MINILOOP_ONCE (both_active 0 [batch]) batch []).
  - reflexivity.
  - vm_compute. discriminate.
  - written_out.
  - discriminate.
  - intros a Ha. members; eexists; (split; [reflexivity|]);
      (split; [discriminate|left; discriminate]).
  - cbn. lia.
  - reflexivity.
  - discriminate.
  - split; vm_compute; discriminate.
Defined.

Lemma ml_run_poll_nothing_ready_witness :
  ml_run 3 ctx 3 (both_active 0 [ok 0]) =
  Done 0 (mem (io_w None w2 1 cb_quit 5) (io_w w1 None 1 cb_idle 6) (ctx_of 1 3 w2) []
            [Sys (SysEpollWait 3 8 0)]).
Proof.
  apply (ml_run_poll_nothing_ready 1 1%positive (ctx_of 0 3 w2) [2%positive; 1%positive]
           3 (both_active 0 [ok 0]) (ok 0) []).
  - reflexivity.
  - vm_compute. discriminate.
  - written_out.
  - discriminate.
  - intros a Ha. members; eexists; (split; [reflexivity|]);
      (split; [discriminate|left; discriminate]).
  - cbn. lia.
  - discriminate.
  - discriminate.
  - reflexivity.
  - reflexivity.
Defined.

Lemma ml_run_wait_failure_witness :
  ml_run 3 ctx 0 (both_active 0 [fails EINVAL]) =
  (ml_exit 2 ctx ;; ret (-2))
    (Build_state scripted (watchers (both_active 0 [])) (<[1%positive := ctx_of 1 3 w2]> ∅)
       EINVAL [] [Sys (SysEpollWait 3 8 (-1))]).
Proof.
  apply (ml_run_wait_failure 1 1%positive (ctx_of 0 3 w2) [2%positive; 1%positive]
           0 (both_active 0 [fails EINVAL]) (fails EINVAL) []).
  - reflexivity.
  - vm_compute. discriminate.
  - written_out.
  - discriminate.
  - intros a Ha. members; eexists; (split; [reflexivity|]);
      (split; [discriminate|left; discriminate]).
  - cbn. lia.
  - reflexivity.
  - reflexivity.
  - discriminate.
Defined.

Lemma ml_exit_twice_witness :
  ml_exit 1 ctx (none_active (-1) [Sys (SysClose 3)]) =
  Done 0 (none_active (-1) [Sys (SysClose 3)]).
Proof.
  apply (ml_exit_twice 1 1 1%positive (none_active 3 []) 0
           (none_active (-1) [Sys (SysClose 3)])).
  reflexivity.
Defined.

Lemma ml_run_after_exit_witness :
  ml_run 3 ctx 0 (none_active (-1) [Sys (SysClose 3)]) =
  Done (-1)
    (Build_state scripted (watchers (none_active (-1) [])) (ctxs (none_active (-1) []))
       EINVAL [] [Sys (SysClose 3)]).
Proof.
  apply (ml_run_after_exit 1 3 1%positive 0 (none_active 3 []) 0
           (none_active (-1) [Sys (SysClose 3)])).
  reflexivity.
Defined.

Lemma ml_exit_io_watchers_witness :
  exists s',
    ml_exit 2 ctx (both_active 1 []) = Done 0 s' /\
    watchers s' !! 1%positive = Some (io_w None None 0 cb_quit 5) /\
    watchers s' !! 2%positive = Some (io_w None None 0 cb_idle 6) /\
    ctxs s' !! 1%positive = Some (ctx_of 0 (-1) None) /\
    trace s' = [Sys (SysEpollCtl 3 EPOLL_CTL_DEL 6 None);
                Sys (SysEpollCtl 3 EPOLL_CTL_DEL 5 None);
                Sys (SysClose 3)].
Proof.
  destruct (ml_exit_io_watchers 2 1%positive (ctx_of 1 3 w2) [2%positive; 1%positive]
              (both_active 1 []))
    as (s' & Hrun & Hin & _ & Hc & Htr).
  - reflexivity.
  - written_out.
  - decided.
  - intros a w Ha Hw. members; vm_compute in Hw; injection Hw as <-; split; reflexivity.
  - cbn. lia.
  - exists s'. split; [exact Hrun|].
    split; [apply (Hin 1%positive (io_w None w2 1 cb_quit 5)); [decided|reflexivity]|].
    split; [apply (Hin 2%positive (io_w w1 None 1 cb_idle 6)); [decided|reflexivity]|].
    split; [rewrite Hc; reflexivity|exact Htr].
Defined.

Lemma ml_init_creates_witness :
  ml_init ctx 8 (boot [ok 3; ok 4]) =
  Done 0 (Build_state scripted (watchers (boot [])) (<[1%positive := ctx_of 0 3 None]> ∅)
            0 []
            [Sys (SysEpollCreate1 EPOLL_CLOEXEC);
             Sys (SysInotifyInit1 (Z.lor IN_NONBLOCK IN_CLOEXEC))]).
Proof.
  apply (ml_init_creates 1%positive blank_ctx 8 (boot [ok 3; ok 4]) (ok 3) (ok 4) []).
  - reflexivity.
  - lia.
  - written_out.
  - vm_compute. discriminate.
  - vm_compute. discriminate.
Defined.

Lemma ml_io_init_links_witness :
  exists s',
    ml_io_init ctx w1 (Some cb_quit) 0 5 MINILOOP_READ (one_active blank_w [ok 0])
      = Done 0 s' /\
    registry s' 1%positive [1%positive; 2%positive] /\
    watchers s' !! 1%positive = Some (io_w w2 None 1 cb_quit 5) /\
    trace s' = [Sys (SysEpollCtl 3 EPOLL_CTL_ADD 5 (Some (8193, w1)))].
Proof.
  destruct (ml_io_init_links 1%positive 1%positive blank_w (ctx_of 0 3 w2) [2%positive]
              (one_active blank_w [ok 0]) (Some cb_quit) 0 5 MINILOOP_READ (ok 0) [])
    as (s' & Hrun & Hreg & Hrec & _ & Htr).
  - reflexivity.
  - written_out.
  - decided.
  - decided.
  - reflexivity.
  - lia.
  - reflexivity.
  - vm_compute. discriminate.
  - exists s'. repeat split; assumption.
Defined.

Lemma ml_io_set_restarts_witness :
  exists s',
    ml_io_set w1 9 MINILOOP_WRITE (both_active 0 [fails EINVAL; ok 0]) = Done 0 s' /\
    registry s' 1%positive [1%positive; 2%positive] /\
    watchers s' !! 1%positive =
      Some (Build_ml w2 None 1 MINILOOP_WRITE (Some cb_quit) 0 0 0 MINILOOP_IO_TYPE 0 9 ctx) /\
    trace s' = [Sys (SysEpollCtl 3 EPOLL_CTL_DEL 5 None);
                Sys (SysEpollCtl 3 EPOLL_CTL_ADD 9 (Some (8196, w1)))].
Proof.
  destruct (ml_io_set_restarts 1%positive 1%positive (io_w None w2 1 cb_quit 5)
              (ctx_of 0 3 w2) [2%positive; 1%positive]
              (both_active 0 [fails EINVAL; ok 0]) 9 MINILOOP_WRITE (fails EINVAL) (ok 0) [])
    as (s' & Hrun & Hreg & Hrec & _ & Htr).
  - reflexivity.
  - written_out.
  - decided.
  - decided.
  - reflexivity.
  - reflexivity.
  - reflexivity.
  - reflexivity.
  - lia.
  - written_out.
  - vm_compute. discriminate.
  - exists s'. repeat split; assumption.
Defined.

Lemma ml_signal_init_registers_witness :
  exists s',
    ml_signal_init ctx w1 (Some cb_idle) 0 2 (one_active blank_w [ok 7; ok 0; ok 7; ok 0])
      = Done 0 s' /\
    registry s' 1%positive [1%positive; 2%positive] /\
    watchers s' !! 1%positive = Some (sig_w w2 None 1 7) /\
    trace s' = [Sys (SysSignalfd (-1) [] (Z.lor SFD_NONBLOCK SFD_CLOEXEC));
                Sys (SysSigprocmask SIG_BLOCK [2]);
                Sys (SysSignalfd 7 [2] SFD_NONBLOCK);
                Sys (SysEpollCtl 3 EPOLL_CTL_ADD 7 (Some (8193, w1)))] /\
    errno s' = 0.
Proof.
  destruct (ml_signal_init_registers 1%positive 1%positive blank_w (ctx_of 0 3 w2)
              [2%positive] (one_active blank_w [ok 7; ok 0; ok 7; ok 0])
              (Some cb_idle) 0 2 (ok 7) (ok 0) (ok 7) (ok 0) [])
    as (s' & Hrun & Hreg & Hrec & _ & Htr & Herr).
  - reflexivity.
  - written_out.
  - decided.
  - decided.
  - reflexivity.
  - written_out.
  - vm_compute. discriminate.
  - discriminate.
  - vm_compute. discriminate.
  - vm_compute. discriminate.
  - exists s'. repeat split; assumption.
Defined.

(** The same call for the signal number 0, which [sigaddset] refuses: the
    kernel is handed empty masks, the result is still 0, and [errno] is
    left at EINVAL. *)
Example ml_signal_init_number_refused :
  exists s',
    ml_signal_init ctx w1 (Some cb_idle) 0 0 (one_active blank_w [ok 7; ok 0; ok 7; ok 0])
      = Done 0 s' /\
    trace s' = [Sys (SysSignalfd (-1) [] (Z.lor SFD_NONBLOCK SFD_CLOEXEC));
                Sys (SysSigprocmask SIG_BLOCK []);
                Sys (SysSignalfd 7 [] SFD_NONBLOCK);
                Sys (SysEpollCtl 3 EPOLL_CTL_ADD 7 (Some (8193, w1)))] /\
    errno s' = EINVAL /\
    ml_active <$> watchers s' !! 1%positive = Some 1.
Proof. eexists. split; [vm_compute; reflexivity|]. repeat split. Qed.

Lemma ml_signal_init_refused_closes_witness :
  exists s',
    ml_signal_init ctx w1 (Some cb_idle) 0 2
      (one_active blank_w [ok 7; ok 0; ok 7; fails EINVAL; ok 0]) = Done (-1) s' /\
    watchers s' !! 1%positive = Some (sig_w None None 0 7) /\
    ctxs s' = ctxs (one_active blank_w []) /\
    trace s' = [Sys (SysSignalfd (-1) [] (Z.lor SFD_NONBLOCK SFD_CLOEXEC));
                Sys (SysSigprocmask SIG_BLOCK [2]);
                Sys (SysSignalfd 7 [2] SFD_NONBLOCK);
                Sys (SysEpollCtl 3 EPOLL_CTL_ADD 7 (Some (8193, w1)));
                Sys (SysClose 7)].
Proof.
  destruct (ml_signal_init_refused_closes 1%positive 1%positive blank_w (ctx_of 0 3 w2)
              (one_active blank_w [ok 7; ok 0; ok 7; fails EINVAL; ok 0])
              (Some cb_idle) 0 2 (ok 7) (ok 0) (ok 7) (fails EINVAL) (ok 0) [])
    as (s' & Hrun & Hw & Hc & Htr).
  - reflexivity.
  - reflexivity.
  - written_out.
  - vm_compute. discriminate.
  - discriminate.
  - vm_compute. discriminate.
  - reflexivity.
  - exists s'. split; [exact Hrun|]. split; [rewrite Hw; reflexivity|].
    split; assumption.
Defined.

Lemma ml_signal_stop_closes_witness :
  exists s',
    ml_signal_stop w1
      (mem (sig_w w2 None 1 7) (io_w None w1 1 cb_idle 6) (ctx_of 0 3 w1) [ok 0; ok 0] [])
      = Done 0 s' /\
    registry s' 1%positive [2%positive] /\
    watchers s' !! 1%positive = Some (sig_w None None 0 (-1)) /\
    trace s' = [Sys (SysEpollCtl 3 EPOLL_CTL_DEL 7 None); Sys (SysClose 7)].
Proof.
  destruct (ml_signal_stop_closes 1%positive 1%positive (sig_w w2 None 1 7) (ctx_of 0 3 w1)
              [1%positive; 2%positive]
              (mem (sig_w w2 None 1 7) (io_w None w1 1 cb_idle 6) (ctx_of 0 3 w1)
                 [ok 0; ok 0] [])
              (ok 0) (ok 0) [])
    as (s' & Hrun & Hreg & Hrec & _ & Htr).
  - reflexivity.
  - written_out.
  - decided.
  - decided.
  - reflexivity.
  - reflexivity.
  - reflexivity.
  - written_out.
  - vm_compute. discriminate.
  - exists s'. repeat split; assumption.
Defined.

Lemma ml_signal_stop_refused_keeps_fd_witness :
  exists s',
    ml_signal_stop w1
      (mem (sig_w w2 None 1 7) (io_w None w1 1 cb_idle 6) (ctx_of 0 3 w1) [fails EINVAL] [])
      = Done (-1) s' /\
    registry s' 1%positive [2%positive] /\
    watchers s' !! 1%positive = Some (sig_w None None 0 7) /\
    trace s' = [Sys (SysEpollCtl 3 EPOLL_CTL_DEL 7 None)].
Proof.
  destruct (ml_signal_stop_refused_keeps_fd 1%positive 1%positive (sig_w w2 None 1 7)
              (ctx_of 0 3 w1) [1%positive; 2%positive]
              (mem (sig_w w2 None 1 7) (io_w None w1 1 cb_idle 6) (ctx_of 0 3 w1)
                 [fails EINVAL] [])
              (fails EINVAL) [])
    as (s' & Hrun & Hreg & Hrec & Htr).
  - reflexivity.
  - written_out.
  - decided.
  - decided.
  - reflexivity.
  - reflexivity.
  - reflexivity.
  - reflexivity.
  - reflexivity.
  - exists s'. repeat split; assumption.
Defined.

Lemma ml_signal_start_stopped_witness :
  exists s',
    ml_signal_start w1
      (one_active (sig_w None None 0 (-1)) [ok 7; ok 0; ok 7; ok 0; ok 0; ok 7]) = Done 0 s' /\
    registry s' 1%positive [1%positive; 2%positive] /\
    watchers s' !! 1%positive = Some (sig_w w2 None 1 7) /\
    trace s' = [Sys (SysSignalfd (-1) [] (Z.lor SFD_NONBLOCK SFD_CLOEXEC));
                Sys (SysSigprocmask SIG_BLOCK [2]);
                Sys (SysSignalfd 7 [2] SFD_NONBLOCK);
                Sys (SysEpollCtl 3 EPOLL_CTL_ADD 7 (Some (8193, w1)));
                Sys (SysSigprocmask SIG_BLOCK [2]);
                Sys (SysSignalfd 7 [2] SFD_NONBLOCK)].
Proof.
  destruct (ml_signal_start_stopped 1%positive 1%positive (sig_w None None 0 (-1))
              (ctx_of 0 3 w2) [2%positive]
              (one_active (sig_w None None 0 (-1)) [ok 7; ok 0; ok 7; ok 0; ok 0; ok 7])
              (ok 7) (ok 0) (ok 7) (ok 0) (ok 0) (ok 7) [])
    as (s' & Hrun & Hreg & Hrec & _ & Htr).
  - reflexivity.
  - written_out.
  - decided.
  - decided.
  - reflexivity.
  - reflexivity.
  - reflexivity.
  - written_out.
  - vm_compute. discriminate.
  - discriminate.
  - vm_compute. discriminate.
  - vm_compute. discriminate.
  - discriminate.
  - vm_compute. discriminate.
  - exists s'. repeat split; assumption.
Defined.

Lemma ml_io_start_stopped_witness :
  exists s',
    ml_io_start w1 (one_active (io_w None None 0 cb_quit 5) [ok 0]) = Done 0 s' /\
    registry s' 1%positive [1%positive; 2%positive] /\
    watchers s' !! 1%positive = Some (io_w w2 None 1 cb_quit 5) /\
    trace s' = [Sys (SysEpollCtl 3 EPOLL_CTL_ADD 5 (Some (8193, w1)))].
Proof.
  destruct (ml_io_start_stopped 1%positive 1%positive (io_w None None 0 cb_quit 5)
              (ctx_of 0 3 w2) [2%positive]
              (one_active (io_w None None 0 cb_quit 5) [ok 0]) (ok 0) [])
    as (s' & Hrun & Hreg & Hrec & _ & Htr).
  - reflexivity.
  - written_out.
  - decided.
  - decided.
  - reflexivity.
  - vm_compute. discriminate.
  - vm_compute. discriminate.
  - reflexivity.
  - reflexivity.
  - vm_compute. discriminate.
  - exists s'. repeat split; assumption.
Defined.



Lemma ml_run_wait_failure_tears_down_witness :
  exists s',
    ml_run 3 ctx 0 (both_active 0 [fails EINVAL]) = Done (-2) s' /\
    watchers s' !! 1%positive = Some (io_w None None 0 cb_quit 5) /\
    ctxs s' !! 1%positive = Some (ctx_of 0 (-1) None) /\
    trace s' = [Sys (SysEpollWait 3 8 (-1));
                Sys (SysEpollCtl 3 EPOLL_CTL_DEL 6 None);
                Sys (SysEpollCtl 3 EPOLL_CTL_DEL 5 None);
                Sys (SysClose 3)].
Proof.
  destruct (ml_run_wait_failure_tears_down 1 1%positive (ctx_of 0 3 w2)
              [2%positive; 1%positive] 0 (both_active 0 [fails EINVAL]) (fails EINVAL) [])
    as (s' & Hrun & Hin & Hc & Htr).
  - reflexivity.
  - vm_compute. discriminate.
  - written_out.
  - decided.
  - discriminate.
  - intros a w Ha Hw. members; vm_compute in Hw; injection Hw as <-;
      (split; [split; reflexivity|discriminate]).
  - cbn. lia.
  - reflexivity.
  - reflexivity.
  - discriminate.
  - exists s'. split; [exact Hrun|].
    split; [apply (Hin 1%positive (io_w None w2 1 cb_quit 5)); [decided|reflexivity]|].
    split; assumption.
Defined.

End CaseRuns.
